(** * The AWS CodeCommit platform adapter of Renovate

    A shallow embedding of [lib/modules/platform/codecommit/index.ts].

    The adapter is asynchronous, single-threaded code that talks to the
    remote service through the functions of [./codecommit-client] and keeps
    one module-level mutable object, [config].  It is embedded as programs
    of a small free monad [prog]: a program either returns, throws, awaits
    one client call, or reads / updates [config].  A program is run against
    a [remote], which answers every client call (possibly by rejecting it)
    and may answer differently each time; the run yields the outcome, the
    final [config] and the list of client calls issued, in order.

    Logging has no influence on results or on remote calls and is left out.
    Strings hold the text of JavaScript strings in UTF-8, so that prefix,
    equality and concatenation are those of the text; [trim] and [parseInt]
    strip the white space of the language, whatever its encoded length,
    while the classes [\s] and [.] of the regular expressions are followed
    on bytes.  Numbers are the integers among the doubles: [parseInt]
    rounds what it reads to the nearest double and the template literal
    prints the shortest digits that read back, in exponential form from
    [1e21] on. *)

From Stdlib Require Import String Ascii List ZArith Bool Lia DecimalString.
From ExtLib Require Import Structures.Monad Structures.MonadExc.
Import ListNotations.
Import MonadNotation.
Local Open Scope string_scope.
Local Open Scope monad_scope.

(** ** JavaScript values used by the adapter *)

Module JS.

(** A [number] that holds an integer, [NaN] or an infinity.  The integers
    of JavaScript are doubles: [Int z] is meant for a [z] that a double
    holds, which is what [parseInt] returns; [toString] takes any other
    [z] for the double nearest to it.  The two zeros are not told apart. *)
Inductive Number : Type :=
| Int (z : Z)
| NaN
| Infinity (negative : bool).

(** Truthiness of a possibly-undefined string: [undefined], [null] and the
    empty string are falsy. *)
Definition truthy (o : option string) : bool :=
  match o with
  | Some s => negb (s =? "")
  | None => false
  end.

(** [a === b] on possibly-undefined strings. *)
Definition strictEq (a b : option string) : bool :=
  match a, b with
  | Some x, Some y => x =? y
  | None, None => true
  | _, _ => false
  end.

(** [s.startsWith(p)]. *)
Definition startsWith (s p : string) : bool := String.prefix p s.

(** The white space of one byte: U+0009 to U+000D and U+0020. *)
Definition isWhiteSpace (c : ascii) : bool :=
  let n := nat_of_ascii c in
  ((9 <=? n) && (n <=? 13) || (n =? 32))%nat.

(** The string of the given bytes. *)
Definition bytes (l : list nat) : string :=
  fold_right (fun n s => String (ascii_of_nat n) s) EmptyString l.

(** The white space that [trim] and [parseInt] strip, [WhiteSpace] and
    [LineTerminator] of the language, in UTF-8: U+0009 to U+000D, U+0020,
    U+00A0, U+1680, U+2000 to U+200A, U+2028, U+2029, U+202F, U+205F,
    U+3000 and U+FEFF. *)
Definition whiteSpace : list string :=
  map bytes
    [ [9]; [10]; [11]; [12]; [13]; [32];
      [194; 160];
      [225; 154; 128];
      [226; 128; 128]; [226; 128; 129]; [226; 128; 130]; [226; 128; 131];
      [226; 128; 132]; [226; 128; 133]; [226; 128; 134]; [226; 128; 135];
      [226; 128; 136]; [226; 128; 137]; [226; 128; 138];
      [226; 128; 168]; [226; 128; 169]; [226; 128; 175];
      [226; 129; 159];
      [227; 128; 128];
      [239; 187; 191] ].

(** [w] is one white-space character. *)
Definition isSpace (w : string) : bool := existsb (String.eqb w) whiteSpace.

(** [s.trimStart()]: the white-space characters at the start of [s], of
    one, two or three bytes each, are dropped. *)
Fixpoint trimStart (s : string) : string :=
  match s with
  | EmptyString => EmptyString
  | String a r1 =>
      if isSpace (String a EmptyString) then trimStart r1
      else
        match r1 with
        | EmptyString => s
        | String b r2 =>
            if isSpace (String a (String b EmptyString)) then trimStart r2
            else
              match r2 with
              | EmptyString => s
              | String c r3 =>
                  if isSpace (String a (String b (String c EmptyString)))
                  then trimStart r3
                  else s
              end
        end
  end.

(** [s] holds white space only. *)
Fixpoint blank (s : string) : bool :=
  match s with
  | EmptyString => true
  | String a r1 =>
      if isSpace (String a EmptyString) then blank r1
      else
        match r1 with
        | EmptyString => false
        | String b r2 =>
            if isSpace (String a (String b EmptyString)) then blank r2
            else
              match r2 with
              | EmptyString => false
              | String c r3 =>
                  if isSpace (String a (String b (String c EmptyString)))
                  then blank r3
                  else false
              end
        end
  end.

(** [s.trimEnd()]: [s] is cut where what follows is white space only. *)
Fixpoint trimEnd (s : string) : string :=
  if blank s then EmptyString
  else
    match s with
    | EmptyString => EmptyString
    | String c r => String c (trimEnd r)
    end.

(** [s.trim()]. *)
Definition trim (s : string) : string := trimEnd (trimStart s).

(** The decimal digits of an integer. *)
Definition decimal (z : Z) : string := NilZero.string_of_int (Z.to_int z).

(** Below [2 ^ 53] every integer is a double. *)
Definition two53 : Z := 9007199254740992.

(** The double nearest to the natural number [m], the even one of two that
    are as near; [None] when [m] lies beyond the doubles and is read as an
    infinity.  A double has 53 significant bits and is below [2 ^ 1024]. *)
Definition nearestDouble (m : Z) : option Z :=
  let e := (Z.log2 m - 52)%Z in
  if (e <=? 0)%Z then Some m
  else
    let q := Z.shiftr m e in
    let rest := (m - Z.shiftl q e)%Z in
    let half := Z.shiftl 1 (e - 1) in
    let q' :=
      if (half <? rest)%Z || ((rest =? half)%Z && Z.odd q) then (q + 1)%Z
      else q in
    let v := Z.shiftl q' e in
    if (v <? 2 ^ 1024)%Z then Some v else None.

(** The decimal [v] reads back as the double [x]. *)
Definition readsAs (v x : Z) : bool :=
  match nearestDouble v with
  | Some d => (d =? x)%Z
  | None => false
  end.

(** Among the multiples of [u] next to [x], one that reads back as [x]:
    the nearer of the two, the one with the even factor when both are as
    near. *)
Definition nextTo (x u : Z) : option Z :=
  let lo := (x / u * u)%Z in
  let hi := (lo + u)%Z in
  match readsAs lo x, readsAs hi x with
  | true, true =>
      if (x - lo <? hi - x)%Z then Some lo
      else if (hi - x <? x - lo)%Z then Some hi
      else if Z.even (x / u) then Some lo
      else Some hi
  | true, false => Some lo
  | false, true => Some hi
  | false, false => None
  end.

Fixpoint shortestAt (x : Z) (units : list Z) : Z :=
  match units with
  | [] => x
  | u :: rest =>
      match nextTo x u with
      | Some v => v
      | None => shortestAt x rest
      end
  end.

(** The integer with the fewest significant digits that reads back as the
    double [x], [0 < x]: the digits that [Number::toString] prints. *)
Definition shortest (x : Z) : Z :=
  shortestAt x
    (map (fun n => (10 ^ Z.of_nat n)%Z)
       (rev (seq 0 (String.length (decimal x))))).

(** [s] without the zeros at its end. *)
Fixpoint dropZeros (s : string) : string :=
  match s with
  | EmptyString => EmptyString
  | String c r =>
      let r' := dropZeros r in
      if Ascii.eqb c "0"%char && (r' =? "") then EmptyString else String c r'
  end.

(** The exponential form of [v], [0 < v]: [d.ddde+n]. *)
Definition exponential (v : Z) : string :=
  let ds := decimal v in
  let exponent := decimal (Z.of_nat (String.length ds - 1)) in
  match dropZeros ds with
  | EmptyString => ds
  | String d EmptyString => String d ("e+" ++ exponent)
  | String d more => String d ("." ++ more ++ "e+" ++ exponent)
  end.

(** The digits of the double [x], [0 < x]: in full up to 21 digits, in
    exponential form beyond. *)
Definition printed (x : Z) : string :=
  let v := shortest x in
  if (String.length (decimal v) <=? 21)%nat then decimal v
  else exponential v.

(** The template literal [`${n}`] of a number. *)
Definition toString (n : Number) : string :=
  match n with
  | Int z =>
      if (Z.abs z <? two53)%Z then decimal z
      else
        match nearestDouble (Z.abs z) with
        | Some x => (if (z <? 0)%Z then "-" else "") ++ printed x
        | None => if (z <? 0)%Z then "-Infinity" else "Infinity"
        end
  | NaN => "NaN"
  | Infinity negative => if negative then "-Infinity" else "Infinity"
  end.

Definition digitValue (radix : Z) (c : ascii) : option Z :=
  let n := Z.of_nat (nat_of_ascii c) in
  let v :=
    (if (48 <=? n) && (n <=? 57) then Some (n - 48)
     else if (97 <=? n) && (n <=? 122) then Some (n - 87)
     else if (65 <=? n) && (n <=? 90) then Some (n - 55)
     else None)%Z in
  match v with
  | Some d => if (d <? radix)%Z then Some d else None
  | None => None
  end.

(** The longest prefix of digits of [s], read in [radix]; [None] when the
    prefix is empty. *)
Fixpoint digits (radix : Z) (s : string) (acc : option Z) : option Z :=
  match s with
  | EmptyString => acc
  | String c r =>
      match digitValue radix c with
      | Some d =>
          digits radix r
            (Some (match acc with Some a => a * radix + d | None => d end)%Z)
      | None => acc
      end
  end.

Definition unsignedInt (s : string) : option Z :=
  match s with
  | String "0" (String "x" r) | String "0" (String "X" r) => digits 16 r None
  | _ => digits 10 s None
  end.

(** [Number.parseInt(s)] with no radix argument: the integer read is
    rounded to the nearest double. *)
Definition parseInt (s : string) : Number :=
  let t := trimStart s in
  let '(sign, body) :=
    match t with
    | String "-" r => ((-1)%Z, r)
    | String "+" r => (1%Z, r)
    | _ => (1%Z, t)
    end in
  match unsignedInt body with
  | Some v =>
      match nearestDouble v with
      | Some d => Int (sign * d)
      | None => Infinity (sign <? 0)%Z
      end
  | None => NaN
  end.

End JS.

(** ** Platform types ([lib/types], [lib/modules/platform/types]) *)

Inductive PrState : Type :=
| Merged
| Closed
| Open
| All
| NotOpen.

Definition PrState_eqb (a b : PrState) : bool :=
  match a, b with
  | Merged, Merged | Closed, Closed | Open, Open | All, All
  | NotOpen, NotOpen => true
  | _, _ => false
  end.

(** The [Pr] record.  The fields filled from the remote record through a
    non-null assertion ([x!]) hold [undefined] when the remote record lacks
    them, hence [option]. *)
Record Pr : Type := mkPr {
  number : JS.Number;
  sourceBranch : option string;
  targetBranch : option string;
  title : option string;
  state : PrState;
  sha : option string;
  sourceRepo : option string
}.

(** ** The shapes of the AWS SDK that the adapter reads *)

Module Aws.

(** [PullRequestStatusEnum]. *)
Definition OPEN : string := "OPEN".
Definition CLOSED : string := "CLOSED".

Record MergeMetadata : Type := { isMerged : option bool }.

Record PullRequestTarget : Type := {
  repositoryName : option string;
  sourceReference : option string;
  destinationReference : option string;
  mergeMetadata : option MergeMetadata
}.

Record PullRequest : Type := {
  pullRequestId : option string;
  title : option string;
  pullRequestStatus : option string;
  revisionId : option string;
  pullRequestTargets : option (list PullRequestTarget)
}.

(** [GetPullRequestOutput], [CreatePullRequestOutput] and
    [UpdatePullRequestStatusOutput]: the adapter reads their one field
    [pullRequest]. *)
Record PullRequestOutput : Type := { pullRequest : option PullRequest }.

Record ListPullRequestsOutput : Type := {
  pullRequestIds : option (list string)
}.

Record Comment : Type := {
  commentId : option string;
  content : option string
}.

(** One comment thread: [comments[0]] is its root, the rest are replies. *)
Record CommentsForPullRequest : Type := {
  comments : option (list Comment)
}.

Record GetCommentsForPullRequestOutput : Type := {
  commentsForPullRequestData : option (list CommentsForPullRequest)
}.

Record PullRequestSourceReferenceUpdatedEventMetadata : Type := {
  beforeCommitId : option string;
  afterCommitId : option string
}.

Record PullRequestEvent : Type := {
  pullRequestSourceReferenceUpdatedEventMetadata :
    option PullRequestSourceReferenceUpdatedEventMetadata
}.

Record DescribePullRequestEventsOutput : Type := {
  pullRequestEvents : option (list PullRequestEvent)
}.

End Aws.

(** ** The session context: the module-level [config] object *)

Record Credentials : Type := {
  accessKeyId : string;
  secretAccessKey : string;
  sessionToken : option string
}.

Record Config : Type := mkConfig {
  repository : option string;
  defaultBranch : option string;
  region : option string;
  prList : option (list Pr);
  credentials : option Credentials;
  userArn : option string
}.

(** [export const config: Config = {}]. *)
Definition emptyConfig : Config := mkConfig None None None None None None.

Definition set_region (v : string) (c : Config) : Config :=
  mkConfig (repository c) (defaultBranch c) (Some v) (prList c)
    (credentials c) (userArn c).

Definition set_credentials (v : Credentials) (c : Config) : Config :=
  mkConfig (repository c) (defaultBranch c) (region c) (prList c)
    (Some v) (userArn c).

Definition set_userArn (v : string) (c : Config) : Config :=
  mkConfig (repository c) (defaultBranch c) (region c) (prList c)
    (credentials c) (Some v).

Definition set_prList (v : list Pr) (c : Config) : Config :=
  mkConfig (repository c) (defaultBranch c) (region c) (Some v)
    (credentials c) (userArn c).

(** The environment variables read by [initPlatform]. *)
Record Env : Type := {
  AWS_ACCESS_KEY_ID : option string;
  AWS_SECRET_ACCESS_KEY : option string;
  AWS_REGION : option string;
  AWS_SESSION_TOKEN : option string
}.

(** ** Errors and remote calls *)

Inductive Error : Type :=
| TypeError                     (* a property read on [undefined] *)
| ErrorMsg (message : string)   (* [new Error(message)] *)
| Rejected (reason : string).   (* a client promise that rejects *)

(** The functions of [./codecommit-client] and [./iam-client] that the
    adapter awaits, with their arguments. *)
Module client.

Inductive call : Type :=
| getUserArn
| listPullRequests (repository userArn : option string)
| getPr (prId : string)
| createPr (title : string) (description : string)
    (sourceBranch targetBranch : string) (repository : option string)
| updatePrDescription (prId description : string)
| updatePrTitle (prId title : string)
| updatePrStatus (prId status : string)
| squashMerge (repositoryName sourceReference destinationReference
               title : option string)
| fastForwardMerge (repositoryName sourceReference
                    destinationReference : option string)
| getPrComments (repository : option string) (prId : string)
| getPrEvents (prId : string)
| createPrComment (prId : string) (repository : option string)
    (body beforeCommitId afterCommitId : string)
| updateComment (commentId body : string)
| deleteComment (commentId : string).

(** What a call resolves to.  A response object may be [undefined]
    wherever the adapter guards against it. *)
Definition reply (c : call) : Type :=
  match c with
  | getUserArn => string
  | listPullRequests _ _ => option Aws.ListPullRequestsOutput
  | getPr _ => option Aws.PullRequestOutput
  | createPr _ _ _ _ _ => option Aws.PullRequestOutput
  | updatePrStatus _ _ => option Aws.PullRequestOutput
  | getPrComments _ _ => option Aws.GetCommentsForPullRequestOutput
  | getPrEvents _ => option Aws.DescribePullRequestEventsOutput
  | _ => unit
  end.

(** [client.getPr] resolves to [undefined] when the fetch fails (the
    adapter's [getPr], which has no handler of its own, is tested to
    return [null] then); every other call may reject. *)
Definition answer (c : call) : Type :=
  match c with
  | getPr _ => reply c
  | _ => (Error + reply c)%type
  end.

End client.

(** ** Programs *)

Inductive prog (A : Type) : Type :=
| Ret (a : A)
| Throw (e : Error)
| Await (c : client.call) (k : client.answer c -> prog A)
| ReadConfig (k : Config -> prog A)
| UpdateConfig (f : Config -> Config) (k : prog A).

Arguments Ret {A} a.
Arguments Throw {A} e.
Arguments Await {A} c k.
Arguments ReadConfig {A} k.
Arguments UpdateConfig {A} f k.

Fixpoint bindProg {A B : Type} (p : prog A) (f : A -> prog B) : prog B :=
  match p with
  | Ret a => f a
  | Throw e => Throw e
  | Await c k => Await c (fun x => bindProg (k x) f)
  | ReadConfig k => ReadConfig (fun cfg => bindProg (k cfg) f)
  | UpdateConfig g k => UpdateConfig g (bindProg k f)
  end.

(** [try { p } catch (err) { h err }]. *)
Fixpoint tryCatch {A : Type} (p : prog A) (h : Error -> prog A) : prog A :=
  match p with
  | Ret a => Ret a
  | Throw e => h e
  | Await c k => Await c (fun x => tryCatch (k x) h)
  | ReadConfig k => ReadConfig (fun cfg => tryCatch (k cfg) h)
  | UpdateConfig g k => UpdateConfig g (tryCatch k h)
  end.

#[global] Instance Monad_prog : Monad prog :=
  {| ret := @Ret; bind := @bindProg |}.

#[global] Instance Exc_prog : MonadExc Error prog :=
  {| raise := @Throw; catch := @tryCatch |}.

Definition settle {A : Type} (r : Error + A) : prog A :=
  match r with
  | inl e => Throw e
  | inr a => Ret a
  end.

(** [await client.f(args)]: the reply, or the rejection thrown. *)
Definition await (c : client.call) : prog (client.reply c) :=
  match c as c0 return prog (client.reply c0) with
  | client.getPr prId => Await (client.getPr prId) Ret
  | c0 => Await c0 settle
  end.

Definition readConfig : prog Config := ReadConfig Ret.

Definition updateConfig (f : Config -> Config) : prog unit :=
  UpdateConfig f (Ret tt).

(** ** Running a program against a remote *)

(** The remote answers a call knowing the calls issued before it, so that
    its data may change between two calls. *)
Definition remote : Type :=
  list client.call -> forall c : client.call, client.answer c.

Inductive outcome (A : Type) : Type :=
| Returned (a : A)
| Thrown (e : Error).

Arguments Returned {A} a.
Arguments Thrown {A} e.

Record run_result (A : Type) : Type := mkRun {
  result : outcome A;
  final : Config;
  calls : list client.call
}.

Arguments mkRun {A} _ _ _.
Arguments result {A} _.
Arguments final {A} _.
Arguments calls {A} _.

Fixpoint run {A : Type} (p : prog A) (r : remote) (cfg : Config)
    (past : list client.call) : run_result A :=
  match p with
  | Ret a => mkRun (Returned a) cfg []
  | Throw e => mkRun (Thrown e) cfg []
  | Await c k =>
      let res := run (k (r past c)) r cfg (past ++ [c]) in
      mkRun (result res) (final res) (c :: calls res)
  | ReadConfig k => run (k cfg) r cfg past
  | UpdateConfig f k => run k r (f cfg) past
  end.

(** ** The region of an endpoint

    [regEx(/.*codecommit\.(?<region>.+)\.amazonaws\.com/).exec(endpoint)],
    as the backtracking matcher runs it: [.] matches any character but a
    line terminator, [.*] and [.+] are greedy, and the match is tried at each
    start position from the left. *)

Definition isLineTerminator (c : ascii) : bool :=
  let n := nat_of_ascii c in ((n =? 10) || (n =? 13))%nat.

(** The rest of [s] after the literal [lit], when [s] starts with it. *)
Fixpoint afterLiteral (lit s : string) : option string :=
  match lit, s with
  | EmptyString, _ => Some s
  | String a lit', String b s' =>
      if Ascii.eqb a b then afterLiteral lit' s' else None
  | String _ _, EmptyString => None
  end.

(** [(.+)lit] at the start of [s]: the text captured by the group. *)
Fixpoint dotPlusThen (lit s : string) : option string :=
  match s with
  | EmptyString => None
  | String c rest =>
      if isLineTerminator c then None
      else
        match dotPlusThen lit rest with
        | Some g => Some (String c g)
        | None =>
            match afterLiteral lit rest with
            | Some _ => Some (String c EmptyString)
            | None => None
            end
        end
  end.

(** [codecommit\.(.+)\.amazonaws\.com] at the start of [s]. *)
Definition regionHere (s : string) : option string :=
  match afterLiteral "codecommit." s with
  | Some rest => dotPlusThen ".amazonaws.com" rest
  | None => None
  end.

(** [.*codecommit\.(.+)\.amazonaws\.com] at the start of [s]. *)
Fixpoint dotStarThenRegion (s : string) : option string :=
  match s with
  | EmptyString => None
  | String c rest =>
      if isLineTerminator c then regionHere s
      else
        match dotStarThenRegion rest with
        | Some g => Some g
        | None => regionHere s
        end
  end.

(** [regionReg.exec(endpoint)?.groups?.region]. *)
Fixpoint execRegion (endpoint : string) : option string :=
  match dotStarThenRegion endpoint with
  | Some g => Some g
  | None =>
      match endpoint with
      | EmptyString => None
      | String _ rest => execRegion rest
      end
  end.

(** ** Initialisation *)

Record PlatformResult : Type := { endpoint : string }.

Definition initErrorMessage : string :=
  "Init: You must configure a AWS user(accessKeyId), password(secretAccessKey) and endpoint/AWS_REGION".

Definition orEnv (v fallback : option string) : option string :=
  if JS.truthy v then v else fallback.

Definition initPlatform (env : Env) (endpoint username password : option string)
  : prog PlatformResult :=
  let accessKeyId := orEnv username (AWS_ACCESS_KEY_ID env) in
  let secretAccessKey := orEnv password (AWS_SECRET_ACCESS_KEY env) in
  let region :=
    if JS.truthy endpoint
    then match endpoint with
         | Some e => execRegion e
         | None => None
         end
    else AWS_REGION env in
  match accessKeyId, secretAccessKey, region with
  | Some accessKeyId, Some secretAccessKey, Some region =>
      if negb (accessKeyId =? "") && negb (secretAccessKey =? "")
         && negb (region =? "")
      then
        let credentials :=
          {| accessKeyId := accessKeyId;
             secretAccessKey := secretAccessKey;
             sessionToken := AWS_SESSION_TOKEN env |} in
        updateConfig (set_region region) ;;
        updateConfig (set_credentials credentials) ;;
        arn <- await client.getUserArn ;;
        updateConfig (set_userArn arn) ;;
        ret {| endpoint :=
                 match endpoint with
                 | Some e => e
                 | None =>
                     "https://git-codecommit." ++ region ++ ".amazonaws.com/"
                 end |}
      else raise (ErrorMsg initErrorMessage)
  | _, _, _ => raise (ErrorMsg initErrorMessage)
  end.

(** ** The state translator and the PR directory *)

(** [prInfo.pullRequestTargets![0]]: reading a field of it throws a
    [TypeError] when the array is missing or empty. *)
Definition firstTarget (prInfo : Aws.PullRequest)
  : prog Aws.PullRequestTarget :=
  match Aws.pullRequestTargets prInfo with
  | Some (t :: _) => ret t
  | _ => raise TypeError
  end.

(** [prInfo.pullRequestStatus === PullRequestStatusEnum.OPEN ? Open : Closed]. *)
Definition openOrClosed (prInfo : Aws.PullRequest) : PrState :=
  if JS.strictEq (Aws.pullRequestStatus prInfo) (Some Aws.OPEN)
  then Open else Closed.

(** The loop of [getPrList] over the listed identifiers. *)
Fixpoint fetchPrs (prIds : list string) (fetchedPrs : list Pr)
  : prog (list Pr) :=
  match prIds with
  | [] => ret fetchedPrs
  | prId :: rest =>
      prRes <- await (client.getPr prId) ;;
      match prRes with
      | Some {| Aws.pullRequest := Some prInfo |} =>
          t <- firstTarget prInfo ;;
          let pr :=
            {| targetBranch := Aws.destinationReference t;
               sourceBranch := Aws.sourceReference t;
               state := openOrClosed prInfo;
               number := JS.parseInt prId;
               title := Aws.title prInfo;
               sha := None;
               sourceRepo := None |} in
          fetchPrs rest (fetchedPrs ++ [pr])
      | _ => fetchPrs rest fetchedPrs
      end
  end.

Definition getPrList : prog (list Pr) :=
  config <- readConfig ;;
  match prList config with
  | Some cached => ret cached
  | None =>
      listPrsResponse <-
        await (client.listPullRequests (repository config) (userArn config)) ;;
      match listPrsResponse with
      | Some {| Aws.pullRequestIds := None |} => ret []
      | _ =>
          let prIds :=
            match listPrsResponse with
            | Some {| Aws.pullRequestIds := Some ids |} => ids
            | _ => []
            end in
          fetchedPrs <- fetchPrs prIds [] ;;
          updateConfig (set_prList fetchedPrs) ;;
          ret fetchedPrs
      end
  end.

(** Modelled from the spec: [getNewBranchName] of
    [lib/modules/platform/util.ts], which is not among the sources: the
    canonical ref form of a branch name, prefixed with the standard
    branch-ref namespace if not already present. *)
Definition getNewBranchName (branchName : string) : string :=
  if JS.startsWith branchName "refs/heads/" then branchName
  else "refs/heads/" ++ branchName.

(** The [switch (state)] of [findPr]. *)
Definition filterByState (wanted : PrState) (prs : list Pr) : list Pr :=
  match wanted with
  | All => prs
  | NotOpen => filter (fun item => negb (PrState_eqb (state item) Open)) prs
  | _ => filter (fun item => PrState_eqb (state item) Open) prs
  end.

(** [findPr({ branchName, prTitle, state = PrState.All })]: [state] is
    [None] when the caller leaves it out. *)
Definition findPr (branchName : string) (prTitle : option string)
    (state : option PrState) : prog (option Pr) :=
  let state := match state with Some s => s | None => All end in
  prsFiltered <-
    catch
      (prs <- getPrList ;;
       let refsHeadBranchName := getNewBranchName branchName in
       let prsFiltered :=
         filter
           (fun item =>
              JS.strictEq (sourceBranch item) (Some refsHeadBranchName))
           prs in
       let prsFiltered :=
         if JS.truthy prTitle
         then filter (fun item => JS.strictEq (title item) prTitle) prsFiltered
         else prsFiltered in
       ret (filterByState state prsFiltered))
      (fun _ => ret []) ;;
  match prsFiltered with
  | [] => ret None
  | pr :: _ => ret (Some pr)
  end.

Definition getPr (pullRequestId : JS.Number) : prog (option Pr) :=
  prRes <- await (client.getPr (JS.toString pullRequestId)) ;;
  match prRes with
  | Some {| Aws.pullRequest := Some prInfo |} =>
      t <- firstTarget prInfo ;;
      let prState :=
        match Aws.mergeMetadata t with
        | Some {| Aws.isMerged := Some true |} => Merged
        | _ => openOrClosed prInfo
        end in
      ret (Some {| sourceBranch := Aws.sourceReference t;
                   state := prState;
                   number := pullRequestId;
                   title := Aws.title prInfo;
                   targetBranch := Aws.destinationReference t;
                   sha := Aws.revisionId prInfo;
                   sourceRepo := None |})
  | _ => ret None
  end.

Definition getBranchPr (branchName : string) : prog (option Pr) :=
  existingPr <- findPr branchName None (Some Open) ;;
  match existingPr with
  | Some pr => getPr (number pr)
  | None => ret None
  end.

(** ** Creating, updating and merging *)

(** The two helpers the adapter imports from files that are not among the
    sources: [sanitize] of [lib/util/sanitize] and [smartTruncate] of
    [lib/modules/platform/utils/pr-body]. *)
Class Imports : Type := {
  sanitize : string -> string;
  smartTruncate : string -> N -> string
}.

Section WithImports.

Context {imports : Imports}.

Definition createPr (sourceBranch targetBranch title body : string)
  : prog Pr :=
  let description := smartTruncate (sanitize body) 10239%N in
  config <- readConfig ;;
  prCreateRes <-
    await (client.createPr title (sanitize description) sourceBranch
             targetBranch (repository config)) ;;
  match prCreateRes with
  | None => raise TypeError
  | Some res =>
      match Aws.pullRequest res with
      | Some prInfo =>
          match Aws.title prInfo, Aws.pullRequestId prInfo with
          | Some prInfoTitle, Some prInfoId =>
              if negb (prInfoTitle =? "") && negb (prInfoId =? "")
              then
                config <- readConfig ;;
                ret {| number := JS.parseInt prInfoId;
                       state := Open;
                       title := Some prInfoTitle;
                       sourceBranch := Some sourceBranch;
                       targetBranch := Some targetBranch;
                       sha := None;
                       sourceRepo := repository config |}
              else raise (ErrorMsg "Could not create pr, missing PR info")
          | _, _ => raise (ErrorMsg "Could not create pr, missing PR info")
          end
      | None => raise (ErrorMsg "Could not create pr, missing PR info")
      end
  end.

Definition updatePr (prNo : JS.Number) (title body : option string)
    (state : option PrState) : prog unit :=
  match body with
  | Some b =>
      if JS.truthy body
      then await (client.updatePrDescription (JS.toString prNo)
                    (smartTruncate (sanitize b) 10239%N))
      else ret tt
  | None => ret tt
  end ;;
  match title with
  | Some t =>
      if JS.truthy title
      then await (client.updatePrTitle (JS.toString prNo) t)
      else ret tt
  | None => ret tt
  end ;;
  let prStatusInput :=
    match state with
    | Some Closed => Aws.CLOSED
    | _ => Aws.OPEN
    end in
  catch
    (await (client.updatePrStatus (JS.toString prNo) prStatusInput) ;;
     ret tt)
    (fun _ => ret tt).

End WithImports.

(** [targets[0].f]: a [TypeError] when [targets] is empty. *)
Definition target0 (targets : list Aws.PullRequestTarget)
  : prog Aws.PullRequestTarget :=
  match targets with
  | t :: _ => ret t
  | [] => raise TypeError
  end.

Definition isStrategy (strategy : option string) (s : string) : bool :=
  JS.strictEq strategy (Some s).

(** [mergePr({ branchName, id: prNo, strategy })]; [branchName] is only
    logged. *)
Definition mergePr (prNo : JS.Number) (strategy : option string)
  : prog bool :=
  prOut <- await (client.getPr (JS.toString prNo)) ;;
  match prOut with
  | None => ret false
  | Some out =>
      let pReq := Aws.pullRequest out in
      let targets :=
        match pReq with
        | Some p => Aws.pullRequestTargets p
        | None => None
        end in
      match targets with
      | None => ret false
      | Some targets =>
          if isStrategy strategy "rebase" then ret false
          else
            (* [Some b]: the function returns [b] from inside the [try];
               [None]: control leaves the [try] and goes on. *)
            merged <-
              catch
                (if isStrategy strategy "auto" || isStrategy strategy "squash"
                 then
                   t <- target0 targets ;;
                   await (client.squashMerge (Aws.repositoryName t)
                            (Aws.sourceReference t)
                            (Aws.destinationReference t)
                            (match pReq with
                             | Some p => Aws.title p
                             | None => None
                             end)) ;;
                   ret None
                 else if isStrategy strategy "fast-forward"
                 then
                   t <- target0 targets ;;
                   await (client.fastForwardMerge (Aws.repositoryName t)
                            (Aws.sourceReference t)
                            (Aws.destinationReference t)) ;;
                   ret None
                 else ret (Some false))
                (fun _ => ret (Some false)) ;;
            match merged with
            | Some b => ret b
            | None =>
                catch
                  (response <-
                     await (client.updatePrStatus (JS.toString prNo)
                              Aws.CLOSED) ;;
                   match response with
                   | None => raise TypeError
                   | Some _ => ret true
                   end)
                  (fun _ => ret false)
            end
      end
  end.

(** ** The comment reconciler *)

(** [`### ${topic}\n\n`]. *)
Definition newline : string := String (ascii_of_nat 10) EmptyString.

Definition topicHeader (topic : string) : string :=
  "### " ++ topic ++ newline ++ newline.

(** [content?.startsWith(prefix)], falsy when [content] is [undefined]. *)
Definition optStartsWith (content : option string) (prefix : string) : bool :=
  match content with
  | Some s => JS.startsWith s prefix
  | None => false
  end.

(** The header of [ensureComment]: [topic ? `### ${topic}\n\n` : '']. *)
Definition headerOf (topic : option string) : string :=
  match topic with
  | Some t => if JS.truthy topic then topicHeader t else ""
  | None => ""
  end.

(** The test of the scanning loop of [ensureComment] on a root comment. *)
Definition rootMatches (topic : option string) (header body : string)
    (firstCommentContent : option string) : bool :=
  (JS.truthy topic && optStartsWith firstCommentContent header)
  || (negb (JS.truthy topic) && JS.strictEq firstCommentContent (Some body)).

(** The scanning loop of [ensureComment]: the values of [commentId] and
    [commentNeedsUpdating] when it ends. *)
Fixpoint scanThreads (topic : option string) (header body : string)
    (threads : list Aws.CommentsForPullRequest)
  : prog (option string * bool) :=
  match threads with
  | [] => ret (None, false)
  | commentObj :: rest =>
      match Aws.comments commentObj with
      | None => scanThreads topic header body rest
      | Some [] => raise TypeError
      | Some (first :: _) =>
          let firstCommentContent := Aws.content first in
          if rootMatches topic header body firstCommentContent
          then ret (Aws.commentId first,
                    negb (JS.strictEq firstCommentContent (Some body)))
          else scanThreads topic header body rest
      end
  end.

Section CommentsWithImports.

Context {imports : Imports}.

(** The body that [ensureComment] composes. *)
Definition commentBody (topic : option string) (content : string) : string :=
  headerOf topic ++ sanitize content.

Definition ensureComment (number : JS.Number) (topic : option string)
    (content : string) : prog bool :=
  let header := headerOf topic in
  let body := header ++ sanitize content in
  config <- readConfig ;;
  fetched <-
    catch
      (r <- await (client.getPrComments (repository config)
                     (JS.toString number)) ;;
       ret (Some r))
      (fun _ => ret None) ;;
  match fetched with
  | None => ret false
  | Some prCommentsResponse =>
      match prCommentsResponse with
      | Some {| Aws.commentsForPullRequestData := Some threads |} =>
          found <- scanThreads topic header body threads ;;
          let commentId : option string := fst found in
          let commentNeedsUpdating : bool := snd found in
          if negb (JS.truthy commentId)
          then
            prEvent <- await (client.getPrEvents (JS.toString number)) ;;
            match prEvent with
            | Some {| Aws.pullRequestEvents := Some events |} =>
                match events with
                | [] => raise TypeError
                | ev :: _ =>
                    match
                      Aws.pullRequestSourceReferenceUpdatedEventMetadata ev
                    with
                    | Some {| Aws.beforeCommitId := Some before;
                              Aws.afterCommitId := Some after |} =>
                        if negb (before =? "") && negb (after =? "")
                        then
                          config <- readConfig ;;
                          await (client.createPrComment
                                   (JS.toString number) (repository config)
                                   body before after) ;;
                          ret true
                        else ret false
                    | _ => ret false
                    end
                end
            | _ => ret false
            end
          else
            match commentId with
            | Some id =>
                if commentNeedsUpdating
                then await (client.updateComment id body) ;; ret true
                else ret true
            | None => ret true
            end
      | _ => ret false
      end
  end.

End CommentsWithImports.

Inductive EnsureCommentRemovalConfig : Type :=
| ByTopic (number : JS.Number) (topic : string)
| ByContent (number : JS.Number) (content : string).

Definition removalNumber (removeConfig : EnsureCommentRemovalConfig)
  : JS.Number :=
  match removeConfig with
  | ByTopic n _ => n
  | ByContent n _ => n
  end.

(** The test of the inner loop of [ensureCommentRemoval] on one comment. *)
Definition removalMatches (removeConfig : EnsureCommentRemovalConfig)
    (comment : Aws.Comment) : bool :=
  match removeConfig with
  | ByTopic _ topic => optStartsWith (Aws.content comment) (topicHeader topic)
  | ByContent _ content =>
      match Aws.content comment with
      | Some c => content =? JS.trim c
      | None => false
      end
  end.

(** The inner loop, over the comments of one thread: the value of
    [commentIdToRemove] when it ends. *)
Fixpoint scanComments (removeConfig : EnsureCommentRemovalConfig)
    (comments : list Aws.Comment) (commentIdToRemove : option string)
  : option string :=
  match comments with
  | [] => commentIdToRemove
  | comment :: rest =>
      if removalMatches removeConfig comment then Aws.commentId comment
      else scanComments removeConfig rest commentIdToRemove
  end.

(** The outer loop, over the threads. *)
Fixpoint removeFirst (removeConfig : EnsureCommentRemovalConfig)
    (threads : list Aws.CommentsForPullRequest)
    (commentIdToRemove : option string) : prog unit :=
  match threads with
  | [] => ret tt
  | commentObj :: rest =>
      match Aws.comments commentObj with
      | None => removeFirst removeConfig rest commentIdToRemove
      | Some comments =>
          let commentIdToRemove :=
            scanComments removeConfig comments commentIdToRemove in
          match commentIdToRemove with
          | Some id =>
              if JS.truthy commentIdToRemove
              then await (client.deleteComment id)
              else removeFirst removeConfig rest commentIdToRemove
          | None => removeFirst removeConfig rest commentIdToRemove
          end
      end
  end.

Definition ensureCommentRemoval (removeConfig : EnsureCommentRemovalConfig)
  : prog unit :=
  config <- readConfig ;;
  fetched <-
    catch
      (r <- await (client.getPrComments (repository config)
                     (JS.toString (removalNumber removeConfig))) ;;
       ret (Some r))
      (fun _ => ret None) ;;
  match fetched with
  | Some (Some {| Aws.commentsForPullRequestData := Some threads |}) =>
      removeFirst removeConfig threads None
  | _ => ret tt
  end.

(** ** Steady-state operations of a session *)

Inductive operation : Type :=
| CreatePr (sourceBranch targetBranch title body : string)
| UpdatePr (prNo : JS.Number) (title body : option string)
    (state : option PrState)
| MergePr (prNo : JS.Number) (strategy : option string)
| EnsureComment (number : JS.Number) (topic : option string)
    (content : string)
| EnsureCommentRemoval (removeConfig : EnsureCommentRemovalConfig).

Definition perform {imports : Imports} (op : operation) : prog unit :=
  match op with
  | CreatePr sourceBranch targetBranch title body =>
      createPr sourceBranch targetBranch title body ;; ret tt
  | UpdatePr prNo title body state => updatePr prNo title body state
  | MergePr prNo strategy => mergePr prNo strategy ;; ret tt
  | EnsureComment number topic content =>
      ensureComment number topic content ;; ret tt
  | EnsureCommentRemoval removeConfig => ensureCommentRemoval removeConfig
  end.

(** A caller that performs operations one after the other and goes on when
    one of them throws. *)
Fixpoint steadyState {imports : Imports} (ops : list operation) : prog unit :=
  match ops with
  | [] => ret tt
  | op :: rest =>
      catch (perform op) (fun _ => ret tt) ;;
      steadyState rest
  end.

(** Programs that never assign [config.prList]. *)
Inductive keepsPrList {A : Type} : prog A -> Prop :=
| keeps_Ret : forall a, keepsPrList (Ret a)
| keeps_Throw : forall e, keepsPrList (Throw e)
| keeps_Await : forall c k,
    (forall x, keepsPrList (k x)) -> keepsPrList (Await c k)
| keeps_ReadConfig : forall k,
    (forall cfg, keepsPrList (k cfg)) -> keepsPrList (ReadConfig k)
| keeps_UpdateConfig : forall f k,
    (forall cfg, prList (f cfg) = prList cfg) ->
    keepsPrList k -> keepsPrList (UpdateConfig f k).

(** ** A simulated remote backend *)

Record Backend : Type := {
  listing : option Aws.ListPullRequestsOutput;
  pullRequests : list (string * Aws.PullRequest);
  commentThreads : list Aws.CommentsForPullRequest;
  eventsOf : option Aws.DescribePullRequestEventsOutput
}.

Fixpoint lookupPr (prs : list (string * Aws.PullRequest)) (prId : string)
  : option Aws.PullRequestOutput :=
  match prs with
  | [] => None
  | (id, pr) :: rest =>
      if id =? prId then Some {| Aws.pullRequest := Some pr |}
      else lookupPr rest prId
  end.

(** The backend answers every call; calls that change remote data
    succeed. *)
Definition serve (b : Backend) (c : client.call) : client.answer c :=
  match c as c0 return client.answer c0 with
  | client.getUserArn => inr "arn:aws:iam::user"
  | client.listPullRequests _ _ => inr (listing b)
  | client.getPr prId => lookupPr (pullRequests b) prId
  | client.createPr title _ _ _ _ =>
      inr (Some {| Aws.pullRequest :=
                     Some {| Aws.pullRequestId := Some "2";
                             Aws.title := Some title;
                             Aws.pullRequestStatus := Some Aws.OPEN;
                             Aws.revisionId := None;
                             Aws.pullRequestTargets := None |} |})
  | client.updatePrDescription _ _ => inr tt
  | client.updatePrTitle _ _ => inr tt
  | client.updatePrStatus prId _ => inr (lookupPr (pullRequests b) prId)
  | client.squashMerge _ _ _ _ => inr tt
  | client.fastForwardMerge _ _ _ => inr tt
  | client.getPrComments _ _ =>
      inr (Some {| Aws.commentsForPullRequestData := Some (commentThreads b) |})
  | client.getPrEvents _ => inr (eventsOf b)
  | client.createPrComment _ _ _ _ _ => inr tt
  | client.updateComment _ _ => inr tt
  | client.deleteComment _ => inr tt
  end.

(** A remote whose data never changes. *)
Definition fixed (b : Backend) : remote := fun _ c => serve b c.

(** A remote whose data is [b1] for the first call and [b2] afterwards. *)
Definition changing (b1 b2 : Backend) : remote :=
  fun past c =>
    match past with
    | [] => serve b1 c
    | _ :: _ => serve b2 c
    end.

(** The thread that a posted comment starts. *)
Definition createdThread (index : nat) (body : string)
  : Aws.CommentsForPullRequest :=
  {| Aws.comments :=
       Some [ {| Aws.commentId :=
                   Some ("comment-" ++ JS.toString (JS.Int (Z.of_nat index)));
                 Aws.content := Some body |} ] |}.

(** The comment threads once the calls [past] have been served: every
    [createPrComment] adds a thread at the end of the listing. *)
Fixpoint threadsAfter (past : list client.call)
    (threads : list Aws.CommentsForPullRequest)
  : list Aws.CommentsForPullRequest :=
  match past with
  | [] => threads
  | client.createPrComment _ _ body _ _ :: rest =>
      threadsAfter rest (threads ++ [createdThread (length threads) body])
  | _ :: rest => threadsAfter rest threads
  end.

(** A remote that keeps the comments posted to it. *)
Definition simulated (b : Backend) : remote :=
  fun past c =>
    serve {| listing := listing b;
             pullRequests := pullRequests b;
             commentThreads := threadsAfter past (commentThreads b);
             eventsOf := eventsOf b |} c.

(** A remote that serves [b] but rejects every update of a status. *)
Definition statusRejecting (b : Backend) : remote :=
  fun _ c =>
    match c as c0 return client.answer c0 with
    | client.updatePrStatus _ _ => inl (Rejected "update status failure")
    | c0 => serve b c0
    end.

(** A remote that rejects every call it can. *)
Definition rejecting : remote :=
  fun _ c =>
    match c as c0 return client.answer c0 with
    | client.getPr _ => None
    | _ => inl (Rejected "remote failure")
    end.

(** An instance of the imported helpers: no secret is registered, so
    [sanitize] changes nothing, and truncation keeps the first [n]
    characters. *)
Definition plainImports : Imports :=
  {| sanitize := fun s => s;
     smartTruncate := fun s n => substring 0 (N.to_nat n) s |}.

(** ** Vocabulary of the statements *)

(** A number that is a double: an integer that is its own nearest double,
    [NaN] or an infinity. *)
Definition isDouble (n : JS.Number) : Prop :=
  match n with
  | JS.Int z => JS.nearestDouble (Z.abs z) = Some (Z.abs z)
  | _ => True
  end.

(** The merge metadata of a target reports [isMerged = true]. *)
Definition reportsMerged (t : Aws.PullRequestTarget) : Prop :=
  exists m, Aws.mergeMetadata t = Some m /\ Aws.isMerged m = Some true.

(** A backend with one pull request, number 1, that is closed and merged. *)
Definition mergedTarget : Aws.PullRequestTarget :=
  {| Aws.repositoryName := Some "repo";
     Aws.sourceReference := Some "refs/heads/feature";
     Aws.destinationReference := Some "refs/heads/main";
     Aws.mergeMetadata := Some {| Aws.isMerged := Some true |} |}.

Definition mergedPr : Aws.PullRequest :=
  {| Aws.pullRequestId := Some "1";
     Aws.title := Some "Update dep";
     Aws.pullRequestStatus := Some "CLOSED";
     Aws.revisionId := Some "rev1";
     Aws.pullRequestTargets := Some [mergedTarget] |}.

Definition mergedBackend : Backend :=
  {| listing := Some {| Aws.pullRequestIds := Some ["1"] |};
     pullRequests := [("1", mergedPr)];
     commentThreads := [];
     eventsOf := None |}.

(** The description and title updates that [updatePr] is asked for. *)
Definition editCalls {imports : Imports} (prNo : JS.Number)
    (title body : option string) : list client.call :=
  (match body with
   | Some b =>
       if JS.truthy body
       then [client.updatePrDescription (JS.toString prNo)
               (smartTruncate (sanitize b) 10239%N)]
       else []
   | None => []
   end
   ++
   match title with
   | Some t =>
       if JS.truthy title then [client.updatePrTitle (JS.toString prNo) t]
       else []
   | None => []
   end)%list.

(** A backend with one pull request, number 1, that is open. *)
Definition openPrInfo : Aws.PullRequest :=
  {| Aws.pullRequestId := Some "1";
     Aws.title := Some "Update dep";
     Aws.pullRequestStatus := Some "OPEN";
     Aws.revisionId := None;
     Aws.pullRequestTargets :=
       Some [ {| Aws.repositoryName := Some "repo";
                 Aws.sourceReference := Some "refs/heads/feature";
                 Aws.destinationReference := Some "refs/heads/main";
                 Aws.mergeMetadata := None |} ] |}.

Definition openBackend : Backend :=
  {| listing := Some {| Aws.pullRequestIds := Some ["1"] |};
     pullRequests := [("1", openPrInfo)];
     commentThreads := [];
     eventsOf := None |}.

(** The directory entry of pull request 1 of [openBackend]. *)
Definition openPr : Pr :=
  {| number := JS.Int 1;
     sourceBranch := Some "refs/heads/feature";
     targetBranch := Some "refs/heads/main";
     title := Some "Update dep";
     state := Open;
     sha := None;
     sourceRepo := None |}.

(** A thread whose root comment, if it has one, does not match. *)
Definition noRootMatch (topic : option string) (header body : string)
    (thread : Aws.CommentsForPullRequest) : Prop :=
  match Aws.comments thread with
  | Some (first :: _) =>
      rootMatches topic header body (Aws.content first) = false
  | _ => True
  end.

(** A thread whose [comments] array is there and is empty: the scanning
    loop of [ensureComment] reads [comments[0].content] of it and throws. *)
Definition emptyThread (thread : Aws.CommentsForPullRequest) : Prop :=
  Aws.comments thread = Some [].

(** A thread that the scanning loop of [ensureComment] passes over: it has
    no [comments] array, or it has a root comment and that root does not
    match.  A thread with an empty [comments] array is not passed over. *)
Definition passedOver (topic : option string) (header body : string)
    (thread : Aws.CommentsForPullRequest) : Prop :=
  match Aws.comments thread with
  | None => True
  | Some [] => False
  | Some (first :: _) =>
      rootMatches topic header body (Aws.content first) = false
  end.

(** A call that posts or rewrites a comment. *)
Definition writesComment (c : client.call) : bool :=
  match c with
  | client.createPrComment _ _ _ _ _ | client.updateComment _ _ => true
  | _ => false
  end.

(** The body that a call posts or rewrites a comment with. *)
Definition writtenBody (c : client.call) : option string :=
  match c with
  | client.createPrComment _ _ body _ _ => Some body
  | client.updateComment _ body => Some body
  | _ => None
  end.

(** The comment that the inner loop of [ensureCommentRemoval] selects in a
    thread: the first, root or reply, that matches. *)
Definition selected (removeConfig : EnsureCommentRemovalConfig)
    (thread : Aws.CommentsForPullRequest) : option Aws.Comment :=
  match Aws.comments thread with
  | Some comments => find (removalMatches removeConfig) comments
  | None => None
  end.

(** A thread that the removal leaves alone: it has no [comments] array, no
    comment of it matches, or the comment selected in it carries no
    identifier. *)
Definition leftAlone (removeConfig : EnsureCommentRemovalConfig)
    (thread : Aws.CommentsForPullRequest) : Prop :=
  match selected removeConfig thread with
  | Some c => JS.truthy (Aws.commentId c) = false
  | None => True
  end.

(** U+00A0, the no-break space. *)
Definition nbsp : string := JS.bytes [194; 160].

(** A backend whose pull request 7 has three threads: in the first the
    comment that matches the text [hello] carries no identifier, in the
    second the root does not match and a reply, padded with no-break
    spaces, does, in the third the root matches. *)
Definition paddedBackend : Backend :=
  {| listing := None;
     pullRequests := [];
     commentThreads :=
       [ {| Aws.comments :=
              Some [ {| Aws.commentId := None;
                        Aws.content := Some "hello" |};
                     {| Aws.commentId := Some "first";
                        Aws.content := Some "hello" |} ] |};
         {| Aws.comments :=
              Some [ {| Aws.commentId := Some "root";
                        Aws.content := Some "please review" |};
                     {| Aws.commentId := Some "reply";
                        Aws.content := Some (nbsp ++ "hello" ++ nbsp) |} ] |};
         {| Aws.comments :=
              Some [ {| Aws.commentId := Some "third";
                        Aws.content := Some "hello" |} ] |} ];
     eventsOf := None |}.

(** The identifiers of the root comments of a listing. *)
Definition rootIds (threads : list Aws.CommentsForPullRequest)
  : list (option string) :=
  flat_map
    (fun thread =>
       match Aws.comments thread with
       | Some (root :: _) => [Aws.commentId root]
       | _ => []
       end)
    threads.

(** A backend whose pull request 7 has one thread: a root comment and,
    below it, a reply that carries the header of the topic [status]. *)
Definition replyBackend : Backend :=
  {| listing := None;
     pullRequests := [];
     commentThreads :=
       [ {| Aws.comments :=
              Some [ {| Aws.commentId := Some "root";
                        Aws.content := Some "please review" |};
                     {| Aws.commentId := Some "reply";
                        Aws.content :=
                          Some (topicHeader "status" ++ "all good") |} ] |} ];
     eventsOf := None |}.

(** A backend whose pull request 42 has two threads on the topic
    [status]: the root of the first holds an older text, the root of the
    second holds the text [all good]. *)
Definition staleBackend : Backend :=
  {| listing := None;
     pullRequests := [];
     commentThreads :=
       [ {| Aws.comments :=
              Some [ {| Aws.commentId := Some "1";
                        Aws.content :=
                          Some (topicHeader "status" ++ "pending") |} ] |};
         {| Aws.comments :=
              Some [ {| Aws.commentId := Some "2";
                        Aws.content :=
                          Some (topicHeader "status" ++ "all good") |} ] |} ];
     eventsOf := None |}.

(** A backend whose pull request 42 has one thread, on no topic, and one
    source-branch update in its history. *)
Definition freshBackend : Backend :=
  {| listing := None;
     pullRequests := [];
     commentThreads :=
       [ {| Aws.comments :=
              Some [ {| Aws.commentId := Some "1";
                        Aws.content := Some "my comment content" |} ] |} ];
     eventsOf :=
       Some {| Aws.pullRequestEvents :=
                 Some [ {| Aws.pullRequestSourceReferenceUpdatedEventMetadata :=
                             Some {| Aws.beforeCommitId := Some "beforeCid";
                                     Aws.afterCommitId := Some "afterCid" |}
                        |} ] |} |}.

(** The backend [freshBackend] with a root that carries no identifier. *)
Definition anonymousBackend : Backend :=
  {| listing := None;
     pullRequests := [];
     commentThreads :=
       [ {| Aws.comments :=
              Some [ {| Aws.commentId := None;
                        Aws.content := Some "my comment content" |} ] |} ];
     eventsOf := eventsOf freshBackend |}.

(** The backend [freshBackend] with, before its thread, a thread whose
    [comments] array is empty. *)
Definition hollowBackend : Backend :=
  {| listing := None;
     pullRequests := [];
     commentThreads :=
       {| Aws.comments := Some [] |} :: commentThreads freshBackend;
     eventsOf := eventsOf freshBackend |}.

Fixpoint replicate (n : nat) (c : ascii) : string :=
  match n with
  | O => EmptyString
  | S m => String c (replicate m c)
  end.

(** A comment text of 10,240 characters, one more than the budget. *)
Definition longContent : string := replicate (N.to_nat 10240) "a"%char.

(** A listing reply that carries no [pullRequestIds]: on it, and on it
    alone, [getPrList] returns without filling the slot. *)
Definition listsNoIds
    (listed : Error + option Aws.ListPullRequestsOutput) : bool :=
  match listed with
  | inr (Some {| Aws.pullRequestIds := None |}) => true
  | _ => false
  end.

(** What a directory entry built by [getPrList] looks like: its state is
    [Open] or [Closed], and it has no [sha]. *)
Definition listedEntry (pr : Pr) : Prop :=
  (state pr = Open \/ state pr = Closed) /\ sha pr = None.

(** The first target of the record that a fetch replies with, when the
    reply carries a record and the record a non-empty target array. *)
Definition targetOfReply (fetched : option Aws.PullRequestOutput)
  : option Aws.PullRequestTarget :=
  match fetched with
  | Some out =>
      match Aws.pullRequest out with
      | Some p =>
          match Aws.pullRequestTargets p with
          | Some (t :: _) => Some t
          | _ => None
          end
      | None => None
      end
  | None => None
  end.

(** The merge call that [mergePr] issues for a strategy, if any. *)
Definition mergeCall (strategy title : option string)
    (t : Aws.PullRequestTarget) : option client.call :=
  if isStrategy strategy "auto" || isStrategy strategy "squash"
  then Some (client.squashMerge (Aws.repositoryName t) (Aws.sourceReference t)
               (Aws.destinationReference t) title)
  else if isStrategy strategy "fast-forward"
  then Some (client.fastForwardMerge (Aws.repositoryName t)
               (Aws.sourceReference t) (Aws.destinationReference t))
  else None.

(** The remote resolves the call [c] issued after [past] (it does not
    reject it). *)
Definition resolves (r : remote) (past : list client.call) (c : client.call)
  : bool :=
  match c as c0 return client.answer c0 -> bool with
  | client.getPr _ => fun _ => true
  | _ => fun a => match a with inl _ => false | inr _ => true end
  end (r past c).

(** The remote resolves each of the calls [cs], issued one after the other
    after [past]. *)
Fixpoint resolveInTurn (r : remote) (past cs : list client.call) : bool :=
  match cs with
  | [] => true
  | c :: rest => resolves r past c && resolveInTurn r (past ++ [c]) rest
  end.

(** A remote that accepts the edits of pull request 1 and rejects those of
    any other, as it rejects every update of a status. *)
Definition onlyPr1 : remote :=
  fun _ c =>
    match c as c0 return client.answer c0 with
    | client.updatePrDescription prId _ =>
        if prId =? "1" then inr tt else inl (Rejected "no such pull request")
    | client.updatePrTitle prId _ =>
        if prId =? "1" then inr tt else inl (Rejected "no such pull request")
    | client.updatePrStatus _ _ => inl (Rejected "update status failure")
    | c0 => serve mergedBackend c0
    end.

(** A fetch reply that carries a record. *)
Definition hasRecord (fetched : option Aws.PullRequestOutput) : bool :=
  match fetched with
  | Some out =>
      match Aws.pullRequest out with
      | Some _ => true
      | None => false
      end
  | None => false
  end.

(** The identifiers [prIds] with the replies to their fetches, issued one
    after the other after [past]. *)
Fixpoint fetchReplies (r : remote) (past : list client.call)
    (prIds : list string) : list (string * option Aws.PullRequestOutput) :=
  match prIds with
  | [] => []
  | prId :: rest =>
      (prId, r past (client.getPr prId))
      :: fetchReplies r (past ++ [client.getPr prId]) rest
  end.

(** The three tests of [findPr] on one directory entry: source branch,
    title (when one is asked for) and state. *)
Definition wantedPr (branchName : string) (prTitle : option string)
    (wanted : option PrState) (item : Pr) : bool :=
  JS.strictEq (sourceBranch item) (Some (getNewBranchName branchName))
  && (if JS.truthy prTitle then JS.strictEq (title item) prTitle else true)
  && match wanted with
     | None | Some All => true
     | Some NotOpen => negb (PrState_eqb (state item) Open)
     | Some _ => PrState_eqb (state item) Open
     end.

(** An open directory entry on another branch. *)
Definition otherPr : Pr :=
  {| number := JS.Int 4;
     sourceBranch := Some "refs/heads/other";
     targetBranch := Some "refs/heads/main";
     title := Some "Update dep";
     state := Open;
     sha := None;
     sourceRepo := None |}.

(** A field of the record that a creation replies with. *)
Definition createdField (field : Aws.PullRequest -> option string)
    (out : Aws.PullRequestOutput) : option string :=
  match Aws.pullRequest out with
  | Some p => field p
  | None => None
  end.

(** The threads that a comment listing replies with, when it resolves with
    a thread array. *)
Definition threadsOfReply
    (listed : Error + option Aws.GetCommentsForPullRequestOutput)
  : option (list Aws.CommentsForPullRequest) :=
  match listed with
  | inr (Some out) => Aws.commentsForPullRequestData out
  | _ => None
  end.

(** The commit identifiers that anchor a new comment: those of the first
    event of the listing, when it carries both. *)
Definition firstAnchor (events : list Aws.PullRequestEvent)
  : option (string * string) :=
  match events with
  | ev :: _ =>
      match Aws.pullRequestSourceReferenceUpdatedEventMetadata ev with
      | Some meta =>
          match Aws.beforeCommitId meta, Aws.afterCommitId meta with
          | Some before, Some after =>
              if negb (before =? "") && negb (after =? "")
              then Some (before, after)
              else None
          | _, _ => None
          end
      | None => None
      end
  | [] => None
  end.

(** A text that begins or ends with a white-space character. *)
Definition padded (key : string) : Prop :=
  exists w rest : string,
    In w JS.whiteSpace /\ (key = w ++ rest \/ key = rest ++ w).

(** The region that [initPlatform] works with: parsed from the endpoint
    when one is given, read from the environment otherwise. *)
Definition resolvedRegion (env : Env) (endpoint : option string)
  : option string :=
  if JS.truthy endpoint
  then match endpoint with
       | Some e => execRegion e
       | None => None
       end
  else AWS_REGION env.

(** Two environments that differ in [AWS_REGION] at most. *)
Definition sameButRegion (env env' : Env) : Prop :=
  AWS_ACCESS_KEY_ID env = AWS_ACCESS_KEY_ID env'
  /\ AWS_SECRET_ACCESS_KEY env = AWS_SECRET_ACCESS_KEY env'
  /\ AWS_SESSION_TOKEN env = AWS_SESSION_TOKEN env'.

(** Every character of [s] passes the test [p]. *)
Fixpoint allChars (p : ascii -> bool) (s : string) : bool :=
  match s with
  | EmptyString => true
  | String c rest => p c && allChars p rest
  end.


(** The endpoint that [initPlatform] builds for a region. *)
Definition defaultEndpoint (region : string) : string :=
  "https://git-codecommit." ++ region ++ ".amazonaws.com/".


(** * The neighbours of the adapter *)

(** ** The IAM client ([iam-client.ts]) *)

Module iam.

(** [new IAMClient({ region, credentials })]. *)
Record IAMClient : Type := {
  clientRegion : string;
  clientCredentials : Credentials
}.

(** [initIamClient]: the module's variable [iam] is passed in and handed
    back next to the client returned. *)
Definition initIamClient (region : string) (credentials : Credentials)
    (iam : option IAMClient) : IAMClient * option IAMClient :=
  match iam with
  | Some made => (made, Some made)
  | None =>
      let made := {| clientRegion := region;
                     clientCredentials := credentials |} in
      (made, Some made)
  end.

Record IamUser : Type := { Arn : option string }.

Record GetUserCommandOutput : Type := { User : option IamUser }.

(** [[^ ]+] at the start of [s] takes the longest run of characters other
    than a space. *)
Fixpoint nonSpaces (s : string) : string :=
  match s with
  | EmptyString => EmptyString
  | String c rest =>
      if Ascii.eqb c " "%char then EmptyString
      else String c (nonSpaces rest)
  end.

(** [([^ ]+).*] at the start of [s]: the group needs one character at
    least, and [.*] matches whatever follows, be it nothing. *)
Definition arnHere (s : string) : option string :=
  match nonSpaces s with
  | EmptyString => None
  | String c g => Some (String c g)
  end.

(** [\s*([^ ]+).*] at the start of [s]: [\s*] takes white space greedily
    and gives it back one character at a time. *)
Fixpoint spacesThenArn (s : string) : option string :=
  match s with
  | EmptyString => arnHere s
  | String c rest =>
      if JS.isWhiteSpace c
      then match spacesThenArn rest with
           | Some g => Some g
           | None => arnHere s
           end
      else arnHere s
  end.

(** [User:\s*([^ ]+).*] at the start of [s]. *)
Definition userHere (s : string) : option string :=
  match afterLiteral "User:" s with
  | Some rest => spacesThenArn rest
  | None => None
  end.

(** [userRe.exec(message)?.groups?.arn]: the leftmost match. *)
Fixpoint execUser (message : string) : option string :=
  match userHere message with
  | Some g => Some g
  | None =>
      match message with
      | EmptyString => None
      | String _ rest => execUser rest
      end
  end.

(** [getUserArn], given how [iam.send(cmd)] settles: it rejects with an
    error of some [message], which is thrown again as it is when no ARN
    can be read from it, or resolves with an output. *)
Definition getUserArn (sent : string + GetUserCommandOutput)
  : outcome string :=
  match sent with
  | inr userRes =>
      let res := match User userRes with
                 | Some u => Arn u
                 | None => None
                 end in
      Returned (match res with Some arn => arn | None => "" end)
  | inl message =>
      let res := execUser message in
      if negb (JS.truthy res) then Thrown (Rejected message)
      else Returned (match res with Some arn => arn | None => "" end)
  end.

End iam.

(** ** Repository statistics ([runRenovateRepoStats]) *)

Module stats.

(** The object [prStats]. *)
Record PrStats : Type := mkStats {
  total : N;
  open : N;
  closed : N;
  merged : N
}.

(** The test that makes the loop [continue]. *)
Definition isOnboarding (onboardingPrTitle : option string) (pr : Pr)
  : bool :=
  JS.strictEq (title pr) (Some "Configure Renovate")
  || JS.strictEq (title pr) onboardingPrTitle.

(** One turn of the loop. *)
Definition countPr (onboardingPrTitle : option string) (prStats : PrStats)
    (pr : Pr) : PrStats :=
  if isOnboarding onboardingPrTitle pr then prStats
  else
    let total' := (total prStats + 1)%N in
    match state pr with
    | Merged =>
        mkStats total' (open prStats) (closed prStats)
          (merged prStats + 1)%N
    | Closed =>
        mkStats total' (open prStats) (closed prStats + 1)%N
          (merged prStats)
    | Open =>
        mkStats total' (open prStats + 1)%N (closed prStats)
          (merged prStats)
    | _ =>
        mkStats total' (open prStats) (closed prStats) (merged prStats)
    end.

(** [runRenovateRepoStats(config, prList)]: the statistics that it logs;
    of [config] it reads [onboardingPrTitle]. *)
Definition runRenovateRepoStats (onboardingPrTitle : option string)
    (prList : list Pr) : PrStats :=
  fold_left (countPr onboardingPrTitle) prList (mkStats 0 0 0 0).

End stats.

(** ** Repositories ([initRepo], [getRepos]) *)

Module Repo.

Record RepositoryMetadata : Type := {
  defaultBranch : option string;
  repositoryId : option string
}.

Record GetRepositoryOutput : Type := {
  repositoryMetadata : option RepositoryMetadata
}.

Record RepositoryNameIdPair : Type := {
  repositoryName : option string
}.

Record ListRepositoriesOutput : Type := {
  repositories : option (list RepositoryNameIdPair)
}.

(** What [initRepo] and [getRepos] call outside the module. *)
Inductive call : Type :=
| getRepositoryInfo (repository : string)
| gitInitRepo (url : string)
| listRepositories.

(** How these calls settle. *)
Record Remote : Type := {
  repositoryInfo : string -> Error + option GetRepositoryOutput;
  gitInit : string -> Error + unit;
  repositoryList : Error + option ListRepositoriesOutput
}.

Record RepoResult : Type := {
  repoFingerprint : string;
  resultBranch : string;
  isFork : bool
}.

(** A run of [initRepo] or [getRepos]: the outcome, [config] afterwards and
    the calls made, in order. *)
Record ran (A : Type) : Type := mkRan {
  outcomeOf : outcome A;
  configAfter : Config;
  made : list call
}.

Arguments mkRan {A} _ _ _.
Arguments outcomeOf {A} _.
Arguments configAfter {A} _.
Arguments made {A} _.

End Repo.

Definition set_repository (v : string) (c : Config) : Config :=
  mkConfig (Some v) (defaultBranch c) (region c) (prList c)
    (credentials c) (userArn c).

Definition set_defaultBranch (v : string) (c : Config) : Config :=
  mkConfig (repository c) (Some v) (region c) (prList c)
    (credentials c) (userArn c).

(** The error messages of [constants/error-messages] and the helpers
    [getCodeCommitUrl] and [repoFingerprint] are imported by the adapter
    from modules outside these sources.  [getCodeCommitUrl] signs the URL
    with the credentials and throws when it cannot, as when [config] holds
    none ([config.credentials!]). *)
Class RepoImports : Type := {
  REPOSITORY_NOT_FOUND : string;
  PLATFORM_BAD_CREDENTIALS : string;
  REPOSITORY_EMPTY : string;
  getCodeCommitUrl :
    option string -> string -> option Credentials -> Error + string;
  fingerprintOf : string -> option string -> string
}.

Section RepositoriesWithImports.

Context {imports : RepoImports}.

Definition initRepo (repository : string) (endpoint : option string)
    (remote : Repo.Remote) (cfg : Config) : Repo.ran Repo.RepoResult :=
  let cfg := set_repository repository cfg in
  let lookup := Repo.getRepositoryInfo repository in
  match Repo.repositoryInfo remote repository with
  | inl _ =>
      Repo.mkRan (Thrown (ErrorMsg REPOSITORY_NOT_FOUND)) cfg [lookup]
  | inr repo =>
      (* outside both [try] blocks: what the helper throws is thrown on *)
      match getCodeCommitUrl (region cfg) repository (credentials cfg) with
      | inl e => Repo.mkRan (Thrown e) cfg [lookup]
      | inr url =>
          let calls := [lookup; Repo.gitInitRepo url] in
          match Repo.gitInit remote url with
          | inl _ =>
              Repo.mkRan (Thrown (ErrorMsg PLATFORM_BAD_CREDENTIALS)) cfg
                calls
          | inr _ =>
              match match repo with
                    | Some out => Repo.repositoryMetadata out
                    | None => None
                    end with
              | None =>
                  Repo.mkRan (Thrown (ErrorMsg REPOSITORY_NOT_FOUND)) cfg
                    calls
              | Some metadata =>
                  match Repo.defaultBranch metadata,
                        Repo.repositoryId metadata with
                  | Some branch, Some repositoryId =>
                      if negb (branch =? "") && negb (repositoryId =? "")
                      then
                        Repo.mkRan
                          (Returned
                             {| Repo.repoFingerprint :=
                                  fingerprintOf repositoryId endpoint;
                                Repo.resultBranch := branch;
                                Repo.isFork := false |})
                          (set_defaultBranch branch cfg) calls
                      else
                        Repo.mkRan (Thrown (ErrorMsg REPOSITORY_EMPTY)) cfg
                          calls
                  | _, _ =>
                      Repo.mkRan (Thrown (ErrorMsg REPOSITORY_EMPTY)) cfg
                        calls
                  end
              end
          end
      end
  end.

End RepositoriesWithImports.

(** One turn of the loop of [getRepos]. *)
Definition pushName (res : list string) (repo : Repo.RepositoryNameIdPair)
  : list string :=
  match Repo.repositoryName repo with
  | Some name => if name =? "" then res else res ++ [name]
  | None => res
  end.

Definition getRepos (remote : Repo.Remote) (cfg : Config)
  : Repo.ran (list string) :=
  match Repo.repositoryList remote with
  | inl _ => Repo.mkRan (Returned []) cfg [Repo.listRepositories]
  | inr reposRes =>
      let repoNames :=
        match reposRes with
        | Some out =>
            match Repo.repositories out with
            | Some l => l
            | None => []
            end
        | None => []
        end in
      Repo.mkRan (Returned (fold_left pushName repoNames [])) cfg
        [Repo.listRepositories]
  end.

(** ** Vocabulary of the further statements *)

(** The text holds [arn] behind [User:] and white space. *)
Definition namesUser (message arn : string) : Prop :=
  exists pre ws post : string,
    allChars JS.isWhiteSpace ws = true
    /\ message = pre ++ "User:" ++ ws ++ arn ++ post.

Definition notSpace (c : ascii) : bool := negb (Ascii.eqb c " "%char).

(** The pull requests of [prList] in state [wanted] that the statistics
    do not pass over. *)
Definition counted (onboardingPrTitle : option string) (wanted : PrState)
    (prList : list Pr) : N :=
  N.of_nat
    (length
       (filter (fun pr => negb (stats.isOnboarding onboardingPrTitle pr)
                          && PrState_eqb (state pr) wanted)
          prList)).

(** The non-empty name of a listed repository. *)
Definition nameOf (repo : Repo.RepositoryNameIdPair) : list string :=
  match Repo.repositoryName repo with
  | Some name => if name =? "" then [] else [name]
  | None => []
  end.

(** A remote that knows one repository, with the given metadata. *)
Definition oneRepository (metadata : option Repo.RepositoryMetadata)
    (git : Error + unit) : Repo.Remote :=
  {| Repo.repositoryInfo :=
       fun _ => inr (Some {| Repo.repositoryMetadata := metadata |});
     Repo.gitInit := fun _ => git;
     Repo.repositoryList := inr None |}.

(** Imports that the examples run with: the URL is the name of the
    repository, and cannot be made without credentials. *)
Definition plainRepoImports : RepoImports :=
  {| REPOSITORY_NOT_FOUND := "not-found";
     PLATFORM_BAD_CREDENTIALS := "bad-credentials";
     REPOSITORY_EMPTY := "empty";
     getCodeCommitUrl :=
       fun _ repository credentials =>
         match credentials with
         | Some _ => inr repository
         | None => inl TypeError
         end;
     fingerprintOf := fun repositoryId _ => repositoryId |}.

(** * Properties *)

(** ** Running composed programs *)

Lemma run_bind {A B : Type} (p : prog A) (f : A -> prog B) :
  forall r cfg past,
    run (bind p f) r cfg past =
    match result (run p r cfg past) with
    | Returned a =>
        let res := run p r cfg past in
        let res' := run (f a) r (final res) (past ++ calls res) in
        mkRun (result res') (final res') (calls res ++ calls res')
    | Thrown e =>
        let res := run p r cfg past in
        mkRun (Thrown e) (final res) (calls res)
    end.
Proof.
  induction p as [a | e | c k IH | k IH | g k IH]; intros r cfg past; simpl.
  - rewrite app_nil_r. destruct (run (f a) r cfg past); reflexivity.
  - reflexivity.
  - specialize (IH (r past c) r cfg (past ++ [c])%list). simpl in IH.
    rewrite IH.
    destruct (result (run (k (r past c)) r cfg (past ++ [c]))); simpl;
      rewrite <- ?app_assoc; reflexivity.
  - apply IH.
  - apply IH.
Qed.

Lemma run_catch {A : Type} (p : prog A) (h : Error -> prog A) :
  forall r cfg past,
    run (catch p h) r cfg past =
    match result (run p r cfg past) with
    | Returned a => run p r cfg past
    | Thrown e =>
        let res := run p r cfg past in
        let res' := run (h e) r (final res) (past ++ calls res) in
        mkRun (result res') (final res') (calls res ++ calls res')
    end.
Proof.
  induction p as [a | e | c k IH | k IH | g k IH]; intros r cfg past; simpl.
  - reflexivity.
  - rewrite app_nil_r. destruct (run (h e) r cfg past); reflexivity.
  - specialize (IH (r past c) r cfg (past ++ [c])%list). simpl in IH.
    rewrite IH.
    destruct (result (run (k (r past c)) r cfg (past ++ [c]))) eqn:E; simpl.
    + rewrite <- E. destruct (run (k (r past c)) r cfg (past ++ [c]));
        reflexivity.
    + rewrite <- ?app_assoc. reflexivity.
  - apply IH.
  - apply IH.
Qed.

(** ** Numbers *)

Section Numbers.

Local Open Scope Z_scope.

Lemma nearestDouble_small (m : Z) :
  Z.log2 m - 52 <= 0 -> JS.nearestDouble m = Some m.
Proof.
  intros H. unfold JS.nearestDouble.
  apply Z.leb_le in H. rewrite H. reflexivity.
Qed.

(** A natural number of [53 + e] bits, [0 < e], cut to its 53 leading
    bits. *)
Lemma leading_bits (m e : Z) :
  0 < e -> Z.log2 m = e + 52 ->
  2 ^ 52 <= Z.shiftr m e < 2 ^ 53.
Proof.
  intros He Hlog.
  assert (Hm : 0 < m).
  { destruct (Z.lt_ge_cases 0 m) as [H|H]; [exact H|].
    rewrite (Z.log2_nonpos m H) in Hlog. lia. }
  destruct (Z.log2_spec m Hm) as [Hlo Hhi].
  rewrite Hlog in Hlo, Hhi.
  replace (Z.succ (e + 52)) with (e + 53) in Hhi by lia.
  rewrite Z.pow_add_r in Hlo, Hhi by lia.
  rewrite Z.shiftr_div_pow2 by lia.
  assert (Hpos : 0 < 2 ^ e) by (apply Z.pow_pos_nonneg; lia).
  split.
  - apply Z.div_le_lower_bound; [exact Hpos | lia].
  - apply Z.div_lt_upper_bound; [exact Hpos | lia].
Qed.

(** A number of 53 bits at most, shifted, is a double. *)
Lemma nearestDouble_shifted (q e : Z) :
  0 < e -> 2 ^ 52 <= q <= 2 ^ 53 -> Z.shiftl q e < 2 ^ 1024 ->
  JS.nearestDouble (Z.shiftl q e) = Some (Z.shiftl q e).
Proof.
  intros He Hq Hmax.
  assert (Hpos : 0 < 2 ^ e) by (apply Z.pow_pos_nonneg; lia).
  assert (Hq0 : 0 < q) by (assert (0 < 2 ^ 52) by reflexivity; lia).
  assert (Hlog : Z.log2 (Z.shiftl q e) = e + Z.log2 q).
  { rewrite Z.shiftl_mul_pow2 by lia. apply Z.log2_mul_pow2; lia. }
  destruct (Z.eq_dec q (2 ^ 53)) as [->|Hne].
  - (* the mantissa has overflowed: one more bit is dropped *)
    assert (H53 : Z.log2 (2 ^ 53) = 53) by reflexivity.
    unfold JS.nearestDouble. rewrite Hlog, H53.
    replace (e + 53 - 52) with (e + 1) by lia.
    assert (Hle : (e + 1 <=? 0) = false) by (apply Z.leb_gt; lia).
    rewrite Hle. cbv zeta.
    assert (Hq' : Z.shiftr (Z.shiftl (2 ^ 53) e) (e + 1) = 2 ^ 52).
    { rewrite Z.shiftr_shiftl_r by lia.
      replace (e + 1 - e) with 1 by lia. reflexivity. }
    rewrite Hq'.
    assert (Hback : Z.shiftl (2 ^ 52) (e + 1) = Z.shiftl (2 ^ 53) e).
    { rewrite !Z.shiftl_mul_pow2 by lia. rewrite Z.pow_add_r by lia.
      change (2 ^ 53) with (2 ^ 52 * 2 ^ 1). lia. }
    rewrite Hback, Z.sub_diag.
    replace (e + 1 - 1) with e by lia.
    assert (Hhalf : 0 < Z.shiftl 1 e).
    { rewrite Z.shiftl_mul_pow2 by lia. lia. }
    assert (H1 : (Z.shiftl 1 e <? 0) = false) by (apply Z.ltb_ge; lia).
    assert (H2 : (0 =? Z.shiftl 1 e) = false) by (apply Z.eqb_neq; lia).
    rewrite H1, H2. cbn [orb andb]. rewrite Hback.
    apply Z.ltb_lt in Hmax. rewrite Hmax. reflexivity.
  - assert (H52 : Z.log2 q = 52).
    { apply Z.log2_unique; [lia|]. change (52 + 1) with 53. lia. }
    unfold JS.nearestDouble. rewrite Hlog, H52.
    replace (e + 52 - 52) with e by lia.
    assert (Hle : (e <=? 0) = false) by (apply Z.leb_gt; lia).
    rewrite Hle. cbv zeta.
    rewrite Z.shiftr_shiftl_l, Z.sub_diag, Z.shiftl_0_r, Z.sub_diag by lia.
    assert (Hhalf : 0 < Z.shiftl 1 (e - 1)).
    { rewrite Z.shiftl_mul_pow2 by lia.
      assert (0 < 2 ^ (e - 1)) by (apply Z.pow_pos_nonneg; lia). lia. }
    assert (H1 : (Z.shiftl 1 (e - 1) <? 0) = false) by (apply Z.ltb_ge; lia).
    assert (H2 : (0 =? Z.shiftl 1 (e - 1)) = false) by (apply Z.eqb_neq; lia).
    rewrite H1, H2. cbn [orb andb].
    apply Z.ltb_lt in Hmax. rewrite Hmax. reflexivity.
Qed.

(** What [nearestDouble] returns is a double: it is its own nearest
    double. *)
Lemma nearestDouble_double (m d : Z) :
  JS.nearestDouble m = Some d -> JS.nearestDouble d = Some d.
Proof.
  intros H. destruct (Z.le_gt_cases (Z.log2 m - 52) 0) as [Hsmall|Hbig].
  - rewrite (nearestDouble_small m Hsmall) in H. inversion H; subst d.
    apply nearestDouble_small. exact Hsmall.
  - unfold JS.nearestDouble in H.
    assert (Hle : (Z.log2 m - 52 <=? 0) = false) by (apply Z.leb_gt; lia).
    rewrite Hle in H. cbv zeta in H.
    pose proof (leading_bits m (Z.log2 m - 52) Hbig ltac:(lia)) as Hq.
    remember (Z.log2 m - 52) as e eqn:He.
    remember (Z.shiftr m e) as q eqn:Hqdef.
    remember (if (Z.shiftl 1 (e - 1) <? m - Z.shiftl q e)
                 || ((m - Z.shiftl q e =? Z.shiftl 1 (e - 1)) && Z.odd q)
              then q + 1 else q) as q' eqn:Hq'.
    assert (Hrange : 2 ^ 52 <= q' <= 2 ^ 53).
    { subst q'.
      destruct ((Z.shiftl 1 (e - 1) <? m - Z.shiftl q e)
                || ((m - Z.shiftl q e =? Z.shiftl 1 (e - 1)) && Z.odd q));
        lia. }
    destruct (Z.shiftl q' e <? 2 ^ 1024) eqn:Hmax; [|discriminate H].
    inversion H; subst d.
    apply nearestDouble_shifted; [lia | exact Hrange |].
    apply Z.ltb_lt. exact Hmax.
Qed.

Lemma nearestDouble_nonneg (m d : Z) :
  0 <= m -> JS.nearestDouble m = Some d -> 0 <= d.
Proof.
  intros Hm H. destruct (Z.le_gt_cases (Z.log2 m - 52) 0) as [Hsmall|Hbig].
  - rewrite (nearestDouble_small m Hsmall) in H. inversion H; subst d.
    exact Hm.
  - unfold JS.nearestDouble in H.
    assert (Hle : (Z.log2 m - 52 <=? 0) = false) by (apply Z.leb_gt; lia).
    rewrite Hle in H. cbv zeta in H.
    pose proof (leading_bits m (Z.log2 m - 52) Hbig ltac:(lia)) as Hq.
    remember (Z.log2 m - 52) as e eqn:He.
    remember (Z.shiftr m e) as q eqn:Hqdef.
    remember (if (Z.shiftl 1 (e - 1) <? m - Z.shiftl q e)
                 || ((m - Z.shiftl q e =? Z.shiftl 1 (e - 1)) && Z.odd q)
              then q + 1 else q) as q' eqn:Hq'.
    assert (Hrange : 0 <= q').
    { assert (0 < 2 ^ 52) by reflexivity. subst q'.
      destruct ((Z.shiftl 1 (e - 1) <? m - Z.shiftl q e)
                || ((m - Z.shiftl q e =? Z.shiftl 1 (e - 1)) && Z.odd q));
        lia. }
    destruct (Z.shiftl q' e <? 2 ^ 1024); [|discriminate H].
    inversion H; subst d. apply Z.shiftl_nonneg. exact Hrange.
Qed.

Lemma digitValue_nonneg (radix : Z) (c : ascii) (d : Z) :
  JS.digitValue radix c = Some d -> 0 <= d.
Proof.
  unfold JS.digitValue.
  remember (Z.of_nat (nat_of_ascii c)) as n eqn:Hn. clear Hn.
  destruct ((48 <=? n) && (n <=? 57)) eqn:H1.
  - apply andb_prop in H1. destruct H1 as [H1 _]. apply Z.leb_le in H1.
    destruct (n - 48 <? radix); intros H; inversion H; lia.
  - destruct ((97 <=? n) && (n <=? 122)) eqn:H2.
    + apply andb_prop in H2. destruct H2 as [H2 _]. apply Z.leb_le in H2.
      destruct (n - 87 <? radix); intros H; inversion H; lia.
    + destruct ((65 <=? n) && (n <=? 90)) eqn:H3; [|discriminate].
      apply andb_prop in H3. destruct H3 as [H3 _]. apply Z.leb_le in H3.
      destruct (n - 55 <? radix); intros H; inversion H; lia.
Qed.

Lemma digits_nonneg (radix : Z) (s : string) :
  0 <= radix ->
  forall (acc : option Z) (v : Z),
    match acc with Some a => 0 <= a | None => True end ->
    JS.digits radix s acc = Some v -> 0 <= v.
Proof.
  intros Hradix. induction s as [|c s IH]; intros acc v Hacc H;
    cbn [JS.digits] in H.
  - subst acc. exact Hacc.
  - destruct (JS.digitValue radix c) as [d|] eqn:Hd.
    + apply (IH _ v) in H; [exact H|].
      pose proof (digitValue_nonneg radix c d Hd).
      destruct acc as [a|]; nia.
    + subst acc. exact Hacc.
Qed.

Lemma unsignedInt_cases (s : string) :
  JS.unsignedInt s = JS.digits 10 s None
  \/ exists r, JS.unsignedInt s = JS.digits 16 r None.
Proof.
  destruct s as [|a s]; [left; reflexivity|].
  destruct a as [[] [] [] [] [] [] [] []]; try (left; reflexivity).
  destruct s as [|b r]; [left; reflexivity|].
  destruct b as [[] [] [] [] [] [] [] []]; try (left; reflexivity);
    right; exists r; reflexivity.
Qed.

Lemma unsignedInt_nonneg (s : string) (v : Z) :
  JS.unsignedInt s = Some v -> 0 <= v.
Proof.
  destruct (unsignedInt_cases s) as [E | [r E]]; rewrite E;
    apply digits_nonneg; try lia; exact I.
Qed.

(** What [parseInt] returns is a double. *)
Lemma parseInt_double (s : string) : isDouble (JS.parseInt s).
Proof.
  unfold JS.parseInt.
  remember (JS.trimStart s) as t eqn:Ht. clear Ht.
  assert (Hsign : forall sign body,
    sign = 1 \/ sign = -1 ->
    isDouble
      match JS.unsignedInt body with
      | Some v =>
          match JS.nearestDouble v with
          | Some d => JS.Int (sign * d)
          | None => JS.Infinity (sign <? 0)
          end
      | None => JS.NaN
      end).
  { intros sign body Hs.
    destruct (JS.unsignedInt body) as [v|] eqn:Hv; [|exact I].
    destruct (JS.nearestDouble v) as [d|] eqn:Hd; [|exact I].
    pose proof (nearestDouble_nonneg v d (unsignedInt_nonneg body v Hv) Hd).
    cbn [isDouble].
    replace (Z.abs (sign * d)) with d by (destruct Hs; subst sign; lia).
    apply (nearestDouble_double v d Hd). }
  destruct t as [|c r]; [apply Hsign; left; reflexivity|].
  destruct c as [[] [] [] [] [] [] [] []];
    first [apply Hsign; left; reflexivity | apply Hsign; right; reflexivity].
Qed.

End Numbers.

(** ** The derived state of a fetched pull request *)

(** C1. For every pull-request record fetched by [getPr]: when the merge
    metadata of its target reports [isMerged = true] the returned PR has
    state [Merged], whatever the raw [pullRequestStatus] is; when it does
    not, the state is [Open] if the raw status equals [OPEN] and [Closed]
    otherwise. *)
Theorem getPr_derived_state :
  forall (r : remote) (cfg : Config) (past : list client.call)
         (pullRequestId : JS.Number) (out : Aws.PullRequestOutput)
         (prInfo : Aws.PullRequest) (t : Aws.PullRequestTarget)
         (ts : list Aws.PullRequestTarget),
    r past (client.getPr (JS.toString pullRequestId)) = Some out ->
    Aws.pullRequest out = Some prInfo ->
    Aws.pullRequestTargets prInfo = Some (t :: ts) ->
    exists pr : Pr,
      result (run (getPr pullRequestId) r cfg past) = Returned (Some pr) /\
      (reportsMerged t -> state pr = Merged) /\
      (~ reportsMerged t ->
       Aws.pullRequestStatus prInfo = Some "OPEN" -> state pr = Open) /\
      (~ reportsMerged t ->
       Aws.pullRequestStatus prInfo <> Some "OPEN" -> state pr = Closed).
Proof.
  intros r cfg past pullRequestId out prInfo t ts Hr Hout Htargets.
  unfold getPr. simpl. rewrite Hr.
  destruct out as [pullRequest]. simpl in Hout. subst pullRequest.
  unfold firstTarget. rewrite Htargets. simpl.
  eexists. split; [reflexivity |]. simpl.
  repeat split.
  - intros [m [Hm Hmerged]]. rewrite Hm.
    destruct m as [isMerged]. simpl in Hmerged. subst isMerged. reflexivity.
  - intros Hnot Hopen.
    assert (E : openOrClosed prInfo = Open).
    { unfold openOrClosed. rewrite Hopen. reflexivity. }
    destruct (Aws.mergeMetadata t) as [[[[|]|]]|] eqn:Hm; try exact E.
    exfalso. apply Hnot. eexists. split; [exact Hm | reflexivity].
  - intros Hnot Hopen.
    assert (E : openOrClosed prInfo = Closed).
    { unfold openOrClosed.
      destruct (Aws.pullRequestStatus prInfo) as [s|]; simpl; [|reflexivity].
      destruct (String.eqb_spec s Aws.OPEN) as [->|]; [|reflexivity].
      exfalso. apply Hopen. reflexivity. }
    destruct (Aws.mergeMetadata t) as [[[[|]|]]|] eqn:Hm; try exact E.
    exfalso. apply Hnot. eexists. split; [exact Hm | reflexivity].
Qed.

Lemma getPr_derived_state_witness :
  exists pr : Pr,
    result (run (getPr (JS.Int 1)) (fixed mergedBackend) emptyConfig [])
    = Returned (Some pr)
    /\ state pr = Merged.
Proof.
  destruct (getPr_derived_state (fixed mergedBackend) emptyConfig []
              (JS.Int 1) {| Aws.pullRequest := Some mergedPr |} mergedPr
              mergedTarget [] eq_refl eq_refl eq_refl)
    as [pr [Hrun [Hmerged _]]].
  exists pr. split; [exact Hrun |].
  apply Hmerged. exists {| Aws.isMerged := Some true |}.
  split; reflexivity.
Defined.

(** ** Unsupported merge strategies *)

Lemma isStrategy_false (strategy : option string) (s : string) :
  strategy <> Some s -> isStrategy strategy s = false.
Proof.
  intros H. unfold isStrategy. destruct strategy as [x|]; simpl; [|reflexivity].
  destruct (String.eqb_spec x s) as [->|]; [|reflexivity].
  exfalso. apply H. reflexivity.
Qed.

(** C7. For every [mergePr] call whose strategy is [rebase], or any other
    strategy outside auto, squash and fast-forward (merge-commit, or none),
    the function returns [false]: it does not throw, and the only remote
    call it issues is the fetch of the pull request, so neither the
    squash-merge nor the fast-forward-merge endpoint is invoked. *)
Theorem mergePr_unsupported_strategy :
  forall (r : remote) (cfg : Config) (past : list client.call)
         (prNo : JS.Number) (strategy : option string),
    strategy <> Some "auto" ->
    strategy <> Some "squash" ->
    strategy <> Some "fast-forward" ->
    run (mergePr prNo strategy) r cfg past
    = mkRun (Returned false) cfg [client.getPr (JS.toString prNo)].
Proof.
  intros r cfg past prNo strategy Hauto Hsquash Hff.
  unfold mergePr. simpl.
  destruct (r past (client.getPr (JS.toString prNo))) as [[[p|]]|];
    simpl; try reflexivity.
  destruct (Aws.pullRequestTargets p) as [targets|]; [|reflexivity].
  destruct (isStrategy strategy "rebase"); [reflexivity|].
  rewrite (isStrategy_false _ _ Hauto), (isStrategy_false _ _ Hsquash),
    (isStrategy_false _ _ Hff).
  reflexivity.
Qed.

Lemma mergePr_unsupported_strategy_witness :
  run (mergePr (JS.Int 1) (Some "rebase")) (fixed mergedBackend) emptyConfig []
  = mkRun (Returned false) emptyConfig [client.getPr "1"]
  /\ run (mergePr (JS.Int 1) (Some "merge-commit")) (fixed mergedBackend)
       emptyConfig []
     = mkRun (Returned false) emptyConfig [client.getPr "1"].
Proof.
  split.
  - apply (mergePr_unsupported_strategy (fixed mergedBackend) emptyConfig []
             (JS.Int 1) (Some "rebase")); discriminate.
  - apply (mergePr_unsupported_strategy (fixed mergedBackend) emptyConfig []
             (JS.Int 1) (Some "merge-commit")); discriminate.
Defined.

(** ** Initialisation with an endpoint that names no region *)

Lemma truthy_nonempty (e : string) :
  e <> EmptyString -> JS.truthy (Some e) = true.
Proof.
  intros He. simpl. apply String.eqb_neq in He. rewrite He. reflexivity.
Qed.

(** C9, as stated, fails in its second half: an endpoint argument that is
    given as the empty string is falsy, so [initPlatform] reads the region
    from [AWS_REGION] although an endpoint argument is there; the run then
    depends on that variable. *)
Lemma initPlatform_region_fallback_counterexample :
  ~ (forall (env env' : Env) (e : string) (username password : option string)
            (r : remote) (cfg : Config) (past : list client.call),
        sameButRegion env env' ->
        run (initPlatform env (Some e) username password) r cfg past
        = run (initPlatform env' (Some e) username password) r cfg past).
Proof.
  intros H.
  specialize (H {| AWS_ACCESS_KEY_ID := None; AWS_SECRET_ACCESS_KEY := None;
                   AWS_REGION := Some "eu-central-1";
                   AWS_SESSION_TOKEN := None |}
                {| AWS_ACCESS_KEY_ID := None; AWS_SECRET_ACCESS_KEY := None;
                   AWS_REGION := None; AWS_SESSION_TOKEN := None |}
                EmptyString (Some "abc") (Some "123") (fixed mergedBackend)
                emptyConfig []).
  assert (E : result (run (initPlatform
                             {| AWS_ACCESS_KEY_ID := None;
                                AWS_SECRET_ACCESS_KEY := None;
                                AWS_REGION := Some "eu-central-1";
                                AWS_SESSION_TOKEN := None |}
                             (Some EmptyString) (Some "abc") (Some "123"))
                        (fixed mergedBackend) emptyConfig [])
              = Thrown (ErrorMsg initErrorMessage)).
  { rewrite H; [reflexivity | repeat split]. }
  discriminate E.
Qed.

(** C9, amended. When [initPlatform] is given a non-empty endpoint from
    which no region can be parsed, it throws the missing-configuration
    error before any remote call, whatever the environment holds,
    [AWS_REGION] included.  [AWS_REGION] is consulted only when the endpoint
    argument is absent or empty: with a non-empty endpoint the whole run is
    the same whatever [AWS_REGION] holds; with an absent or empty endpoint
    the region is the one of [AWS_REGION]. *)
Theorem initPlatform_region_fallback :
  (forall (env : Env) (e : string) (username password : option string)
          (r : remote) (cfg : Config) (past : list client.call),
      e <> EmptyString ->
      execRegion e = None ->
      run (initPlatform env (Some e) username password) r cfg past
      = mkRun (Thrown (ErrorMsg initErrorMessage)) cfg [])
  /\
  (forall (env env' : Env) (e : string) (username password : option string)
          (r : remote) (cfg : Config) (past : list client.call),
      e <> EmptyString ->
      sameButRegion env env' ->
      run (initPlatform env (Some e) username password) r cfg past
      = run (initPlatform env' (Some e) username password) r cfg past)
  /\
  (forall (env : Env) (endpoint : option string) (user pass reg arn : string)
          (r : remote) (cfg : Config) (past : list client.call),
      JS.truthy endpoint = false ->
      user <> EmptyString -> pass <> EmptyString -> reg <> EmptyString ->
      AWS_REGION env = Some reg ->
      r past client.getUserArn = inr arn ->
      let res :=
        run (initPlatform env endpoint (Some user) (Some pass)) r cfg past in
      result res
      = Returned
          {| endpoint :=
               match endpoint with
               | Some e => e
               | None => "https://git-codecommit." ++ reg ++ ".amazonaws.com/"
               end |}
      /\ region (final res) = Some reg).
Proof.
  split; [|split].
  - intros env e username password r cfg past He Hnone.
    unfold initPlatform. rewrite (truthy_nonempty e He), Hnone.
    destruct (orEnv username (AWS_ACCESS_KEY_ID env));
      destruct (orEnv password (AWS_SECRET_ACCESS_KEY env)); reflexivity.
  - intros env env' e username password r cfg past He [Hkey [Hsecret Htoken]].
    unfold initPlatform.
    rewrite (truthy_nonempty e He), Hkey, Hsecret, Htoken. reflexivity.
  - intros env endpoint user pass reg arn r cfg past Hfalsy Hu Hp Hr Henv
      Harn.
    apply String.eqb_neq in Hu, Hp, Hr.
    unfold initPlatform, orEnv. rewrite Hfalsy, Henv.
    unfold JS.truthy. rewrite Hu, Hp. simpl. rewrite Hu, Hp, Hr. simpl.
    rewrite Harn. simpl. split; reflexivity.
Qed.

Lemma initPlatform_region_fallback_witness :
  let env :=
    {| AWS_ACCESS_KEY_ID := None; AWS_SECRET_ACCESS_KEY := None;
       AWS_REGION := Some "eu-central-1"; AWS_SESSION_TOKEN := None |} in
  let env' :=
    {| AWS_ACCESS_KEY_ID := None; AWS_SECRET_ACCESS_KEY := None;
       AWS_REGION := Some "us-east-1"; AWS_SESSION_TOKEN := None |} in
  run (initPlatform env (Some "endpoint") (Some "abc") (Some "123"))
    (fixed mergedBackend) emptyConfig []
  = mkRun (Thrown (ErrorMsg initErrorMessage)) emptyConfig []
  /\ run (initPlatform env
            (Some "https://git-codecommit.eu-west-1.amazonaws.com/")
            (Some "abc") (Some "123"))
       (fixed mergedBackend) emptyConfig []
     = run (initPlatform env'
              (Some "https://git-codecommit.eu-west-1.amazonaws.com/")
              (Some "abc") (Some "123"))
         (fixed mergedBackend) emptyConfig []
  /\ result (run (initPlatform env None (Some "abc") (Some "123"))
               (fixed mergedBackend) emptyConfig [])
     = Returned
         {| endpoint := "https://git-codecommit.eu-central-1.amazonaws.com/" |}
  /\ region (final (run (initPlatform env (Some EmptyString) (Some "abc")
                           (Some "123"))
                      (fixed mergedBackend) emptyConfig []))
     = Some "eu-central-1".
Proof.
  split; [|split; [|split]].
  - apply (proj1 initPlatform_region_fallback); [discriminate | reflexivity].
  - apply (proj1 (proj2 initPlatform_region_fallback));
      [discriminate | repeat split].
  - refine (proj1 (proj2 (proj2 initPlatform_region_fallback)
                     {| AWS_ACCESS_KEY_ID := None;
                        AWS_SECRET_ACCESS_KEY := None;
                        AWS_REGION := Some "eu-central-1";
                        AWS_SESSION_TOKEN := None |}
                     None "abc" "123" "eu-central-1" "arn:aws:iam::user"
                     (fixed mergedBackend) emptyConfig [] eq_refl _ _ _
                     eq_refl eq_refl));
      discriminate.
  - refine (proj2 (proj2 (proj2 initPlatform_region_fallback)
                     {| AWS_ACCESS_KEY_ID := None;
                        AWS_SECRET_ACCESS_KEY := None;
                        AWS_REGION := Some "eu-central-1";
                        AWS_SESSION_TOKEN := None |}
                     (Some EmptyString) "abc" "123" "eu-central-1"
                     "arn:aws:iam::user"
                     (fixed mergedBackend) emptyConfig [] eq_refl _ _ _
                     eq_refl eq_refl));
      discriminate.
Defined.

(** ** The status update of [updatePr] *)

Lemma statusInput_cases (state : option PrState) :
  let status :=
    match state with
    | Some Closed => Aws.CLOSED
    | _ => Aws.OPEN
    end in
  (state = Some Closed -> status = Aws.CLOSED)
  /\ (state <> Some Closed -> status = Aws.OPEN).
Proof.
  destruct state as [[]|]; simpl; split; intros H;
    try reflexivity; try discriminate; exfalso; apply H; reflexivity.
Qed.

(** C10, as stated, fails: when the description update is rejected,
    [updatePr] throws before it reaches the status update, and no
    status-update call is issued. *)
Lemma updatePr_status_update_counterexample :
  ~ (forall (imports : Imports) (r : remote) (cfg : Config)
            (past : list client.call) (prNo : JS.Number)
            (title body : option string) (state : option PrState),
        exists status : string,
          In (client.updatePrStatus (JS.toString prNo) status)
             (calls (run (updatePr prNo title body state) r cfg past))).
Proof.
  intros H.
  destruct (H plainImports rejecting emptyConfig [] (JS.Int 1) None
              (Some "body") (Some Closed)) as [status Hin].
  vm_compute in Hin.
  destruct Hin as [Heq | []]. discriminate Heq.
Qed.

(** C10, amended. Every [updatePr] call whose description and title
    updates, when requested, do not fail (the remote resolves the update
    calls that this very call issues) issues one remote status-update call,
    after them, setting the status to [CLOSED] when the requested state is
    [Closed] and to [OPEN] for any other requested state or none; whatever
    the remote answers to that call, a rejection included, [updatePr]
    returns normally.  When a requested update fails, [updatePr] throws and
    issues no status-update call. *)
Theorem updatePr_status_update :
  forall (imports : Imports) (r : remote) (cfg : Config)
         (past : list client.call) (prNo : JS.Number)
         (title body : option string) (state : option PrState),
    (resolveInTurn r past (editCalls prNo title body) = true ->
     result (run (updatePr prNo title body state) r cfg past) = Returned tt
     /\ exists status : string,
          calls (run (updatePr prNo title body state) r cfg past)
          = (editCalls prNo title body
             ++ [client.updatePrStatus (JS.toString prNo) status])%list
          /\ (state = Some Closed -> status = Aws.CLOSED)
          /\ (state <> Some Closed -> status = Aws.OPEN))
    /\ (resolveInTurn r past (editCalls prNo title body) = false ->
        (exists e,
            result (run (updatePr prNo title body state) r cfg past)
            = Thrown e)
        /\ forall status,
             ~ In (client.updatePrStatus (JS.toString prNo) status)
                 (calls (run (updatePr prNo title body state) r cfg past))).
Proof.
  intros imports r cfg past prNo title body state.
  pose proof (statusInput_cases state) as Hstatus. simpl in Hstatus.
  unfold updatePr, editCalls.
  destruct body as [b|]; [destruct (JS.truthy (Some b)) |];
    (destruct title as [t|]; [destruct (JS.truthy (Some t)) |]);
    simpl;
    repeat match goal with
      | |- context [r ?p (client.updatePrDescription ?i ?d)] =>
          destruct (r p (client.updatePrDescription i d)) as [?e|[]]; simpl
      | |- context [r ?p (client.updatePrTitle ?i ?d)] =>
          destruct (r p (client.updatePrTitle i d)) as [?e|[]]; simpl
      end;
    try match goal with
      | |- context [r ?p (client.updatePrStatus ?i ?s)] =>
          destruct (r p (client.updatePrStatus i s)) as [?e|?o]; simpl
      end;
    (split;
     [ intros Hok; try discriminate Hok;
       (split;
        [reflexivity | eexists; split; [reflexivity | exact Hstatus]])
     | intros Hko; try discriminate Hko;
       (split;
        [ eexists; reflexivity
        | intros status' Hin;
          repeat match goal with
            | H : _ \/ _ |- _ => destruct H as [H | H]
            | H : False |- _ => contradiction
            | H : _ = client.updatePrStatus _ _ |- _ => discriminate H
            end ]) ]).
Qed.

Lemma updatePr_status_update_witness :
  let res :=
    run (updatePr (imports := plainImports) (JS.Int 1) (Some "title")
           (Some "body") (Some Closed))
      onlyPr1 emptyConfig [] in
  result res = Returned tt
  /\ exists status : string,
       calls res
       = [client.updatePrDescription "1" "body";
          client.updatePrTitle "1" "title";
          client.updatePrStatus "1" status]
       /\ (Some Closed = Some Closed -> status = Aws.CLOSED)
       /\ (Some Closed <> Some Closed -> status = Aws.OPEN).
Proof.
  refine (proj1 (updatePr_status_update plainImports onlyPr1 emptyConfig []
                   (JS.Int 1) (Some "title") (Some "body") (Some Closed)) _).
  reflexivity.
Defined.

(** ** The directory: listed state and the state filter *)

Lemma openOrClosed_cases (prInfo : Aws.PullRequest) :
  openOrClosed prInfo = Open \/ openOrClosed prInfo = Closed.
Proof.
  unfold openOrClosed.
  destruct (JS.strictEq (Aws.pullRequestStatus prInfo) (Some Aws.OPEN)); auto.
Qed.

Lemma fetchPrs_listedEntry (r : remote) (cfg : Config) (prIds : list string) :
  forall (fetchedPrs : list Pr) (past : list client.call) (l : list Pr),
    Forall listedEntry fetchedPrs ->
    result (run (fetchPrs prIds fetchedPrs) r cfg past) = Returned l ->
    Forall listedEntry l.
Proof.
  induction prIds as [|prId rest IH]; intros fetchedPrs past l Hacc; simpl.
  - intros H. inversion H; subst. exact Hacc.
  - destruct (r past (client.getPr prId)) as [[[prInfo|]]|]; simpl;
      try apply (IH _ _ _ Hacc).
    unfold firstTarget.
    destruct (Aws.pullRequestTargets prInfo) as [[|t ts]|]; simpl;
      try discriminate.
    apply IH. apply Forall_app. split; [exact Hacc|].
    constructor; [|constructor].
    split; [apply openOrClosed_cases | reflexivity].
Qed.

(** On a cache miss, whatever the remote replies, every pull request that
    [getPrList] returns has state [Open] or [Closed] and no [sha]: no
    listed pull request is ever [Merged]. *)
Lemma getPrList_lists_open_or_closed (r : remote) (cfg : Config)
    (past : list client.call) (l : list Pr) :
  prList cfg = None ->
  result (run getPrList r cfg past) = Returned l ->
  Forall listedEntry l.
Proof.
  intros Hslot. unfold getPrList. simpl. rewrite Hslot. simpl.
  destruct (r past (client.listPullRequests (repository cfg) (userArn cfg)))
    as [e | listPrsResponse]; simpl; [discriminate|].
  assert (Hfetch : forall ids past',
    result (run (bind (fetchPrs ids [])
                   (fun fetchedPrs =>
                      UpdateConfig (set_prList fetchedPrs) (Ret fetchedPrs)))
              r cfg past') = Returned l ->
    Forall listedEntry l).
  { intros ids past'. rewrite run_bind.
    destruct (result (run (fetchPrs ids []) r cfg past')) as [fetched|e]
      eqn:E; simpl; [|discriminate].
    intros H. inversion H; subst.
    apply (fetchPrs_listedEntry r cfg ids [] past' l (Forall_nil _) E). }
  destruct listPrsResponse as [[[ids|]]|]; simpl.
  - apply (Hfetch ids).
  - intros H. inversion H. constructor.
  - intros H. inversion H. constructor.
Qed.

(** C2 does not hold of the code. On a cache miss [getPrList] derives the
    state from the raw status alone: pull request 1 of [mergedBackend],
    whose merge metadata reports [isMerged = true], is listed as [Closed]
    and without its revision, while [getPr] returns it as [Merged]. *)
Theorem getPrList_merged_listed_closed :
  result (run getPrList (fixed mergedBackend) emptyConfig [])
  = Returned
      [ {| number := JS.Int 1;
           sourceBranch := Some "refs/heads/feature";
           targetBranch := Some "refs/heads/main";
           title := Some "Update dep";
           state := Closed;
           sha := None;
           sourceRepo := None |} ]
  /\ result (run (getPr (JS.Int 1)) (fixed mergedBackend) emptyConfig [])
     = Returned
         (Some {| number := JS.Int 1;
                  sourceBranch := Some "refs/heads/feature";
                  targetBranch := Some "refs/heads/main";
                  title := Some "Update dep";
                  state := Merged;
                  sha := Some "rev1";
                  sourceRepo := None |}).
Proof. split; reflexivity. Qed.

(** C3 does not hold of the code. Asked for a [Closed] or a [Merged] pull
    request, [findPr] keeps the pull requests whose state is [Open]: on
    [openBackend], whose only pull request is open, both requests return
    that open pull request.  Asked for [Open], [All] or [NotOpen] it filters
    as the claim says. *)
Theorem findPr_concrete_state_keeps_open :
  result (run (findPr "feature" None (Some Closed)) (fixed openBackend)
            emptyConfig [])
  = Returned (Some openPr)
  /\ result (run (findPr "feature" None (Some Merged)) (fixed openBackend)
               emptyConfig [])
     = Returned (Some openPr)
  /\ (forall prs : list Pr,
        filterByState Closed prs
        = filter (fun item => PrState_eqb (state item) Open) prs
        /\ filterByState Merged prs
           = filter (fun item => PrState_eqb (state item) Open) prs
        /\ filterByState Open prs
           = filter (fun item => PrState_eqb (state item) Open) prs
        /\ filterByState All prs = prs
        /\ filterByState NotOpen prs
           = filter (fun item => negb (PrState_eqb (state item) Open)) prs).
Proof.
  split; [reflexivity | split; [reflexivity |]].
  intros prs. repeat split; reflexivity.
Qed.

(** ** The PR-list cache *)

Lemma keeps_ret {A : Type} (a : A) : keepsPrList (ret a).
Proof. apply keeps_Ret. Qed.

Lemma keeps_raise {A : Type} (e : Error) : keepsPrList (raise e : prog A).
Proof. apply keeps_Throw. Qed.

Lemma keeps_bind {A B : Type} (p : prog A) (f : A -> prog B) :
  keepsPrList p -> (forall a, keepsPrList (f a)) -> keepsPrList (bind p f).
Proof.
  intros Hp Hf. induction Hp; simpl; try (constructor; auto; fail).
  apply Hf.
Qed.

Lemma keeps_catch {A : Type} (p : prog A) (h : Error -> prog A) :
  keepsPrList p -> (forall e, keepsPrList (h e)) -> keepsPrList (catch p h).
Proof.
  intros Hp Hh. induction Hp; simpl; try (constructor; auto; fail).
  apply Hh.
Qed.

Lemma keeps_await (c : client.call) : keepsPrList (await c).
Proof.
  destruct c; simpl; constructor; intros x;
    try (destruct x; constructor); constructor.
Qed.

Lemma keeps_readConfig : keepsPrList readConfig.
Proof. constructor. intros cfg. constructor. Qed.

Lemma keeps_run {A : Type} (p : prog A) :
  keepsPrList p ->
  forall r cfg past, prList (final (run p r cfg past)) = prList cfg.
Proof.
  intros Hp. induction Hp; intros r cfg past; simpl; auto.
  rewrite IHHp. auto.
Qed.

Lemma keeps_settle {A : Type} (x : Error + A) : keepsPrList (settle x).
Proof. destruct x; constructor. Qed.

Create HintDb keeps.
#[local] Hint Resolve keeps_ret keeps_raise keeps_await keeps_readConfig
  keeps_settle : keeps.
#[local] Hint Constructors keepsPrList : keeps.

(** One step of the structural argument that a program never assigns
    [config.prList]. *)
Ltac keeps_step :=
  first
    [ apply keeps_bind
    | apply keeps_catch
    | apply keeps_Await
    | apply keeps_ReadConfig
    | solve [auto with keeps]
    | intro
    | match goal with
      | |- keepsPrList (match ?x with _ => _ end) => destruct x
      | |- keepsPrList (let _ := _ in _) => cbv zeta
      end ].

Ltac keeps := repeat keeps_step.

Lemma keeps_scanThreads topic header body threads :
  keepsPrList (scanThreads topic header body threads).
Proof.
  induction threads as [|commentObj rest IH]; simpl; [apply keeps_ret|].
  destruct (Aws.comments commentObj) as [[|first others]|]; auto.
  - apply keeps_raise.
  - destruct (rootMatches topic header body (Aws.content first)); auto.
    apply keeps_ret.
Qed.

Lemma keeps_removeFirst removeConfig threads :
  forall commentIdToRemove,
    keepsPrList (removeFirst removeConfig threads commentIdToRemove).
Proof.
  induction threads as [|commentObj rest IH]; intros cur; simpl;
    [apply keeps_ret|].
  destruct (Aws.comments commentObj) as [comments|]; auto.
  destruct (scanComments removeConfig comments cur) as [id|] eqn:E; auto.
  destruct (JS.truthy (Some id)); auto.
  apply (keeps_await (client.deleteComment id)).
Qed.

#[local] Hint Resolve keeps_scanThreads keeps_removeFirst : keeps.

Lemma keeps_perform (imports : Imports) (op : operation) :
  keepsPrList (perform op).
Proof.
  destruct op; simpl.
  - unfold createPr. keeps.
  - unfold updatePr. keeps.
  - unfold mergePr, target0. keeps.
  - unfold ensureComment. keeps.
  - unfold ensureCommentRemoval. keeps.
Qed.

Lemma keeps_steadyState (imports : Imports) (ops : list operation) :
  keepsPrList (steadyState ops).
Proof.
  induction ops as [|op rest IH]; simpl; [apply keeps_ret|].
  apply keeps_bind; [|intros _; exact IH].
  apply keeps_catch; [apply keeps_perform | intros e; apply keeps_ret].
Qed.

Lemma getPrList_cached (r : remote) (cfg : Config) (past : list client.call)
    (cached : list Pr) :
  prList cfg = Some cached ->
  run getPrList r cfg past = mkRun (Returned cached) cfg [].
Proof.
  intros H. unfold getPrList. simpl. rewrite H. reflexivity.
Qed.

(** A call of [getPrList] that returns leaves in the slot the sequence it
    returns, but for the one listing reply that carries no
    [pullRequestIds]. *)
Lemma getPrList_slot (r : remote) (cfg : Config) (past : list client.call)
    (l : list Pr) :
  result (run getPrList r cfg past) = Returned l ->
  (prList cfg = None ->
   listsNoIds
     (r past (client.listPullRequests (repository cfg) (userArn cfg)))
   = false) ->
  prList (final (run getPrList r cfg past)) = Some l.
Proof.
  unfold getPrList. simpl.
  destruct (prList cfg) as [cached|] eqn:Hslot; simpl.
  - intros H _. inversion H; subst. exact Hslot.
  - destruct (r past (client.listPullRequests (repository cfg) (userArn cfg)))
      as [e | listPrsResponse]; simpl; [discriminate|].
    assert (Hfetch : forall ids,
      let p := bindProg (fetchPrs ids [])
                 (fun fetchedPrs =>
                    UpdateConfig (set_prList fetchedPrs) (Ret fetchedPrs)) in
      let res := run p r cfg
                   (past ++ [client.listPullRequests (repository cfg)
                               (userArn cfg)])%list in
      result res = Returned l -> prList (final res) = Some l).
    { intros ids p res. subst p res.
      change (bindProg (fetchPrs ids [])
                (fun fetchedPrs =>
                   UpdateConfig (set_prList fetchedPrs) (Ret fetchedPrs)))
        with (bind (fetchPrs ids [])
                (fun fetchedPrs =>
                   UpdateConfig (set_prList fetchedPrs) (Ret fetchedPrs))).
      rewrite run_bind.
      destruct (result (run (fetchPrs ids []) r cfg _)) as [fetched|e]; simpl.
      - intros H. inversion H; subst. reflexivity.
      - discriminate. }
    destruct listPrsResponse as [[[ids|]]|]; simpl.
    + intros H _. apply (Hfetch ids H).
    + intros _ Hids. specialize (Hids eq_refl). discriminate Hids.
    + intros H _. apply (Hfetch [] H).
Qed.

(** C4, as stated, fails in its last part: a first [getPrList] call whose
    listing reply carries no [pullRequestIds] returns the empty sequence
    without populating the slot, so the next call lists again and returns
    whatever the remote then holds. *)
Lemma getPrList_cache_counterexample :
  ~ (forall (r : remote) (cfg : Config) (past : list client.call)
            (l1 l2 : list Pr),
        let res1 := run getPrList r cfg past in
        let res2 := run getPrList r (final res1) (past ++ calls res1)%list in
        result res1 = Returned l1 ->
        result res2 = Returned l2 ->
        l1 = l2).
Proof.
  intros H.
  specialize (H (changing
                   {| listing := Some {| Aws.pullRequestIds := None |};
                      pullRequests := [];
                      commentThreads := [];
                      eventsOf := None |}
                   openBackend)
                emptyConfig [] [] [openPr] eq_refl eq_refl).
  discriminate H.
Qed.

(** C4, amended. Once the PR-list slot of [config] is populated, every
    [getPrList] call returns exactly the cached sequence, issues no remote
    call and leaves [config] as it is; none of [createPr], [updatePr],
    [mergePr], [ensureComment] and [ensureCommentRemoval] modifies or
    clears the slot, whether it returns or throws; hence when a
    [getPrList] call returns, a later [getPrList] call of the session,
    after any steady-state operations and whatever the remote then
    answers, returns the same sequence without a remote call, with one
    exception: a call that finds the slot empty and whose listing reply
    carries no [pullRequestIds] returns the empty sequence and leaves the
    slot empty, and a call that finds the slot empty lists again. *)
Theorem getPrList_cache_stable :
  (forall (r : remote) (cfg : Config) (past : list client.call)
          (cached : list Pr),
      prList cfg = Some cached ->
      run getPrList r cfg past = mkRun (Returned cached) cfg [])
  /\
  (forall (imports : Imports) (op : operation) (r : remote) (cfg : Config)
          (past : list client.call),
      prList (final (run (perform op) r cfg past)) = prList cfg)
  /\
  (forall (imports : Imports) (ops : list operation) (r : remote)
          (cfg : Config) (past : list client.call) (l1 : list Pr),
      let res1 := run getPrList r cfg past in
      let res2 :=
        run (steadyState ops) r (final res1) (past ++ calls res1)%list in
      let res3 :=
        run getPrList r (final res2) (past ++ calls res1 ++ calls res2)%list in
      result res1 = Returned l1 ->
      (prList cfg = None ->
       listsNoIds
         (r past (client.listPullRequests (repository cfg) (userArn cfg)))
       = false) ->
      result res3 = Returned l1 /\ calls res3 = [])
  /\
  (forall (r : remote) (cfg : Config) (past : list client.call),
      prList cfg = None ->
      listsNoIds
        (r past (client.listPullRequests (repository cfg) (userArn cfg)))
      = true ->
      run getPrList r cfg past
      = mkRun (Returned []) cfg
          [client.listPullRequests (repository cfg) (userArn cfg)])
  /\
  (forall (r : remote) (cfg : Config) (past : list client.call),
      prList cfg = None ->
      hd_error (calls (run getPrList r cfg past))
      = Some (client.listPullRequests (repository cfg) (userArn cfg))).
Proof.
  split; [exact getPrList_cached | split; [|split; [|split]]].
  - intros imports op r cfg past. apply keeps_run. apply keeps_perform.
  - intros imports ops r cfg past l1 res1 res2 res3 Hret Hids.
    assert (H2 : prList (final res2) = Some l1).
    { subst res2. rewrite keeps_run by apply keeps_steadyState.
      apply getPrList_slot; assumption. }
    subst res3. rewrite (getPrList_cached _ _ _ l1 H2). split; reflexivity.
  - intros r cfg past Hslot Hids. unfold getPrList. simpl. rewrite Hslot.
    simpl. unfold listsNoIds in Hids.
    destruct (r past (client.listPullRequests (repository cfg) (userArn cfg)))
      as [e | [[[ids|]]|]]; try discriminate Hids.
    reflexivity.
  - intros r cfg past Hslot. unfold getPrList. simpl. rewrite Hslot.
    reflexivity.
Qed.

Lemma getPrList_cache_stable_witness :
  let listed :=
    [ {| number := JS.Int 1;
         sourceBranch := Some "refs/heads/feature";
         targetBranch := Some "refs/heads/main";
         title := Some "Update dep";
         state := Closed;
         sha := None;
         sourceRepo := None |} ] in
  let res1 := run getPrList (changing openBackend mergedBackend) emptyConfig []
  in
  let res2 :=
    run (steadyState (imports := plainImports)
           [CreatePr "feature" "main" "Update dep" "body";
            MergePr (JS.Int 1) (Some "squash")])
      (changing openBackend mergedBackend) (final res1) ([] ++ calls res1)%list
  in
  let res3 :=
    run getPrList (changing openBackend mergedBackend) (final res2)
      ([] ++ calls res1 ++ calls res2)%list in
  let unlisted :=
    changing
      {| listing := Some {| Aws.pullRequestIds := None |};
         pullRequests := [];
         commentThreads := [];
         eventsOf := None |}
      openBackend in
  (result res3 = Returned listed /\ calls res3 = [])
  /\ run getPrList rejecting (set_prList [openPr] emptyConfig) []
     = mkRun (Returned [openPr]) (set_prList [openPr] emptyConfig) []
  /\ run getPrList unlisted emptyConfig []
     = mkRun (Returned []) emptyConfig
         [client.listPullRequests (repository emptyConfig)
            (userArn emptyConfig)]
  /\ hd_error
       (calls (run getPrList unlisted emptyConfig
                 [client.listPullRequests (repository emptyConfig)
                    (userArn emptyConfig)]))
     = Some (client.listPullRequests (repository emptyConfig)
               (userArn emptyConfig)).
Proof.
  split; [|split; [|split]].
  - apply (proj1 (proj2 (proj2 getPrList_cache_stable)) plainImports
             [CreatePr "feature" "main" "Update dep" "body";
              MergePr (JS.Int 1) (Some "squash")]
             (changing openBackend mergedBackend) emptyConfig []).
    + reflexivity.
    + reflexivity.
  - apply (proj1 getPrList_cache_stable). reflexivity.
  - apply (proj1 (proj2 (proj2 (proj2 getPrList_cache_stable)))).
    + reflexivity.
    + reflexivity.
  - apply (proj2 (proj2 (proj2 (proj2 getPrList_cache_stable)))).
    reflexivity.
Defined.

(** ** Removal of a comment *)

Lemma scanComments_find removeConfig comments cur :
  scanComments removeConfig comments cur
  = match find (removalMatches removeConfig) comments with
    | Some c => Aws.commentId c
    | None => cur
    end.
Proof.
  induction comments as [|x xs IH]; simpl; [reflexivity|].
  destruct (removalMatches removeConfig x); [reflexivity | exact IH].
Qed.

(** The outer loop goes past the threads that the removal leaves alone,
    with nothing to delete in hand. *)
Lemma removeFirst_leftAlone removeConfig pre rest :
  Forall (leftAlone removeConfig) pre ->
  forall cur,
    JS.truthy cur = false ->
    exists cur',
      JS.truthy cur' = false
      /\ removeFirst removeConfig (pre ++ rest) cur
         = removeFirst removeConfig rest cur'.
Proof.
  intros H. induction H as [|thread threads Hthread _ IH]; intros cur Hcur.
  - exists cur. split; [exact Hcur | reflexivity].
  - cbn [app removeFirst]. unfold leftAlone, selected in Hthread.
    destruct (Aws.comments thread) as [comments|]; [|apply IH; exact Hcur].
    rewrite scanComments_find.
    destruct (find (removalMatches removeConfig) comments) as [c|].
    + destruct (Aws.commentId c) as [id|] eqn:Hid.
      * rewrite Hthread. apply IH. exact Hthread.
      * apply IH. reflexivity.
    + destruct cur as [id|].
      * rewrite Hcur. apply IH. exact Hcur.
      * apply IH. reflexivity.
Qed.

(** Either the removal leaves every thread alone, or there is a first
    thread that it does not leave alone: one whose selected comment carries
    a non-empty identifier. *)
Lemma leftAlone_or_selected removeConfig threads :
  Forall (leftAlone removeConfig) threads
  \/ exists (pre post : list Aws.CommentsForPullRequest)
            (thread : Aws.CommentsForPullRequest) (c : Aws.Comment)
            (id : string),
       threads = (pre ++ thread :: post)%list
       /\ Forall (leftAlone removeConfig) pre
       /\ selected removeConfig thread = Some c
       /\ Aws.commentId c = Some id
       /\ id <> EmptyString.
Proof.
  induction threads as [|thread rest IH]; [left; constructor|].
  destruct (selected removeConfig thread) as [c|] eqn:Hc.
  - destruct (Aws.commentId c) as [id|] eqn:Hid.
    + destruct (String.eqb_spec id EmptyString) as [->|Hne].
      * destruct IH as [Hall | [pre [post [t [c' [id' [-> H]]]]]]].
        -- left. constructor; [|exact Hall].
           unfold leftAlone. rewrite Hc, Hid. reflexivity.
        -- right. exists (thread :: pre), post, t, c', id'.
           destruct H as [Hpre H]. split; [reflexivity|].
           split; [|exact H]. constructor; [|exact Hpre].
           unfold leftAlone. rewrite Hc, Hid. reflexivity.
      * right. exists [], rest, thread, c, id.
        repeat split; auto.
    + destruct IH as [Hall | [pre [post [t [c' [id' [-> H]]]]]]].
      * left. constructor; [|exact Hall].
        unfold leftAlone. rewrite Hc, Hid. reflexivity.
      * right. exists (thread :: pre), post, t, c', id'.
        destruct H as [Hpre H]. split; [reflexivity|].
        split; [|exact H]. constructor; [|exact Hpre].
        unfold leftAlone. rewrite Hc, Hid. reflexivity.
  - destruct IH as [Hall | [pre [post [t [c' [id' [-> H]]]]]]].
    + left. constructor; [|exact Hall]. unfold leftAlone. rewrite Hc. exact I.
    + right. exists (thread :: pre), post, t, c', id'.
      destruct H as [Hpre H]. split; [reflexivity|].
      split; [|exact H]. constructor; [|exact Hpre].
      unfold leftAlone. rewrite Hc. exact I.
Qed.

(** C8, as stated, fails: on [replyBackend] the removal by the topic
    [status] deletes the reply, whose identifier is not that of a root
    comment. *)
Lemma ensureCommentRemoval_root_only_counterexample :
  ~ (forall (r : remote) (cfg : Config) (past : list client.call)
            (removeConfig : EnsureCommentRemovalConfig)
            (threads : list Aws.CommentsForPullRequest) (id : string),
        r past (client.getPrComments (repository cfg)
                  (JS.toString (removalNumber removeConfig)))
        = inr (Some {| Aws.commentsForPullRequestData := Some threads |}) ->
        In (client.deleteComment id)
           (calls (run (ensureCommentRemoval removeConfig) r cfg past)) ->
        In (Some id) (rootIds threads)).
Proof.
  intros H.
  specialize (H (fixed replyBackend) emptyConfig []
                (ByTopic (JS.Int 7) "status") (commentThreads replyBackend)
                "reply" eq_refl).
  vm_compute in H.
  destruct H as [H | []]; [right; left; reflexivity | discriminate H].
Qed.

(** C8, amended. For every [ensureCommentRemoval] call, matching considers
    every comment of each thread, the root and the replies below it, in
    listing order: in each thread the first comment that starts with the
    topic header (by-topic) or whose trimmed content equals the target
    (by-content) is selected, wherever it stands in its thread.  The call
    deletes the comment selected in the first thread whose selected comment
    carries a non-empty identifier, and this deletion is the only call
    after the listing; a thread in which no comment matches, or whose
    selected comment carries no identifier, is passed over, and when every
    thread is passed over, or the listing brings no threads, nothing is
    deleted.  Every listing falls under one of these cases. *)
Theorem ensureCommentRemoval_first_match :
  forall (r : remote) (cfg : Config) (past : list client.call)
         (removeConfig : EnsureCommentRemovalConfig),
    (threadsOfReply
       (r past (client.getPrComments (repository cfg)
                  (JS.toString (removalNumber removeConfig))))
     = None ->
     run (ensureCommentRemoval removeConfig) r cfg past
     = mkRun (Returned tt) cfg
         [client.getPrComments (repository cfg)
            (JS.toString (removalNumber removeConfig))])
    /\ (forall threads : list Aws.CommentsForPullRequest,
          threadsOfReply
            (r past (client.getPrComments (repository cfg)
                       (JS.toString (removalNumber removeConfig))))
          = Some threads ->
          Forall (leftAlone removeConfig) threads ->
          run (ensureCommentRemoval removeConfig) r cfg past
          = mkRun (Returned tt) cfg
              [client.getPrComments (repository cfg)
                 (JS.toString (removalNumber removeConfig))])
    /\ (forall (threads pre post : list Aws.CommentsForPullRequest)
               (thread : Aws.CommentsForPullRequest) (c : Aws.Comment)
               (id : string),
          threadsOfReply
            (r past (client.getPrComments (repository cfg)
                       (JS.toString (removalNumber removeConfig))))
          = Some threads ->
          threads = (pre ++ thread :: post)%list ->
          Forall (leftAlone removeConfig) pre ->
          selected removeConfig thread = Some c ->
          Aws.commentId c = Some id ->
          id <> EmptyString ->
          run (ensureCommentRemoval removeConfig) r cfg past
          = mkRun
              match
                r (past
                   ++ [client.getPrComments (repository cfg)
                         (JS.toString (removalNumber removeConfig))])%list
                  (client.deleteComment id)
              with
              | inl e => Thrown e
              | inr _ => Returned tt
              end
              cfg
              [client.getPrComments (repository cfg)
                 (JS.toString (removalNumber removeConfig));
               client.deleteComment id])
    /\ (forall threads : list Aws.CommentsForPullRequest,
          Forall (leftAlone removeConfig) threads
          \/ exists (pre post : list Aws.CommentsForPullRequest)
                    (thread : Aws.CommentsForPullRequest) (c : Aws.Comment)
                    (id : string),
               threads = (pre ++ thread :: post)%list
               /\ Forall (leftAlone removeConfig) pre
               /\ selected removeConfig thread = Some c
               /\ Aws.commentId c = Some id
               /\ id <> EmptyString).
Proof.
  intros r cfg past removeConfig.
  assert (Hnone :
    threadsOfReply
      (r past (client.getPrComments (repository cfg)
                 (JS.toString (removalNumber removeConfig))))
    = None ->
    run (ensureCommentRemoval removeConfig) r cfg past
    = mkRun (Returned tt) cfg
        [client.getPrComments (repository cfg)
           (JS.toString (removalNumber removeConfig))]).
  { unfold ensureCommentRemoval, threadsOfReply. simpl.
    destruct (r past (client.getPrComments (repository cfg)
                        (JS.toString (removalNumber removeConfig))))
      as [e | [[[listed|]]|]]; simpl; intros H;
      try reflexivity; discriminate H. }
  assert (Hsome : forall threads,
    threadsOfReply
      (r past (client.getPrComments (repository cfg)
                 (JS.toString (removalNumber removeConfig))))
    = Some threads ->
    run (ensureCommentRemoval removeConfig) r cfg past
    = let res :=
        run (removeFirst removeConfig threads None) r cfg
          (past ++ [client.getPrComments (repository cfg)
                      (JS.toString (removalNumber removeConfig))])%list in
      mkRun (result res) (final res)
        (client.getPrComments (repository cfg)
           (JS.toString (removalNumber removeConfig)) :: calls res)).
  { intros threads. unfold ensureCommentRemoval, threadsOfReply. simpl.
    destruct (r past (client.getPrComments (repository cfg)
                        (JS.toString (removalNumber removeConfig))))
      as [e | [[[listed|]]|]]; simpl; intros H;
      try discriminate H.
    inversion H; subst. reflexivity. }
  split; [exact Hnone|]. split; [|split].
  - intros threads Hthreads Hall. rewrite (Hsome threads Hthreads).
    destruct (removeFirst_leftAlone removeConfig threads [] Hall None
                eq_refl) as [cur [_ E]].
    rewrite app_nil_r in E. rewrite E. reflexivity.
  - intros threads pre post thread c id Hthreads -> Hpre Hselected Hid Hne.
    rewrite (Hsome _ Hthreads).
    destruct (removeFirst_leftAlone removeConfig pre (thread :: post) Hpre
                None eq_refl) as [cur [_ E]].
    rewrite E. cbn [removeFirst]. unfold selected in Hselected.
    destruct (Aws.comments thread) as [comments|]; [|discriminate Hselected].
    rewrite scanComments_find, Hselected, Hid.
    apply String.eqb_neq in Hne. simpl. rewrite Hne. simpl.
    destruct (r _ (client.deleteComment id)) as [e|[]]; reflexivity.
  - apply leftAlone_or_selected.
Qed.

Lemma ensureCommentRemoval_first_match_witness :
  calls (run (ensureCommentRemoval (ByTopic (JS.Int 7) "status"))
           (fixed replyBackend) emptyConfig [])
  = [client.getPrComments None "7"; client.deleteComment "reply"]
  /\ run (ensureCommentRemoval (ByContent (JS.Int 7) "hello"))
       (fixed paddedBackend) emptyConfig []
     = mkRun (Returned tt) emptyConfig
         [client.getPrComments None "7"; client.deleteComment "reply"]
  /\ run (ensureCommentRemoval (ByContent (JS.Int 7) "good bye"))
       (fixed paddedBackend) emptyConfig []
     = mkRun (Returned tt) emptyConfig [client.getPrComments None "7"]
  /\ run (ensureCommentRemoval (ByContent (JS.Int 7) "hello"))
       rejecting emptyConfig []
     = mkRun (Returned tt) emptyConfig [client.getPrComments None "7"].
Proof.
  split; [|split; [|split]].
  - rewrite (proj1 (proj2 (proj2 (ensureCommentRemoval_first_match
                                    (fixed replyBackend) emptyConfig []
                                    (ByTopic (JS.Int 7) "status"))))
               (commentThreads replyBackend) [] []
               {| Aws.comments :=
                    Some [ {| Aws.commentId := Some "root";
                              Aws.content := Some "please review" |};
                           {| Aws.commentId := Some "reply";
                              Aws.content :=
                                Some (topicHeader "status" ++ "all good") |} ]
               |}
               {| Aws.commentId := Some "reply";
                  Aws.content := Some (topicHeader "status" ++ "all good") |}
               "reply" eq_refl eq_refl (Forall_nil _) eq_refl eq_refl);
      [reflexivity | discriminate].
  - rewrite (proj1 (proj2 (proj2 (ensureCommentRemoval_first_match
                                    (fixed paddedBackend) emptyConfig []
                                    (ByContent (JS.Int 7) "hello"))))
               (commentThreads paddedBackend)
               [ {| Aws.comments :=
                      Some [ {| Aws.commentId := None;
                                Aws.content := Some "hello" |};
                             {| Aws.commentId := Some "first";
                                Aws.content := Some "hello" |} ] |} ]
               [ {| Aws.comments :=
                      Some [ {| Aws.commentId := Some "third";
                                Aws.content := Some "hello" |} ] |} ]
               {| Aws.comments :=
                    Some [ {| Aws.commentId := Some "root";
                              Aws.content := Some "please review" |};
                           {| Aws.commentId := Some "reply";
                              Aws.content :=
                                Some (nbsp ++ "hello" ++ nbsp) |} ] |}
               {| Aws.commentId := Some "reply";
                  Aws.content := Some (nbsp ++ "hello" ++ nbsp) |}
               "reply" eq_refl eq_refl);
      [reflexivity | repeat constructor | reflexivity | reflexivity
      | discriminate].
  - apply (proj1 (proj2 (ensureCommentRemoval_first_match
                           (fixed paddedBackend) emptyConfig []
                           (ByContent (JS.Int 7) "good bye")))
             (commentThreads paddedBackend) eq_refl).
    repeat constructor.
  - apply (proj1 (ensureCommentRemoval_first_match rejecting emptyConfig []
                    (ByContent (JS.Int 7) "hello"))).
    reflexivity.
Defined.

(** ** The comment reconciler: scanning *)

Lemma prefix_append (h x : string) : String.prefix h (h ++ x) = true.
Proof.
  induction h as [|a h IH]; simpl.
  - destruct x; reflexivity.
  - destruct (ascii_dec a a) as [_|Hne]; [exact IH | contradiction].
Qed.

Lemma strictEq_refl (s : string) : JS.strictEq (Some s) (Some s) = true.
Proof. simpl. apply String.eqb_refl. Qed.

Lemma rootMatches_body (topic : option string) (text : string) :
  rootMatches topic (headerOf topic) (headerOf topic ++ text)
    (Some (headerOf topic ++ text)) = true.
Proof.
  unfold rootMatches.
  destruct (JS.truthy topic); simpl.
  - unfold JS.startsWith. rewrite prefix_append. reflexivity.
  - apply String.eqb_refl.
Qed.

Lemma scanThreads_skip topic header body pre rest :
  Forall (passedOver topic header body) pre ->
  scanThreads topic header body (pre ++ rest)
  = scanThreads topic header body rest.
Proof.
  intros H. induction H as [|thread threads Hthread _ IH]; simpl;
    [reflexivity|].
  unfold passedOver in Hthread.
  destruct (Aws.comments thread) as [[|first others]|];
    [contradiction | | exact IH].
  rewrite Hthread. exact IH.
Qed.

(** The scanning loop awaits nothing: it ends with its two variables, or
    with the [TypeError] of a thread whose [comments] array is empty. *)
Lemma scanThreads_pure topic header body threads :
  (exists found, scanThreads topic header body threads = Ret found)
  \/ scanThreads topic header body threads = Throw TypeError.
Proof.
  induction threads as [|thread threads IH]; simpl.
  - left. eexists. reflexivity.
  - destruct (Aws.comments thread) as [[|first others]|]; auto.
    destruct (rootMatches topic header body (Aws.content first)); auto.
    left. eexists. reflexivity.
Qed.

(** The calls of one [ensureComment] run: the listing alone; the listing
    and the events; these and one creation; or the listing and one update.
    The creation and the update carry the composed body. *)
Lemma ensureComment_calls (imports : Imports) (r : remote) (cfg : Config)
    (past : list client.call) (number : JS.Number) (topic : option string)
    (content : string) :
  let body := headerOf topic ++ sanitize content in
  let issued := calls (run (ensureComment number topic content) r cfg past) in
  let listing := client.getPrComments (repository cfg) (JS.toString number) in
  let events := client.getPrEvents (JS.toString number) in
  issued = [listing]
  \/ issued = [listing; events]
  \/ (exists before after,
        issued = [listing; events;
                  client.createPrComment (JS.toString number) (repository cfg)
                    body before after])
  \/ (exists id, issued = [listing; client.updateComment id body]).
Proof.
  intros body issued listing events. subst issued.
  unfold ensureComment. simpl.
  destruct (r past (client.getPrComments (repository cfg)
                      (JS.toString number)))
    as [e | [[[threads|]]|]]; simpl; auto.
  destruct (scanThreads_pure topic (headerOf topic)
              (headerOf topic ++ sanitize content) threads)
    as [[[commentId needsUpdating] Hscan] | Hscan];
    rewrite Hscan; simpl; auto.
  destruct (JS.truthy commentId) eqn:Htruthy; simpl.
  - destruct commentId as [id|]; [|discriminate Htruthy].
    destruct needsUpdating; simpl; auto.
    right. right. right. exists id.
    destruct (r _ (client.updateComment id _)); reflexivity.
  - destruct (r _ (client.getPrEvents (JS.toString number)))
      as [e | [[[[|ev evs]|]]|]]; simpl; auto.
    destruct (Aws.pullRequestSourceReferenceUpdatedEventMetadata ev)
      as [[[before|] [after|]]|]; simpl; auto.
    destruct (negb (before =? "") && negb (after =? "")); simpl; auto.
    right. right. left. exists before, after.
    destruct (r _ (client.createPrComment _ _ _ _ _)); reflexivity.
Qed.

(** ** The comment reconciler: idempotence *)

Lemma ensureComment_noop (imports : Imports) (r : remote) (cfg : Config)
    (past : list client.call) (number : JS.Number) (topic : option string)
    (content : string) (pre post : list Aws.CommentsForPullRequest)
    (root : Aws.Comment) (replies : list Aws.Comment) (id : string) :
  r past (client.getPrComments (repository cfg) (JS.toString number))
  = inr (Some {| Aws.commentsForPullRequestData :=
                   Some (pre
                         ++ {| Aws.comments := Some (root :: replies) |}
                         :: post)%list |}) ->
  Forall (passedOver topic (headerOf topic) (commentBody topic content)) pre ->
  Aws.content root = Some (commentBody topic content) ->
  Aws.commentId root = Some id ->
  id <> EmptyString ->
  run (ensureComment number topic content) r cfg past
  = mkRun (Returned true) cfg
      [client.getPrComments (repository cfg) (JS.toString number)].
Proof.
  intros Hr Hpre Hcontent Hid Hne.
  unfold commentBody in *.
  unfold ensureComment. simpl. rewrite Hr. simpl.
  rewrite (scanThreads_skip _ _ _ _ _ Hpre). simpl.
  rewrite Hcontent, rootMatches_body, Hid, strictEq_refl. simpl.
  apply String.eqb_neq in Hne. rewrite Hne. reflexivity.
Qed.

Lemma ensureComment_creates (imports : Imports) (r : remote) (cfg : Config)
    (past : list client.call) (number : JS.Number) (topic : option string)
    (content : string) (threads : list Aws.CommentsForPullRequest)
    (ev : Aws.PullRequestEvent) (evs : list Aws.PullRequestEvent)
    (before after : string) :
  let listing := client.getPrComments (repository cfg) (JS.toString number) in
  let events := client.getPrEvents (JS.toString number) in
  let creation :=
    client.createPrComment (JS.toString number) (repository cfg)
      (commentBody topic content) before after in
  r past listing
  = inr (Some {| Aws.commentsForPullRequestData := Some threads |}) ->
  Forall (passedOver topic (headerOf topic) (commentBody topic content))
    threads ->
  r (past ++ [listing])%list events
  = inr (Some {| Aws.pullRequestEvents := Some (ev :: evs) |}) ->
  Aws.pullRequestSourceReferenceUpdatedEventMetadata ev
  = Some {| Aws.beforeCommitId := Some before;
            Aws.afterCommitId := Some after |} ->
  before <> EmptyString ->
  after <> EmptyString ->
  r ((past ++ [listing]) ++ [events])%list creation = inr tt ->
  run (ensureComment number topic content) r cfg past
  = mkRun (Returned true) cfg [listing; events; creation].
Proof.
  intros listing events creation Hr Hthreads Hevents Hmeta Hb Ha Hcreate.
  subst listing events creation. unfold commentBody in *.
  unfold ensureComment. simpl. rewrite Hr. simpl.
  rewrite <- (app_nil_r threads), (scanThreads_skip _ _ _ _ _ Hthreads).
  simpl. rewrite Hevents. simpl. rewrite Hmeta.
  apply String.eqb_neq in Hb, Ha. rewrite Hb, Ha. simpl.
  rewrite Hcreate. reflexivity.
Qed.

Lemma passedOver_intro (topic : option string) (header body : string)
    (threads : list Aws.CommentsForPullRequest) :
  Forall (noRootMatch topic header body) threads ->
  Forall (fun thread => ~ emptyThread thread) threads ->
  Forall (passedOver topic header body) threads.
Proof.
  intros Hmatch. induction Hmatch as [|thread threads Hthread _ IH];
    intros Hempty; constructor.
  - inversion Hempty as [|x xs Hne _]; subst.
    unfold passedOver, noRootMatch, emptyThread in *.
    destruct (Aws.comments thread) as [[|first others]|];
      [apply Hne; reflexivity | exact Hthread | exact I].
  - apply IH. inversion Hempty; assumption.
Qed.

(** C5, as stated, fails, in three ways.  On [staleBackend] the second
    thread's root already equals the composed body, but the first thread
    carries the topic header too and is the one selected, so an update is
    issued.  On [anonymousBackend] the root that equals the composed body is
    the first to match but carries no identifier, so a new comment is
    created.  On [hollowBackend] a thread with an empty [comments] array
    stands before the root that equals the composed body, and
    [ensureComment] throws instead of returning [true]. *)
Lemma ensureComment_idempotent_counterexample :
  ~ (forall (imports : Imports) (r : remote) (cfg : Config)
            (past : list client.call) (number : JS.Number)
            (topic : option string) (content : string)
            (threads : list Aws.CommentsForPullRequest)
            (thread : Aws.CommentsForPullRequest) (root : Aws.Comment)
            (replies : list Aws.Comment) (c : client.call),
        r past (client.getPrComments (repository cfg) (JS.toString number))
        = inr (Some {| Aws.commentsForPullRequestData := Some threads |}) ->
        In thread threads ->
        Aws.comments thread = Some (root :: replies) ->
        Aws.content root = Some (commentBody topic content) ->
        In c (calls (run (ensureComment number topic content) r cfg past)) ->
        writesComment c = false)
  /\ ~ (forall (imports : Imports) (r : remote) (cfg : Config)
               (past : list client.call) (number : JS.Number)
               (topic : option string) (content : string)
               (pre post : list Aws.CommentsForPullRequest)
               (root : Aws.Comment) (replies : list Aws.Comment),
           r past (client.getPrComments (repository cfg) (JS.toString number))
           = inr (Some {| Aws.commentsForPullRequestData :=
                            Some (pre
                                  ++ {| Aws.comments := Some (root :: replies) |}
                                  :: post)%list |}) ->
           Forall (noRootMatch topic (headerOf topic)
                     (commentBody topic content)) pre ->
           Forall (fun thread => ~ emptyThread thread) pre ->
           Aws.content root = Some (commentBody topic content) ->
           filter writesComment
             (calls (run (ensureComment number topic content) r cfg past))
           = [])
  /\ ~ (forall (imports : Imports) (r : remote) (cfg : Config)
               (past : list client.call) (number : JS.Number)
               (topic : option string) (content : string)
               (pre post : list Aws.CommentsForPullRequest)
               (root : Aws.Comment) (replies : list Aws.Comment)
               (id : string),
           r past (client.getPrComments (repository cfg) (JS.toString number))
           = inr (Some {| Aws.commentsForPullRequestData :=
                            Some (pre
                                  ++ {| Aws.comments := Some (root :: replies) |}
                                  :: post)%list |}) ->
           Forall (noRootMatch topic (headerOf topic)
                     (commentBody topic content)) pre ->
           Aws.content root = Some (commentBody topic content) ->
           Aws.commentId root = Some id ->
           id <> EmptyString ->
           result (run (ensureComment number topic content) r cfg past)
           = Returned true).
Proof.
  split; [|split]; intros H.
  - specialize (H plainImports (fixed staleBackend) emptyConfig [] (JS.Int 42)
                  (Some "status") "all good" (commentThreads staleBackend)
                  {| Aws.comments :=
                       Some [ {| Aws.commentId := Some "2";
                                 Aws.content :=
                                   Some (topicHeader "status" ++ "all good") |} ]
                  |}
                  {| Aws.commentId := Some "2";
                     Aws.content := Some (topicHeader "status" ++ "all good") |}
                  []
                  (client.updateComment "1" (topicHeader "status" ++ "all good"))
                  eq_refl).
    assert (E : writesComment
                  (client.updateComment "1"
                     (topicHeader "status" ++ "all good"))
                = false).
    { apply H.
      - right. left. reflexivity.
      - reflexivity.
      - reflexivity.
      - right. left. reflexivity. }
    discriminate E.
  - specialize (H plainImports (fixed anonymousBackend) emptyConfig []
                  (JS.Int 42) None "my comment content" [] []
                  {| Aws.commentId := None;
                     Aws.content := Some "my comment content" |}
                  [] eq_refl (Forall_nil _) (Forall_nil _) eq_refl).
    discriminate H.
  - specialize (H plainImports (fixed hollowBackend) emptyConfig []
                  (JS.Int 42) None "my comment content"
                  [ {| Aws.comments := Some [] |} ] []
                  {| Aws.commentId := Some "1";
                     Aws.content := Some "my comment content" |}
                  [] "1" eq_refl).
    assert (E : result (run (ensureComment (imports := plainImports)
                               (JS.Int 42) None "my comment content")
                          (fixed hollowBackend) emptyConfig [])
                = Returned true).
    { apply H.
      - repeat constructor.
      - reflexivity.
      - reflexivity.
      - discriminate. }
    discriminate E.
Qed.

(** C5, amended. If the first comment thread whose root matches (its root
    starts with the topic header when a topic is given, equals the composed
    body otherwise) has a root whose content equals the composed body and
    which carries a non-empty comment identifier, and no thread before it
    has an empty [comments] array, [ensureComment] issues no remote create
    call and no remote update call and returns [true]; consequently, on a
    pull request none of whose threads has a root that matches or an empty
    [comments] array, and which has a source-branch update with both commit
    identifiers first in its history, calling [ensureComment] twice with
    the same topic and content against a remote that keeps what is posted
    to it results in exactly one create call overall, and in no create or
    update call on the second invocation. *)
Theorem ensureComment_idempotent :
  (forall (imports : Imports) (r : remote) (cfg : Config)
          (past : list client.call) (number : JS.Number)
          (topic : option string) (content : string)
          (pre post : list Aws.CommentsForPullRequest)
          (root : Aws.Comment) (replies : list Aws.Comment) (id : string),
      r past (client.getPrComments (repository cfg) (JS.toString number))
      = inr (Some {| Aws.commentsForPullRequestData :=
                       Some (pre
                             ++ {| Aws.comments := Some (root :: replies) |}
                             :: post)%list |}) ->
      Forall (noRootMatch topic (headerOf topic) (commentBody topic content))
        pre ->
      Forall (fun thread => ~ emptyThread thread) pre ->
      Aws.content root = Some (commentBody topic content) ->
      Aws.commentId root = Some id ->
      id <> EmptyString ->
      let res := run (ensureComment number topic content) r cfg past in
      result res = Returned true
      /\ filter writesComment (calls res) = [])
  /\
  (forall (imports : Imports) (b : Backend) (cfg : Config)
          (number : JS.Number) (topic : option string) (content : string)
          (ev : Aws.PullRequestEvent) (evs : list Aws.PullRequestEvent)
          (before after : string),
      Forall (noRootMatch topic (headerOf topic) (commentBody topic content))
        (commentThreads b) ->
      Forall (fun thread => ~ emptyThread thread) (commentThreads b) ->
      eventsOf b = Some {| Aws.pullRequestEvents := Some (ev :: evs) |} ->
      Aws.pullRequestSourceReferenceUpdatedEventMetadata ev
      = Some {| Aws.beforeCommitId := Some before;
                Aws.afterCommitId := Some after |} ->
      before <> EmptyString ->
      after <> EmptyString ->
      let listing :=
        client.getPrComments (repository cfg) (JS.toString number) in
      let res1 :=
        run (ensureComment number topic content) (simulated b) cfg [] in
      let res2 :=
        run (ensureComment number topic content) (simulated b) (final res1)
          ([] ++ calls res1)%list in
      result res1 = Returned true
      /\ calls res1
         = [listing; client.getPrEvents (JS.toString number);
            client.createPrComment (JS.toString number) (repository cfg)
              (commentBody topic content) before after]
      /\ result res2 = Returned true
      /\ calls res2 = [listing]).
Proof.
  split.
  - intros imports r cfg past number topic content pre post root replies id
      Hr Hmatch Hempty Hcontent Hid Hne res. subst res.
    pose proof (passedOver_intro _ _ _ _ Hmatch Hempty) as Hpre.
    rewrite (ensureComment_noop imports r cfg past number topic content pre
               post root replies id Hr Hpre Hcontent Hid Hne).
    split; reflexivity.
  - intros imports b cfg number topic content ev evs before after
      Hmatch Hempty Hevents Hmeta Hb Ha listing res1 res2.
    pose proof (passedOver_intro _ _ _ _ Hmatch Hempty) as Hthreads.
    assert (E1 : res1
                 = mkRun (Returned true) cfg
                     [listing; client.getPrEvents (JS.toString number);
                      client.createPrComment (JS.toString number)
                        (repository cfg) (commentBody topic content)
                        before after]).
    { subst res1 listing.
      apply (ensureComment_creates imports (simulated b) cfg [] number topic
               content (commentThreads b) ev evs before after);
        try assumption; try reflexivity.
      unfold simulated. simpl. rewrite Hevents. reflexivity. }
    subst res2. rewrite E1. cbn [result final calls app].
    rewrite (ensureComment_noop imports (simulated b) cfg _ number topic
               content (commentThreads b) []
               {| Aws.commentId :=
                    Some ("comment-"
                          ++ JS.toString
                               (JS.Int (Z.of_nat (length (commentThreads b)))));
                  Aws.content := Some (commentBody topic content) |}
               []
               ("comment-"
                ++ JS.toString
                     (JS.Int (Z.of_nat (length (commentThreads b))))));
      try assumption; try reflexivity.
    + repeat split; reflexivity.
    + discriminate.
Qed.

Lemma ensureComment_idempotent_witness :
  let res1 :=
    run (ensureComment (imports := plainImports) (JS.Int 42)
           (Some "some-subject") "some content")
      (simulated freshBackend) emptyConfig [] in
  let res2 :=
    run (ensureComment (imports := plainImports) (JS.Int 42)
           (Some "some-subject") "some content")
      (simulated freshBackend) (final res1) ([] ++ calls res1)%list in
  let res :=
    run (ensureComment (imports := plainImports) (JS.Int 42) None
           "my comment content")
      (fixed freshBackend) emptyConfig [] in
  (result res1 = Returned true
   /\ calls res1
      = [client.getPrComments None "42"; client.getPrEvents "42";
         client.createPrComment "42" None
           (topicHeader "some-subject" ++ "some content")
           "beforeCid" "afterCid"]
   /\ result res2 = Returned true
   /\ calls res2 = [client.getPrComments None "42"])
  /\ (result res = Returned true /\ filter writesComment (calls res) = []).
Proof.
  split.
  - refine (proj2 ensureComment_idempotent plainImports freshBackend
              emptyConfig (JS.Int 42) (Some "some-subject") "some content" _
              [] "beforeCid" "afterCid" _ _ eq_refl eq_refl _ _).
    + repeat constructor.
    + repeat constructor. discriminate.
    + discriminate.
    + discriminate.
  - refine (proj1 ensureComment_idempotent plainImports (fixed freshBackend)
              emptyConfig [] (JS.Int 42) None "my comment content" [] []
              {| Aws.commentId := Some "1";
                 Aws.content := Some "my comment content" |}
              [] "1" eq_refl _ _ eq_refl eq_refl _).
    + constructor.
    + constructor.
    + discriminate.
Defined.

(** ** The comment reconciler: the composed body *)

(** C6, as stated, fails: [ensureComment] applies no size bound.  With
    helpers that change nothing but length ([plainImports]), a content of
    10,240 characters is posted whole, not cut to 10,239. *)
Lemma ensureComment_truncation_counterexample :
  ~ (forall (imports : Imports) (r : remote) (cfg : Config)
            (past : list client.call) (number : JS.Number)
            (topic : option string) (content : string) (c : client.call),
        (10239 < N.of_nat (String.length content))%N ->
        In c (calls (run (ensureComment number topic content) r cfg past)) ->
        writesComment c = true ->
        writtenBody c
        = Some (headerOf topic
                ++ smartTruncate (sanitize content) 10239%N)).
Proof.
  intros H.
  pose proof (H plainImports (fixed freshBackend) emptyConfig [] (JS.Int 42)
                None longContent
                (client.createPrComment "42" None longContent "beforeCid"
                   "afterCid")) as Hbody.
  assert (Hlong : (10239 < N.of_nat (String.length longContent))%N)
    by (vm_compute; reflexivity).
  assert (Hin : In (client.createPrComment "42" None longContent "beforeCid"
                      "afterCid")
                  (calls (run (ensureComment (imports := plainImports)
                                 (JS.Int 42) None longContent)
                            (fixed freshBackend) emptyConfig [])))
    by (vm_compute; right; right; left; reflexivity).
  specialize (Hbody Hlong Hin eq_refl).
  apply (f_equal (fun o => match o with
                           | Some s => N.of_nat (String.length s)
                           | None => 0%N
                           end)) in Hbody.
  vm_compute in Hbody. discriminate Hbody.
Qed.

(** C6, amended. In [ensureComment] the content is sanitized and composed
    into the canonical body without any truncation: for every content, of
    whatever length, the body passed to the remote create or update call is
    the topic header (when a topic is given) followed by the whole
    sanitized content. *)
Theorem ensureComment_body_not_truncated :
  forall (imports : Imports) (r : remote) (cfg : Config)
         (past : list client.call) (number : JS.Number)
         (topic : option string) (content : string) (c : client.call),
    In c (calls (run (ensureComment number topic content) r cfg past)) ->
    writesComment c = true ->
    writtenBody c = Some (headerOf topic ++ sanitize content).
Proof.
  intros imports r cfg past number topic content c Hin Hwrites.
  destruct (ensureComment_calls imports r cfg past number topic content)
    as [E | [E | [[before [after E]] | [id E]]]];
    rewrite E in Hin; simpl in Hin;
    repeat match goal with
      | H : _ \/ _ |- _ => destruct H as [H | H]
      | H : False |- _ => contradiction
      end;
    subst c; try discriminate Hwrites; reflexivity.
Qed.

Lemma ensureComment_body_not_truncated_witness :
  writtenBody
    (client.createPrComment "42" None longContent "beforeCid" "afterCid")
  = Some (headerOf None ++ sanitize (Imports := plainImports) longContent).
Proof.
  apply (ensureComment_body_not_truncated plainImports (fixed freshBackend)
           emptyConfig [] (JS.Int 42) None longContent
           (client.createPrComment "42" None longContent "beforeCid"
              "afterCid")).
  - vm_compute. right. right. left. reflexivity.
  - reflexivity.
Defined.

(** * Further properties of the adapter *)

(** ** Merging *)

(** X1. [mergePr] never throws and never changes [config]: whatever the
    strategy and whatever the remote answers (an absent record, an empty
    target array, a rejected merge, a rejected or empty status reply), it
    returns a boolean. *)
Theorem mergePr_never_throws :
  forall (r : remote) (cfg : Config) (past : list client.call)
         (prNo : JS.Number) (strategy : option string),
    exists b : bool,
      result (run (mergePr prNo strategy) r cfg past) = Returned b
      /\ final (run (mergePr prNo strategy) r cfg past) = cfg.
Proof.
  intros r cfg past prNo strategy.
  unfold mergePr, target0. simpl.
  destruct (r past (client.getPr (JS.toString prNo))) as [[[p|]]|];
    simpl; eauto.
  destruct (Aws.pullRequestTargets p) as [targets|]; simpl; eauto.
  destruct (isStrategy strategy "rebase"); simpl; eauto.
  destruct (isStrategy strategy "auto" || isStrategy strategy "squash");
    [| destruct (isStrategy strategy "fast-forward")];
    simpl; eauto;
    (destruct targets as [|t ts]; simpl; eauto);
    match goal with
    | |- context [r ?p ?c] => destruct (r p c) as [e|[]]; simpl; eauto
    end;
    match goal with
    | |- context [r ?p (client.updatePrStatus ?i ?s)] =>
        destruct (r p (client.updatePrStatus i s)) as [e|[resp|]];
        simpl; eauto
    end.
Qed.

(** X2. When the fetched record has no first target (no reply, no record,
    no target array, or an empty one), [mergePr] returns [false] whatever
    the strategy, and the fetch is its only remote call: nothing is merged
    and no status is updated. *)
Theorem mergePr_without_target :
  forall (r : remote) (cfg : Config) (past : list client.call)
         (prNo : JS.Number) (strategy : option string),
    targetOfReply (r past (client.getPr (JS.toString prNo))) = None ->
    run (mergePr prNo strategy) r cfg past
    = mkRun (Returned false) cfg [client.getPr (JS.toString prNo)].
Proof.
  intros r cfg past prNo strategy Hnone.
  unfold mergePr, target0. simpl. unfold targetOfReply in Hnone.
  destruct (r past (client.getPr (JS.toString prNo))) as [[[p|]]|];
    simpl in *; try reflexivity.
  destruct (Aws.pullRequestTargets p) as [[|t ts]|];
    try discriminate Hnone; simpl; try reflexivity.
  destruct (isStrategy strategy "rebase"); [reflexivity|].
  destruct (isStrategy strategy "auto" || isStrategy strategy "squash");
    [reflexivity|].
  destruct (isStrategy strategy "fast-forward"); reflexivity.
Qed.

Lemma mergePr_without_target_witness :
  run (mergePr (JS.Int 1) (Some "squash"))
    (fixed {| listing := None;
              pullRequests :=
                [("1", {| Aws.pullRequestId := Some "1";
                          Aws.title := Some "Update dep";
                          Aws.pullRequestStatus := Some "OPEN";
                          Aws.revisionId := None;
                          Aws.pullRequestTargets := Some [] |})];
              commentThreads := [];
              eventsOf := None |})
    emptyConfig []
  = mkRun (Returned false) emptyConfig [client.getPr "1"].
Proof.
  apply mergePr_without_target. reflexivity.
Defined.

(** X3. For a record with a first target and a supported strategy (auto
    and squash merge by squash, fast-forward by fast-forward, with the
    references of the first target), [mergePr] issues the merge call right
    after the fetch.  If the remote rejects it, [mergePr] returns [false]
    and does not touch the status.  If the remote accepts it, [mergePr]
    asks for the status [CLOSED] and returns [true] exactly when that call
    resolves with a response, whatever status the response reports; when
    the status update is rejected it returns [false] although the merge has
    been done. *)
Theorem mergePr_dispatch :
  forall (r : remote) (cfg : Config) (past : list client.call)
         (prNo : JS.Number) (strategy : option string)
         (out : Aws.PullRequestOutput) (p : Aws.PullRequest)
         (t : Aws.PullRequestTarget) (ts : list Aws.PullRequestTarget)
         (merge : client.call),
    r past (client.getPr (JS.toString prNo)) = Some out ->
    Aws.pullRequest out = Some p ->
    Aws.pullRequestTargets p = Some (t :: ts) ->
    strategy <> Some "rebase" ->
    mergeCall strategy (Aws.title p) t = Some merge ->
    let fetch := client.getPr (JS.toString prNo) in
    let close := client.updatePrStatus (JS.toString prNo) Aws.CLOSED in
    let res := run (mergePr prNo strategy) r cfg past in
    (resolves r (past ++ [fetch]) merge = false ->
     result res = Returned false /\ calls res = [fetch; merge])
    /\ (resolves r (past ++ [fetch]) merge = true ->
        calls res = [fetch; merge; close]
        /\ (result res = Returned true
            <-> exists response,
                r ((past ++ [fetch]) ++ [merge])%list close
                = inr (Some response))).
Proof.
  intros r cfg past prNo strategy out p t ts merge Hr Hout Htargets Hrebase
    Hmerge fetch close res.
  subst fetch close res.
  unfold mergePr, target0. simpl. rewrite Hr.
  destruct out as [pullRequest]. simpl in Hout. subst pullRequest. simpl.
  rewrite Htargets, (isStrategy_false _ _ Hrebase).
  unfold mergeCall in Hmerge.
  destruct (isStrategy strategy "auto" || isStrategy strategy "squash");
    [| destruct (isStrategy strategy "fast-forward"); [|discriminate Hmerge]];
    inversion Hmerge; subst merge; clear Hmerge; unfold resolves; simpl;
    match goal with
    | |- context [r ?q ?c] => destruct (r q c) as [e|[]]; simpl
    end;
    (split; [intros H; try discriminate H; split; reflexivity |]);
    intros H; try discriminate H;
    (split; [
       match goal with
       | |- context [r ?q (client.updatePrStatus ?i ?s)] =>
           destruct (r q (client.updatePrStatus i s)) as [e|[resp|]];
           reflexivity
       end |]);
    match goal with
    | |- context [r ?q (client.updatePrStatus ?i ?s)] =>
        destruct (r q (client.updatePrStatus i s)) as [e|[resp|]]; simpl;
        (split; [intros Hres; try discriminate Hres; eauto
                | intros [response Hresp]; try discriminate Hresp;
                  reflexivity])
    end.
Qed.

Lemma mergePr_dispatch_witness :
  let res :=
    run (mergePr (JS.Int 1) (Some "fast-forward")) (fixed openBackend)
      emptyConfig [] in
  calls res
  = [client.getPr "1";
     client.fastForwardMerge (Some "repo") (Some "refs/heads/feature")
       (Some "refs/heads/main");
     client.updatePrStatus "1" "CLOSED"]
  /\ (result res = Returned true
      <-> exists response,
          fixed openBackend
            (([] ++ [client.getPr "1"])
             ++ [client.fastForwardMerge (Some "repo")
                   (Some "refs/heads/feature") (Some "refs/heads/main")])%list
            (client.updatePrStatus "1" "CLOSED")
          = inr (Some response)).
Proof.
  refine (proj2 (mergePr_dispatch (fixed openBackend) emptyConfig []
                   (JS.Int 1) (Some "fast-forward")
                   {| Aws.pullRequest := Some openPrInfo |} openPrInfo _ []
                   _ eq_refl eq_refl eq_refl _ eq_refl) eq_refl).
  discriminate.
Defined.

(** ** The single fetch *)

(** X4. [getPr] issues one fetch, with the number as the template literal
    prints it (all its digits below [1e21], rounded to a double and in
    exponential form from there on), and leaves [config] alone.  It returns [null] when the reply carries no
    record; it throws a [TypeError], rather than returning [null], when the
    record has no first target; otherwise it returns a pull request that
    bears the requested number, the revision of the record as [sha], and
    the title and references of the record, absent ones staying absent. *)
Theorem getPr_outcomes :
  forall (r : remote) (cfg : Config) (past : list client.call)
         (pullRequestId : JS.Number),
    let fetch := client.getPr (JS.toString pullRequestId) in
    let res := run (getPr pullRequestId) r cfg past in
    calls res = [fetch]
    /\ final res = cfg
    /\ (hasRecord (r past fetch) = false -> result res = Returned None)
    /\ (hasRecord (r past fetch) = true ->
        targetOfReply (r past fetch) = None ->
        result res = Thrown TypeError)
    /\ (forall out p t,
          r past fetch = Some out ->
          Aws.pullRequest out = Some p ->
          targetOfReply (r past fetch) = Some t ->
          exists pr,
            result res = Returned (Some pr)
            /\ number pr = pullRequestId
            /\ sha pr = Aws.revisionId p
            /\ title pr = Aws.title p
            /\ sourceBranch pr = Aws.sourceReference t
            /\ targetBranch pr = Aws.destinationReference t).
Proof.
  intros r cfg past pullRequestId fetch res. subst fetch res.
  unfold getPr, firstTarget, hasRecord, targetOfReply. simpl.
  destruct (r past (client.getPr (JS.toString pullRequestId)))
    as [[[p|]]|]; simpl.
  - destruct (Aws.pullRequestTargets p) as [[|t ts]|]; simpl;
      repeat split; try reflexivity; try discriminate;
      intros out p' t' Hout Hp Ht; inversion Hout; subst; simpl in Hp;
      inversion Hp; subst; inversion Ht; subst.
    eexists. split; [reflexivity|]. simpl. auto.
  - repeat split; try reflexivity; discriminate.
  - repeat split; try reflexivity; discriminate.
Qed.

(** ** The directory *)

Lemma fetchPrs_config (r : remote) (cfg : Config) (prIds : list string) :
  forall (fetchedPrs : list Pr) (past : list client.call),
    final (run (fetchPrs prIds fetchedPrs) r cfg past) = cfg.
Proof.
  induction prIds as [|prId rest IH]; intros fetchedPrs past; simpl;
    [reflexivity|].
  destruct (r past (client.getPr prId)) as [[[prInfo|]]|]; simpl;
    try apply IH.
  unfold firstTarget.
  destruct (Aws.pullRequestTargets prInfo) as [[|t ts]|]; simpl;
    try reflexivity.
  apply IH.
Qed.

(** X5. A [getPrList] call that throws, because the listing is rejected or
    because a listed record has no first target, leaves [config] as it
    was: nothing partial is cached, and the next call lists again. *)
Theorem getPrList_failure_caches_nothing :
  forall (r : remote) (cfg : Config) (past : list client.call) (e : Error),
    result (run getPrList r cfg past) = Thrown e ->
    final (run getPrList r cfg past) = cfg.
Proof.
  intros r cfg past e. unfold getPrList. simpl.
  destruct (prList cfg) as [cached|]; simpl; [discriminate|].
  destruct (r past (client.listPullRequests (repository cfg) (userArn cfg)))
    as [e' | listPrsResponse]; simpl; [reflexivity|].
  assert (Hfetch : forall ids past',
    let res :=
      run (bind (fetchPrs ids [])
             (fun fetchedPrs =>
                UpdateConfig (set_prList fetchedPrs) (Ret fetchedPrs)))
        r cfg past' in
    result res = Thrown e -> final res = cfg).
  { intros ids past'. simpl. rewrite run_bind.
    destruct (result (run (fetchPrs ids []) r cfg past')) as [fetched|e'];
      simpl; [discriminate|].
    intros _. apply fetchPrs_config. }
  destruct listPrsResponse as [[[ids|]]|]; simpl.
  - apply (Hfetch ids).
  - discriminate.
  - discriminate.
Qed.

Lemma getPrList_failure_caches_nothing_witness :
  final (run getPrList rejecting emptyConfig []) = emptyConfig.
Proof.
  apply (getPrList_failure_caches_nothing rejecting emptyConfig []
           (Rejected "remote failure")).
  reflexivity.
Defined.

Lemma fetchPrs_in_order (r : remote) (cfg : Config) :
  forall (prIds : list string) (fetchedPrs : list Pr)
         (past : list client.call),
    Forall (fun fetched =>
              hasRecord (snd fetched) = true ->
              targetOfReply (snd fetched) <> None)
      (fetchReplies r past prIds) ->
    exists l : list Pr,
      run (fetchPrs prIds fetchedPrs) r cfg past
      = mkRun (Returned (fetchedPrs ++ l)%list) cfg
          (map client.getPr prIds)
      /\ map number l
         = map (fun fetched => JS.parseInt (fst fetched))
             (filter (fun fetched => hasRecord (snd fetched))
                (fetchReplies r past prIds)).
Proof.
  intros prIds.
  induction prIds as [|prId rest IH]; intros fetchedPrs past Hok;
    cbn [fetchReplies] in *.
  - exists []. rewrite app_nil_r. split; reflexivity.
  - inversion Hok as [|x xs Hhead Hrest]; subst.
    cbn [snd fst filter] in *. simpl.
    unfold hasRecord, targetOfReply in *.
    destruct (r past (client.getPr prId)) as [[[prInfo|]]|]; simpl in *.
    + unfold firstTarget.
      destruct (Aws.pullRequestTargets prInfo) as [[|t ts]|]; simpl;
        try (exfalso; apply (Hhead eq_refl); reflexivity).
      destruct (IH (fetchedPrs
                    ++ [ {| number := JS.parseInt prId;
                            sourceBranch := Aws.sourceReference t;
                            targetBranch := Aws.destinationReference t;
                            title := Aws.title prInfo;
                            state := openOrClosed prInfo;
                            sha := None;
                            sourceRepo := None |} ])%list
                  (past ++ [client.getPr prId])%list Hrest)
        as [l [Hrun Hnumbers]].
      eexists (_ :: l). rewrite Hrun. simpl. rewrite <- app_assoc. simpl.
      split; [reflexivity|]. rewrite Hnumbers. reflexivity.
    + destruct (IH fetchedPrs (past ++ [client.getPr prId])%list Hrest)
        as [l [Hrun Hnumbers]].
      exists l. rewrite Hrun. split; [reflexivity | exact Hnumbers].
    + destruct (IH fetchedPrs (past ++ [client.getPr prId])%list Hrest)
        as [l [Hrun Hnumbers]].
      exists l. rewrite Hrun. split; [reflexivity | exact Hnumbers].
Qed.

Lemma numbers_double (l : list Pr) :
  forall fetched : list (string * option Aws.PullRequestOutput),
    map number l = map (fun x => JS.parseInt (fst x)) fetched ->
    Forall (fun pr => isDouble (number pr)) l.
Proof.
  induction l as [|pr l IH]; intros fetched H; [constructor|].
  destruct fetched as [|x fetched]; [discriminate H|].
  inversion H as [[Hpr Hrest]]. constructor.
  - rewrite Hpr. apply parseInt_double.
  - apply (IH fetched Hrest).
Qed.

(** X6. On a cache miss, when the listing resolves with identifiers and
    every record that the fetches of this call reply with has a first
    target, [getPrList] fetches the identifiers one by one in listing
    order, skips those whose fetch carries no record, returns the others
    in listing order, each numbered by [parseInt] of its identifier, hence
    by a double, and stores exactly the returned sequence in the cache
    slot.  The remote may answer each fetch as it likes, also differently
    from one fetch to the next. *)
Theorem getPrList_listing_order :
  forall (r : remote) (cfg : Config) (past : list client.call)
         (prIds : list string),
    prList cfg = None ->
    r past (client.listPullRequests (repository cfg) (userArn cfg))
    = inr (Some {| Aws.pullRequestIds := Some prIds |}) ->
    Forall (fun fetched =>
              hasRecord (snd fetched) = true ->
              targetOfReply (snd fetched) <> None)
      (fetchReplies r
         (past ++ [client.listPullRequests (repository cfg) (userArn cfg)])
         prIds) ->
    exists l : list Pr,
      run getPrList r cfg past
      = mkRun (Returned l) (set_prList l cfg)
          (client.listPullRequests (repository cfg) (userArn cfg)
           :: map client.getPr prIds)
      /\ map number l
         = map (fun fetched => JS.parseInt (fst fetched))
             (filter (fun fetched => hasRecord (snd fetched))
                (fetchReplies r
                   (past ++ [client.listPullRequests (repository cfg)
                               (userArn cfg)])
                   prIds))
      /\ Forall (fun pr => isDouble (number pr)) l.
Proof.
  intros r cfg past prIds Hslot Hlist Hok.
  unfold getPrList. simpl. rewrite Hslot. simpl. rewrite Hlist. simpl.
  change (bindProg (fetchPrs prIds [])
            (fun fetchedPrs =>
               UpdateConfig (set_prList fetchedPrs) (Ret fetchedPrs)))
    with (bind (fetchPrs prIds [])
            (fun fetchedPrs =>
               UpdateConfig (set_prList fetchedPrs) (Ret fetchedPrs))).
  rewrite run_bind.
  destruct (fetchPrs_in_order r cfg prIds []
              (past ++ [client.listPullRequests (repository cfg)
                          (userArn cfg)])%list Hok)
    as [l [Hrun Hnumbers]].
  rewrite Hrun. simpl. rewrite app_nil_r.
  exists l. split; [reflexivity|]. split; [exact Hnumbers|].
  apply (numbers_double l _ Hnumbers).
Qed.

Lemma getPrList_listing_order_witness :
  exists l : list Pr,
    run getPrList
      (fixed {| listing :=
                  Some {| Aws.pullRequestIds :=
                            Some ["7"; "1"; "9007199254740993"] |};
                pullRequests :=
                  [("1", openPrInfo); ("9007199254740993", mergedPr)];
                commentThreads := [];
                eventsOf := None |})
      emptyConfig []
    = mkRun (Returned l) (set_prList l emptyConfig)
        [client.listPullRequests None None; client.getPr "7";
         client.getPr "1"; client.getPr "9007199254740993"]
    /\ map number l = [JS.Int 1; JS.Int 9007199254740992]
    /\ Forall (fun pr => isDouble (number pr)) l.
Proof.
  refine (getPrList_listing_order
            (fixed {| listing :=
                        Some {| Aws.pullRequestIds :=
                                  Some ["7"; "1"; "9007199254740993"] |};
                      pullRequests :=
                        [("1", openPrInfo); ("9007199254740993", mergedPr)];
                      commentThreads := [];
                      eventsOf := None |})
            emptyConfig [] ["7"; "1"; "9007199254740993"]
            eq_refl eq_refl _).
  repeat constructor; simpl; discriminate.
Defined.

(** ** Looking a pull request up *)

Lemma filter_filter_find {A : Type} (f g : A -> bool) (l : list A) :
  hd_error (filter g (filter f l)) = find (fun x => f x && g x) l.
Proof.
  induction l as [|x xs IH]; simpl; [reflexivity|].
  destruct (f x); simpl; [|exact IH].
  destruct (g x); simpl; [reflexivity | exact IH].
Qed.

Lemma filterByState_filter (wanted : PrState) (prs : list Pr) :
  filterByState wanted prs
  = filter (fun item =>
              match wanted with
              | All => true
              | NotOpen => negb (PrState_eqb (state item) Open)
              | _ => PrState_eqb (state item) Open
              end) prs.
Proof.
  assert (Hall : forall l : list Pr, filter (fun _ => true) l = l).
  { induction l as [|x xs IH]; simpl; [|rewrite IH]; reflexivity. }
  destruct wanted; simpl; try reflexivity. symmetry. apply Hall.
Qed.

Lemma findPr_filters (branchName : string) (prTitle : option string)
    (wanted : option PrState) (prs : list Pr) :
  hd_error
    (filterByState (match wanted with Some s => s | None => All end)
       (if JS.truthy prTitle
        then filter (fun item => JS.strictEq (title item) prTitle)
               (filter
                  (fun item =>
                     JS.strictEq (sourceBranch item)
                       (Some (getNewBranchName branchName))) prs)
        else filter
               (fun item =>
                  JS.strictEq (sourceBranch item)
                    (Some (getNewBranchName branchName))) prs))
  = find (wantedPr branchName prTitle wanted) prs.
Proof.
  rewrite filterByState_filter. unfold wantedPr.
  induction prs as [|x xs IH]; simpl.
  - destruct (JS.truthy prTitle); reflexivity.
  - destruct (JS.strictEq (sourceBranch x)
                (Some (getNewBranchName branchName))); simpl.
    + destruct (JS.truthy prTitle); simpl.
      * destruct (JS.strictEq (title x) prTitle); simpl; [|exact IH].
        destruct wanted as [[]|]; simpl;
          try (destruct (PrState_eqb (state x) Open); simpl);
          try reflexivity; exact IH.
      * destruct wanted as [[]|]; simpl;
          try (destruct (PrState_eqb (state x) Open); simpl);
          try reflexivity; exact IH.
    + exact IH.
Qed.

(** What [findPr] does, in terms of the listing it starts with. *)
Lemma findPr_run (r : remote) (cfg : Config) (past : list client.call)
    (branchName : string) (prTitle : option string)
    (wanted : option PrState) :
  run (findPr branchName prTitle wanted) r cfg past
  = mkRun
      (Returned
         match result (run getPrList r cfg past) with
         | Returned prs => find (wantedPr branchName prTitle wanted) prs
         | Thrown _ => None
         end)
      (final (run getPrList r cfg past))
      (calls (run getPrList r cfg past)).
Proof.
  unfold findPr. rewrite run_bind, run_catch, run_bind.
  destruct (run getPrList r cfg past) as [[prs|e] cfg' issued]; simpl.
  - rewrite <- (findPr_filters branchName prTitle wanted prs).
    destruct (filterByState _ _); simpl; rewrite ?app_nil_r; reflexivity.
  - rewrite ?app_nil_r. reflexivity.
Qed.

Lemma strictEq_eq (a b : option string) : JS.strictEq a b = true -> a = b.
Proof.
  destruct a as [x|], b as [y|]; simpl; try discriminate; try reflexivity.
  intros H. apply String.eqb_eq in H. subst. reflexivity.
Qed.

Lemma PrState_eqb_eq (a b : PrState) : PrState_eqb a b = true <-> a = b.
Proof.
  split.
  - destruct a, b; simpl; try discriminate; reflexivity.
  - intros ->. destruct b; reflexivity.
Qed.

(** X7. [findPr] never throws, whatever the remote does: when the listing
    of [getPrList] fails, whatever it throws, [findPr] returns [null].  A
    pull request that it returns has the canonical ref of the branch name
    as source branch and the requested title when a title is given; its
    state is [Open] when [Open] is requested and is not [Open] when
    [NotOpen] is requested. *)
Theorem findPr_sound :
  forall (r : remote) (cfg : Config) (past : list client.call)
         (branchName : string) (prTitle : option string)
         (wanted : option PrState),
    exists found : option Pr,
      result (run (findPr branchName prTitle wanted) r cfg past)
      = Returned found
      /\ (forall e : Error,
            result (run getPrList r cfg past) = Thrown e -> found = None)
      /\ forall pr : Pr,
           found = Some pr ->
           sourceBranch pr = Some (getNewBranchName branchName)
           /\ (JS.truthy prTitle = true -> title pr = prTitle)
           /\ (wanted = Some Open -> state pr = Open)
           /\ (wanted = Some NotOpen -> state pr <> Open).
Proof.
  intros r cfg past branchName prTitle wanted.
  rewrite findPr_run. cbn [result]. eexists. split; [reflexivity|].
  split; [intros e He; rewrite He; reflexivity|].
  intros pr Hfound.
  destruct (result (run getPrList r cfg past)) as [prs|e];
    [|discriminate Hfound].
  apply find_some in Hfound. destruct Hfound as [_ Hwanted].
  unfold wantedPr in Hwanted.
  apply andb_prop in Hwanted. destruct Hwanted as [Hwanted Hstate].
  apply andb_prop in Hwanted. destruct Hwanted as [Hbranch Htitle].
  repeat split.
  - apply strictEq_eq. exact Hbranch.
  - intros Ht. rewrite Ht in Htitle. apply strictEq_eq. exact Htitle.
  - intros ->. apply PrState_eqb_eq. exact Hstate.
  - intros -> Hopen. rewrite Hopen in Hstate. discriminate Hstate.
Qed.

(** X8. With the cache slot populated, [findPr] for the state [Open],
    [NotOpen], [All] or none issues no remote call, leaves [config] as it
    is, and returns the first entry of the cached sequence, in its order,
    that passes the branch, title and state tests, or [null] when no entry
    passes them. *)
Theorem findPr_first_match :
  forall (r : remote) (cfg : Config) (past : list client.call)
         (cached : list Pr) (branchName : string) (prTitle : option string)
         (wanted : option PrState),
    prList cfg = Some cached ->
    wanted <> Some Closed ->
    wanted <> Some Merged ->
    run (findPr branchName prTitle wanted) r cfg past
    = mkRun (Returned (find (wantedPr branchName prTitle wanted) cached))
        cfg [].
Proof.
  intros r cfg past cached branchName prTitle wanted Hslot _ _.
  rewrite findPr_run, (getPrList_cached r cfg past cached Hslot).
  reflexivity.
Qed.

Lemma findPr_first_match_witness :
  run (findPr "feature" (Some "Update dep") (Some Open)) rejecting
    (set_prList [otherPr; openPr] emptyConfig) []
  = mkRun (Returned (Some openPr))
      (set_prList [otherPr; openPr] emptyConfig) [].
Proof.
  apply (findPr_first_match rejecting
           (set_prList [otherPr; openPr] emptyConfig) [] [otherPr; openPr]
           "feature" (Some "Update dep") (Some Open) eq_refl);
    discriminate.
Defined.

(** X9. With the cache slot populated, [getBranchPr] looks for the first
    cached entry on the branch whose cached state is [Open]: when there is
    none it returns [null] without a remote call; when there is one it
    behaves exactly as [getPr] on the number of that entry, so that what it
    returns is the fresh record, whose state may no longer be [Open]. *)
Theorem getBranchPr_refetches :
  forall (r : remote) (cfg : Config) (past : list client.call)
         (cached : list Pr) (branchName : string),
    prList cfg = Some cached ->
    run (getBranchPr branchName) r cfg past
    = match find (wantedPr branchName None (Some Open)) cached with
      | Some pr => run (getPr (number pr)) r cfg past
      | None => mkRun (Returned None) cfg []
      end.
Proof.
  intros r cfg past cached branchName Hslot.
  unfold getBranchPr. rewrite run_bind, findPr_run.
  rewrite (getPrList_cached r cfg past cached Hslot). simpl.
  destruct (find (wantedPr branchName None (Some Open)) cached) as [pr|];
    simpl; [|reflexivity].
  rewrite app_nil_r.
  destruct (run (getPr (number pr)) r cfg past); reflexivity.
Qed.

Lemma getBranchPr_refetches_witness :
  result (run (getBranchPr "feature") (fixed mergedBackend)
            (set_prList [openPr] emptyConfig) [])
  = Returned
      (Some {| number := JS.Int 1;
               sourceBranch := Some "refs/heads/feature";
               targetBranch := Some "refs/heads/main";
               title := Some "Update dep";
               state := Merged;
               sha := Some "rev1";
               sourceRepo := None |}).
Proof.
  rewrite (getBranchPr_refetches (fixed mergedBackend)
             (set_prList [openPr] emptyConfig) [] [openPr] "feature" eq_refl).
  reflexivity.
Defined.

(** ** Creating a pull request *)

(** X10. [createPr] issues exactly one remote call, whose description is
    the body sanitized, cut to the budget of 10,239 and sanitized again,
    and never changes [config].  A rejection of that call is thrown on.
    When the reply carries a title and an identifier, the pull request
    returned is [Open], is numbered by [parseInt] of the identifier, bears
    the title that the remote reports and the branch names as they were
    passed; when the reply lacks either, [createPr] throws after the
    creation has been requested. *)
Theorem createPr_outcomes :
  forall (imports : Imports) (r : remote) (cfg : Config)
         (past : list client.call)
         (sourceBranch targetBranch title body : string),
    let creation :=
      client.createPr title
        (sanitize (smartTruncate (sanitize body) 10239%N))
        sourceBranch targetBranch (repository cfg) in
    let res := run (createPr sourceBranch targetBranch title body) r cfg past
    in
    calls res = [creation]
    /\ final res = cfg
    /\ (forall e, r past creation = inl e -> result res = Thrown e)
    /\ (forall out remoteTitle prId,
          r past creation = inr (Some out) ->
          createdField Aws.title out = Some remoteTitle ->
          createdField Aws.pullRequestId out = Some prId ->
          remoteTitle <> EmptyString ->
          prId <> EmptyString ->
          result res
          = Returned {| number := JS.parseInt prId;
                        state := Open;
                        title := Some remoteTitle;
                        sourceBranch := Some sourceBranch;
                        targetBranch := Some targetBranch;
                        sha := None;
                        sourceRepo := repository cfg |})
    /\ (forall out,
          r past creation = inr (Some out) ->
          JS.truthy (createdField Aws.title out)
          && JS.truthy (createdField Aws.pullRequestId out) = false ->
          result res
          = Thrown (ErrorMsg "Could not create pr, missing PR info")).
Proof.
  intros imports r cfg past sourceBranch targetBranch title body creation res.
  subst creation res. unfold createPr, createdField. simpl.
  destruct (r past (client.createPr title _ sourceBranch targetBranch
                      (repository cfg)))
    as [e | [[[p|]]|]]; simpl.
  - repeat split; try reflexivity; try discriminate.
    intros e' H. inversion H. reflexivity.
  - destruct (Aws.title p) as [remoteTitle|] eqn:Htitle;
      destruct (Aws.pullRequestId p) as [prId|] eqn:Hid; simpl;
      try (destruct (negb (remoteTitle =? "")) eqn:Hne1; simpl);
      try (destruct (negb (prId =? "")) eqn:Hne2; simpl);
      repeat split; try reflexivity; try discriminate;
      try (intros out remoteTitle' prId' Hout Ht Hi Hn1 Hn2;
           inversion Hout; subst; simpl in Ht, Hi;
           rewrite Htitle in Ht; rewrite Hid in Hi;
           inversion Ht; subst; inversion Hi; subst;
           apply String.eqb_neq in Hn1, Hn2;
           try (rewrite Hn1 in Hne1; discriminate Hne1);
           try (rewrite Hn2 in Hne2; discriminate Hne2);
           reflexivity);
      try (intros out remoteTitle' prId' Hout Ht Hi;
           inversion Hout; subst; simpl in Ht, Hi;
           rewrite ?Htitle in Ht; rewrite ?Hid in Hi; discriminate);
      try (intros out Hout Hfalsy; inversion Hout; subst;
           simpl in Hfalsy; rewrite ?Htitle, ?Hid in Hfalsy;
           simpl in Hfalsy; rewrite ?Hne1, ?Hne2 in Hfalsy;
           discriminate Hfalsy).
  - repeat split; try reflexivity; try discriminate.
    intros out remoteTitle prId Hout Ht. inversion Hout; subst.
    discriminate Ht.
  - repeat split; try reflexivity; try discriminate.
Qed.

(** ** The comment reconciler: update, failure and creation paths *)

(** X11. When the first thread whose root starts with the header of the
    topic has a root that differs from the composed body and carries a
    non-empty identifier, and no thread before it has an empty [comments]
    array, [ensureComment] issues exactly one update, of that root comment
    with the composed body, right after the listing, and no creation; it
    returns [true] when the remote accepts the update. *)
Theorem ensureComment_updates_in_place :
  forall (imports : Imports) (r : remote) (cfg : Config)
         (past : list client.call) (number : JS.Number) (topic : string)
         (content : string) (pre post : list Aws.CommentsForPullRequest)
         (root : Aws.Comment) (replies : list Aws.Comment)
         (id previous : string),
    let body := commentBody (Some topic) content in
    let listing :=
      client.getPrComments (repository cfg) (JS.toString number) in
    let res := run (ensureComment number (Some topic) content) r cfg past in
    topic <> EmptyString ->
    r past listing
    = inr (Some {| Aws.commentsForPullRequestData :=
                     Some (pre
                           ++ {| Aws.comments := Some (root :: replies) |}
                           :: post)%list |}) ->
    Forall (noRootMatch (Some topic) (headerOf (Some topic)) body) pre ->
    Forall (fun thread => ~ emptyThread thread) pre ->
    Aws.content root = Some previous ->
    JS.startsWith previous (topicHeader topic) = true ->
    previous <> body ->
    Aws.commentId root = Some id ->
    id <> EmptyString ->
    calls res = [listing; client.updateComment id body]
    /\ (r (past ++ [listing])%list (client.updateComment id body) = inr tt ->
        result res = Returned true).
Proof.
  intros imports r cfg past number topic content pre post root replies id
    previous body listing res Htopic Hr Hmatch Hempty Hcontent Hstarts
    Hdiffers Hid Hne.
  pose proof (passedOver_intro _ _ _ _ Hmatch Hempty) as Hpre.
  subst body listing res. unfold commentBody in *.
  apply String.eqb_neq in Htopic, Hne, Hdiffers.
  assert (Hheader : headerOf (Some topic) = topicHeader topic).
  { unfold headerOf. simpl. rewrite Htopic. reflexivity. }
  unfold ensureComment. cbv zeta. rewrite Hheader in *.
  remember (topicHeader topic ++ sanitize content) as body eqn:Hbody.
  remember (topicHeader topic) as header eqn:Hhead.
  simpl. rewrite Hr. simpl.
  rewrite (scanThreads_skip _ _ _ _ _ Hpre). simpl.
  rewrite Hcontent, Hid. unfold rootMatches. simpl.
  rewrite Htopic, Hstarts, Hdiffers. simpl. rewrite Hne. simpl.
  destruct (r _ (client.updateComment id _)) as [e|[]]; simpl.
  - split; [reflexivity | discriminate].
  - split; reflexivity.
Qed.

Lemma ensureComment_updates_in_place_witness :
  calls (run (ensureComment (imports := plainImports) (JS.Int 42)
                (Some "status") "all good")
           (fixed staleBackend) emptyConfig [])
  = [client.getPrComments None "42";
     client.updateComment "1" (topicHeader "status" ++ "all good")].
Proof.
  refine (proj1 (ensureComment_updates_in_place plainImports
                   (fixed staleBackend) emptyConfig [] (JS.Int 42) "status"
                   "all good" []
                   [ {| Aws.comments :=
                          Some [ {| Aws.commentId := Some "2";
                                    Aws.content :=
                                      Some (topicHeader "status"
                                            ++ "all good") |} ] |} ]
                   {| Aws.commentId := Some "1";
                      Aws.content :=
                        Some (topicHeader "status" ++ "pending") |}
                   [] "1" (topicHeader "status" ++ "pending")
                   _ eq_refl _ _ eq_refl eq_refl _ eq_refl _));
    try discriminate; constructor.
Defined.

(** X12. Whatever the remote answers, one [ensureComment] call lists the
    comments first, then writes at most one comment (one creation or one
    update, never both) and never deletes one. *)
Theorem ensureComment_writes_at_most_once :
  forall (imports : Imports) (r : remote) (cfg : Config)
         (past : list client.call) (number : JS.Number)
         (topic : option string) (content : string),
    let issued := calls (run (ensureComment number topic content) r cfg past)
    in
    hd_error issued
    = Some (client.getPrComments (repository cfg) (JS.toString number))
    /\ (length (filter writesComment issued) <= 1)%nat
    /\ forall id, ~ In (client.deleteComment id) issued.
Proof.
  intros imports r cfg past number topic content issued. subst issued.
  destruct (ensureComment_calls imports r cfg past number topic content)
    as [E | [E | [[before [after E]] | [id E]]]];
    rewrite E; simpl; repeat split; auto;
    intros i Hin;
    repeat match goal with
      | H : _ \/ _ |- _ => destruct H as [H | H]
      | H : False |- _ => contradiction
      | H : _ = client.deleteComment _ |- _ => discriminate H
      end.
Qed.

(** X13. When the comment listing is rejected, or resolves without a thread
    array, [ensureComment] returns [false] without throwing, leaves
    [config] alone, and issues no call after the listing: the events are
    not read and nothing is written. *)
Theorem ensureComment_retrieval_failure :
  forall (imports : Imports) (r : remote) (cfg : Config)
         (past : list client.call) (number : JS.Number)
         (topic : option string) (content : string),
    threadsOfReply
      (r past (client.getPrComments (repository cfg) (JS.toString number)))
    = None ->
    run (ensureComment number topic content) r cfg past
    = mkRun (Returned false) cfg
        [client.getPrComments (repository cfg) (JS.toString number)].
Proof.
  intros imports r cfg past number topic content Hnone.
  unfold ensureComment. simpl. unfold threadsOfReply in Hnone.
  destruct (r past (client.getPrComments (repository cfg)
                      (JS.toString number)))
    as [e | [[[threads|]]|]]; simpl in *;
    try reflexivity; discriminate Hnone.
Qed.

Lemma ensureComment_retrieval_failure_witness :
  run (ensureComment (imports := plainImports) (JS.Int 42) None
         "my comment content") rejecting emptyConfig []
  = mkRun (Returned false) emptyConfig [client.getPrComments None "42"].
Proof.
  apply (ensureComment_retrieval_failure plainImports rejecting emptyConfig
           [] (JS.Int 42) None "my comment content").
  reflexivity.
Defined.

(** X14. When no thread has a root that matches and none has an empty
    [comments] array, [ensureComment] reads the events of the pull request
    and looks at the first event only.  If the reply has no
    event array, or the first event does not carry both commit
    identifiers, it returns [false] and creates nothing, whatever the
    later events carry; if the event array is empty it throws a
    [TypeError]; if the first event carries both, it posts the composed
    body anchored at them. *)
Theorem ensureComment_anchor :
  forall (imports : Imports) (r : remote) (cfg : Config)
         (past : list client.call) (number : JS.Number)
         (topic : option string) (content : string)
         (threads : list Aws.CommentsForPullRequest)
         (events : option (list Aws.PullRequestEvent)),
    let body := commentBody topic content in
    let listing :=
      client.getPrComments (repository cfg) (JS.toString number) in
    let reading := client.getPrEvents (JS.toString number) in
    let res := run (ensureComment number topic content) r cfg past in
    r past listing
    = inr (Some {| Aws.commentsForPullRequestData := Some threads |}) ->
    Forall (noRootMatch topic (headerOf topic) body) threads ->
    Forall (fun thread => ~ emptyThread thread) threads ->
    r (past ++ [listing])%list reading
    = inr (Some {| Aws.pullRequestEvents := events |}) ->
    match events with
    | None => result res = Returned false /\ calls res = [listing; reading]
    | Some [] =>
        result res = Thrown TypeError /\ calls res = [listing; reading]
    | Some (ev :: evs) =>
        match firstAnchor (ev :: evs) with
        | None =>
            result res = Returned false /\ calls res = [listing; reading]
        | Some (before, after) =>
            calls res
            = [listing; reading;
               client.createPrComment (JS.toString number) (repository cfg)
                 body before after]
        end
    end.
Proof.
  intros imports r cfg past number topic content threads events body listing
    reading res Hr Hmatch Hempty Hevents.
  pose proof (passedOver_intro _ _ _ _ Hmatch Hempty) as Hthreads.
  subst body listing reading res. unfold commentBody in *.
  unfold ensureComment. simpl. rewrite Hr. simpl.
  rewrite <- (app_nil_r threads), (scanThreads_skip _ _ _ _ _ Hthreads).
  simpl. rewrite Hevents. simpl.
  destruct events as [[|ev evs]|]; simpl; try (split; reflexivity).
  destruct (Aws.pullRequestSourceReferenceUpdatedEventMetadata ev)
    as [[[before|] [after|]]|]; simpl; try (split; reflexivity).
  destruct (negb (before =? "") && negb (after =? "")); simpl;
    [| split; reflexivity].
  destruct (r _ (client.createPrComment _ _ _ _ _)); reflexivity.
Qed.

Lemma ensureComment_anchor_witness :
  calls (run (ensureComment (imports := plainImports) (JS.Int 42)
                (Some "some-subject") "some content")
           (fixed freshBackend) emptyConfig [])
  = [client.getPrComments None "42"; client.getPrEvents "42";
     client.createPrComment "42" None
       (topicHeader "some-subject" ++ "some content")
       "beforeCid" "afterCid"].
Proof.
  refine (ensureComment_anchor plainImports (fixed freshBackend) emptyConfig
            [] (JS.Int 42) (Some "some-subject") "some content"
            (commentThreads freshBackend)
            (Some [ {| Aws.pullRequestSourceReferenceUpdatedEventMetadata :=
                         Some {| Aws.beforeCommitId := Some "beforeCid";
                                 Aws.afterCommitId := Some "afterCid" |} |} ])
            eq_refl _ _ eq_refl).
  - repeat constructor.
  - repeat constructor. discriminate.
Defined.

(** X15. A thread whose [comments] array is empty, met before any thread
    matches, makes [ensureComment] throw a [TypeError] right after the
    listing: nothing is created or updated, even when a later thread
    matches. *)
Theorem ensureComment_empty_thread_throws :
  forall (imports : Imports) (r : remote) (cfg : Config)
         (past : list client.call) (number : JS.Number)
         (topic : option string) (content : string)
         (pre post : list Aws.CommentsForPullRequest),
    r past (client.getPrComments (repository cfg) (JS.toString number))
    = inr (Some {| Aws.commentsForPullRequestData :=
                     Some (pre ++ {| Aws.comments := Some [] |} :: post)%list
                |}) ->
    Forall (passedOver topic (headerOf topic) (commentBody topic content))
      pre ->
    run (ensureComment number topic content) r cfg past
    = mkRun (Thrown TypeError) cfg
        [client.getPrComments (repository cfg) (JS.toString number)].
Proof.
  intros imports r cfg past number topic content pre post Hr Hpre.
  unfold commentBody in *. unfold ensureComment. simpl. rewrite Hr. simpl.
  rewrite (scanThreads_skip _ _ _ _ _ Hpre). reflexivity.
Qed.

Lemma ensureComment_empty_thread_throws_witness :
  run (ensureComment (imports := plainImports) (JS.Int 42) None
         "my comment content")
    (fixed {| listing := None;
              pullRequests := [];
              commentThreads :=
                {| Aws.comments := Some [] |} :: commentThreads freshBackend;
              eventsOf := None |})
    emptyConfig []
  = mkRun (Thrown TypeError) emptyConfig [client.getPrComments None "42"].
Proof.
  apply (ensureComment_empty_thread_throws plainImports _ emptyConfig []
           (JS.Int 42) None "my comment content" []
           (commentThreads freshBackend)).
  - reflexivity.
  - constructor.
Defined.

(** ** Removal of a comment: what is deleted *)

Lemma scanComments_shape removeConfig comments cur :
  scanComments removeConfig comments cur = cur
  \/ exists c,
       In c comments
       /\ removalMatches removeConfig c = true
       /\ scanComments removeConfig comments cur = Aws.commentId c.
Proof.
  induction comments as [|x xs IH]; simpl; [left; reflexivity|].
  destruct (removalMatches removeConfig x) eqn:Hx.
  - right. exists x. auto.
  - destruct IH as [IH | [c [Hin [Hc IH]]]]; [left; exact IH|].
    right. exists c. auto.
Qed.

Lemma removeFirst_shape (r : remote) (cfg : Config) removeConfig threads :
  forall (cur : option string) (past : list client.call),
    JS.truthy cur = false ->
    run (removeFirst removeConfig threads cur) r cfg past
    = mkRun (Returned tt) cfg []
    \/ exists thread comments c id,
         In thread threads
         /\ Aws.comments thread = Some comments
         /\ In c comments
         /\ removalMatches removeConfig c = true
         /\ Aws.commentId c = Some id
         /\ id <> EmptyString
         /\ run (removeFirst removeConfig threads cur) r cfg past
            = mkRun
                match r past (client.deleteComment id) with
                | inl e => Thrown e
                | inr _ => Returned tt
                end cfg [client.deleteComment id].
Proof.
  induction threads as [|thread rest IH]; intros cur past Hcur; simpl;
    [left; reflexivity|].
  assert (Hrest : forall cur',
    JS.truthy cur' = false ->
    run (removeFirst removeConfig rest cur') r cfg past
    = mkRun (Returned tt) cfg []
    \/ exists thread' comments c id,
         (thread = thread' \/ In thread' rest)
         /\ Aws.comments thread' = Some comments
         /\ In c comments
         /\ removalMatches removeConfig c = true
         /\ Aws.commentId c = Some id
         /\ id <> EmptyString
         /\ run (removeFirst removeConfig rest cur') r cfg past
            = mkRun
                match r past (client.deleteComment id) with
                | inl e => Thrown e
                | inr _ => Returned tt
                end cfg [client.deleteComment id]).
  { intros cur' Hcur'.
    destruct (IH cur' past Hcur')
      as [E | [thread' [comments [c [id [Hin H]]]]]]; [left; exact E|].
    right. exists thread', comments, c, id. split; [right; exact Hin | exact H]. }
  destruct (Aws.comments thread) as [comments|] eqn:Hcomments;
    [| apply Hrest; exact Hcur].
  destruct (scanComments_shape removeConfig comments cur)
    as [E | [c [Hin [Hc E]]]]; rewrite E.
  - destruct cur as [id|]; [rewrite Hcur|]; apply Hrest; assumption.
  - destruct (Aws.commentId c) as [id|] eqn:Hid; [| apply Hrest; reflexivity].
    destruct (JS.truthy (Some id)) eqn:Htruthy; [| apply Hrest; exact Htruthy].
    right. exists thread, comments, c, id.
    repeat split; auto.
    + intros ->. discriminate Htruthy.
    + simpl. destruct (r past (client.deleteComment id)) as [e|[]];
        reflexivity.
Qed.

(** X16. Whatever the remote answers, [ensureCommentRemoval] leaves
    [config] alone and either issues the listing alone and returns, or
    issues the listing and exactly one deletion.  The comment deleted is
    one of the listed comments, it matches the removal key and carries the
    deleted identifier; the call throws only when the remote rejects that
    deletion. *)
Theorem ensureCommentRemoval_deletes_one_match :
  forall (r : remote) (cfg : Config) (past : list client.call)
         (removeConfig : EnsureCommentRemovalConfig),
    let listing :=
      client.getPrComments (repository cfg)
        (JS.toString (removalNumber removeConfig)) in
    let res := run (ensureCommentRemoval removeConfig) r cfg past in
    res = mkRun (Returned tt) cfg [listing]
    \/ exists threads thread comments c id,
         threadsOfReply (r past listing) = Some threads
         /\ In thread threads
         /\ Aws.comments thread = Some comments
         /\ In c comments
         /\ removalMatches removeConfig c = true
         /\ Aws.commentId c = Some id
         /\ id <> EmptyString
         /\ res
            = mkRun
                match r (past ++ [listing])%list (client.deleteComment id) with
                | inl e => Thrown e
                | inr _ => Returned tt
                end cfg [listing; client.deleteComment id].
Proof.
  intros r cfg past removeConfig listing res. subst listing res.
  unfold ensureCommentRemoval, threadsOfReply. simpl.
  destruct (r past (client.getPrComments (repository cfg)
                      (JS.toString (removalNumber removeConfig))))
    as [e | [[[threads|]]|]]; simpl; try (left; reflexivity).
  destruct (removeFirst_shape r cfg removeConfig threads None
              (past ++ [client.getPrComments (repository cfg)
                          (JS.toString (removalNumber removeConfig))])%list
              eq_refl)
    as [E | [thread [comments [c [id [H1 [H2 [H3 [H4 [H5 [H6 E]]]]]]]]]]];
    rewrite E; simpl.
  - left. reflexivity.
  - right. exists threads, thread, comments, c, id.
    repeat split; auto.
Qed.

(** ** Removal by content and white space *)

Lemma whiteSpace_not_empty (w : string) :
  In w JS.whiteSpace -> (0 < String.length w)%nat.
Proof.
  intros Hin. vm_compute in Hin.
  repeat (destruct Hin as [<-|Hin]; [simpl; lia|]). contradiction.
Qed.

Lemma trimStart_space (w y : string) :
  In w JS.whiteSpace -> JS.trimStart (w ++ y) = JS.trimStart y.
Proof.
  intros Hin. vm_compute in Hin.
  repeat (destruct Hin as [<-|Hin]; [reflexivity|]). contradiction.
Qed.

Lemma blank_space (w y : string) :
  In w JS.whiteSpace -> JS.blank (w ++ y) = JS.blank y.
Proof.
  intros Hin. vm_compute in Hin.
  repeat (destruct Hin as [<-|Hin]; [reflexivity|]). contradiction.
Qed.

Lemma trimStart_cons (a : ascii) (r1 : string) :
  JS.trimStart (String a r1)
  = if JS.isSpace (String a EmptyString) then JS.trimStart r1
    else
      match r1 with
      | EmptyString => String a r1
      | String b r2 =>
          if JS.isSpace (String a (String b EmptyString)) then JS.trimStart r2
          else
            match r2 with
            | EmptyString => String a r1
            | String c r3 =>
                if JS.isSpace (String a (String b (String c EmptyString)))
                then JS.trimStart r3
                else String a r1
            end
      end.
Proof. reflexivity. Qed.

(** One turn of [trimStart]: it is done, or it goes on with a shorter
    text. *)
Lemma trimStart_step (t : string) :
  JS.trimStart t = t
  \/ exists r,
       (String.length r < String.length t)%nat
       /\ JS.trimStart t = JS.trimStart r.
Proof.
  destruct t as [|a r1]; [left; reflexivity|].
  rewrite trimStart_cons.
  destruct (JS.isSpace (String a EmptyString)).
  { right. exists r1. split; [simpl; lia | reflexivity]. }
  destruct r1 as [|b r2]; [left; reflexivity|].
  destruct (JS.isSpace (String a (String b EmptyString))).
  { right. exists r2. split; [simpl; lia | reflexivity]. }
  destruct r2 as [|c r3]; [left; reflexivity|].
  destruct (JS.isSpace (String a (String b (String c EmptyString)))).
  { right. exists r3. split; [simpl; lia | reflexivity]. }
  left. reflexivity.
Qed.

Lemma trimStart_idempotent (t : string) :
  JS.trimStart (JS.trimStart t) = JS.trimStart t.
Proof.
  remember (String.length t) as n eqn:Hn. revert t Hn.
  induction n as [n IH] using lt_wf_ind. intros t ->.
  destruct (trimStart_step t) as [E | [r [Hlt E]]].
  - rewrite E. exact E.
  - rewrite E. apply (IH (String.length r) Hlt r eq_refl).
Qed.

Lemma trimStart_shorter (t : string) :
  (String.length (JS.trimStart t) <= String.length t)%nat.
Proof.
  remember (String.length t) as n eqn:Hn. revert t Hn.
  induction n as [n IH] using lt_wf_ind. intros t ->.
  destruct (trimStart_step t) as [E | [r [Hlt E]]].
  - rewrite E. lia.
  - rewrite E. pose proof (IH (String.length r) Hlt r eq_refl). lia.
Qed.

Lemma string_length_append (s1 s2 : string) :
  String.length (s1 ++ s2) = (String.length s1 + String.length s2)%nat.
Proof.
  induction s1 as [|c s1 IH]; simpl; [reflexivity | rewrite IH; reflexivity].
Qed.

Lemma string_append_assoc (s1 s2 s3 : string) :
  (s1 ++ s2) ++ s3 = s1 ++ s2 ++ s3.
Proof.
  induction s1 as [|c s1 IH]; simpl; [reflexivity | rewrite IH; reflexivity].
Qed.

(** What [trimStart] returns begins with no white space. *)
Lemma trimStart_no_space (t w y : string) :
  In w JS.whiteSpace -> JS.trimStart t <> w ++ y.
Proof.
  intros Hin E.
  pose proof (trimStart_idempotent t) as Hidem.
  rewrite E, (trimStart_space w y Hin) in Hidem.
  pose proof (trimStart_shorter y) as Hshort.
  rewrite Hidem, string_length_append in Hshort.
  pose proof (whiteSpace_not_empty w Hin). lia.
Qed.

(** [trimEnd] cuts white space off, and nothing else. *)
Lemma trimEnd_prefix (u : string) :
  exists x, u = JS.trimEnd u ++ x /\ JS.blank x = true.
Proof.
  induction u as [|c u [x [Hu Hx]]].
  - exists EmptyString. split; reflexivity.
  - cbn [JS.trimEnd]. destruct (JS.blank (String c u)) eqn:Hb.
    + exists (String c u). split; [reflexivity | exact Hb].
    + exists x. split; [|exact Hx]. simpl. rewrite <- Hu. reflexivity.
Qed.

(** What [trimEnd] returns ends with no white space. *)
Lemma trimEnd_no_space (w : string) :
  In w JS.whiteSpace -> forall u rest, JS.trimEnd u <> rest ++ w.
Proof.
  intros Hin. pose proof (whiteSpace_not_empty w Hin) as Hw.
  assert (Hnil : forall rest, EmptyString <> rest ++ w).
  { intros rest E. apply (f_equal String.length) in E.
    rewrite string_length_append in E. simpl in E. lia. }
  induction u as [|c u IH]; intros rest E.
  - apply (Hnil rest). exact E.
  - cbn [JS.trimEnd] in E. destruct (JS.blank (String c u)) eqn:Hb.
    + apply (Hnil rest). exact E.
    + destruct rest as [|d rest].
      * simpl in E. destruct (trimEnd_prefix u) as [x [Hu Hx]].
        assert (Hall : String c u = w ++ x).
        { rewrite <- E. simpl. rewrite <- Hu. reflexivity. }
        rewrite Hall, (blank_space w x Hin), Hx in Hb. discriminate Hb.
      * simpl in E. inversion E as [[Hc Hrest]].
        apply (IH rest). exact Hrest.
Qed.

(** A trimmed text neither begins nor ends with white space. *)
Lemma trim_not_padded (s : string) : ~ padded (JS.trim s).
Proof.
  intros [w [rest [Hin [E | E]]]]; unfold JS.trim in E.
  - destruct (trimEnd_prefix (JS.trimStart s)) as [x [Hs _]].
    rewrite E, string_append_assoc in Hs.
    apply (trimStart_no_space s w (rest ++ x) Hin). exact Hs.
  - apply (trimEnd_no_space w Hin (JS.trimStart s) rest). exact E.
Qed.

Lemma padded_key_never_matches (number : JS.Number) (key : string)
    (c : Aws.Comment) :
  padded key -> removalMatches (ByContent number key) c = false.
Proof.
  intros Hkey. simpl.
  destruct (Aws.content c) as [text|]; [|reflexivity].
  destruct (String.eqb_spec key (JS.trim text)) as [->|]; [|reflexivity].
  exfalso. apply (trim_not_padded text). exact Hkey.
Qed.

(** X17. Removal by content compares the key with the trimmed content of
    each comment, so a key that itself begins or ends with a white-space
    character, be it of ASCII or one of the other spaces and line
    terminators of the language, matches no comment: whatever the remote
    lists, [ensureCommentRemoval] by such a key deletes nothing. *)
Theorem ensureCommentRemoval_padded_key :
  forall (r : remote) (cfg : Config) (past : list client.call)
         (number : JS.Number) (key : string),
    padded key ->
    run (ensureCommentRemoval (ByContent number key)) r cfg past
    = mkRun (Returned tt) cfg
        [client.getPrComments (repository cfg) (JS.toString number)].
Proof.
  intros r cfg past number key Hkey.
  unfold ensureCommentRemoval. simpl.
  destruct (r past (client.getPrComments (repository cfg)
                      (JS.toString number)))
    as [e | [[[threads|]]|]]; simpl; try reflexivity.
  destruct (removeFirst_shape r cfg (ByContent number key) threads None
              (past ++ [client.getPrComments (repository cfg)
                          (JS.toString number)])%list eq_refl)
    as [E | [thread [comments [c [id [_ [_ [_ [Hc _]]]]]]]]].
  - rewrite E. reflexivity.
  - rewrite (padded_key_never_matches number key c Hkey) in Hc.
    discriminate Hc.
Qed.

Lemma ensureCommentRemoval_padded_key_witness :
  run (ensureCommentRemoval
         (ByContent (JS.Int 42) ("my comment content" ++ nbsp)))
    (fixed freshBackend) emptyConfig []
  = mkRun (Returned tt) emptyConfig [client.getPrComments None "42"].
Proof.
  apply (ensureCommentRemoval_padded_key (fixed freshBackend) emptyConfig []
           (JS.Int 42) ("my comment content" ++ nbsp)).
  exists nbsp, "my comment content". split.
  - do 6 right. left. reflexivity.
  - right. reflexivity.
Defined.

(** ** Initialisation: configuration and identity *)

(** X18. When the access key, the secret (each taken from the argument or,
    failing that, from the environment) or the region cannot be resolved,
    [initPlatform] throws the configuration error before any remote call
    and leaves [config] as it was. *)
Theorem initPlatform_missing_configuration :
  forall (env : Env) (endpoint username password : option string)
         (r : remote) (cfg : Config) (past : list client.call),
    JS.truthy (orEnv username (AWS_ACCESS_KEY_ID env))
    && JS.truthy (orEnv password (AWS_SECRET_ACCESS_KEY env))
    && JS.truthy (resolvedRegion env endpoint) = false ->
    run (initPlatform env endpoint username password) r cfg past
    = mkRun (Thrown (ErrorMsg initErrorMessage)) cfg [].
Proof.
  intros env endpoint username password r cfg past Hmissing.
  unfold initPlatform. unfold resolvedRegion in Hmissing.
  destruct (orEnv username (AWS_ACCESS_KEY_ID env)) as [key|];
    [|reflexivity].
  destruct (orEnv password (AWS_SECRET_ACCESS_KEY env)) as [secret|];
    [|reflexivity].
  destruct (if JS.truthy endpoint
            then match endpoint with
                 | Some e => execRegion e
                 | None => None
                 end
            else AWS_REGION env) as [reg|]; [|reflexivity].
  simpl in Hmissing. rewrite Hmissing. reflexivity.
Qed.

Lemma initPlatform_missing_configuration_witness :
  run (initPlatform
         {| AWS_ACCESS_KEY_ID := Some "key"; AWS_SECRET_ACCESS_KEY := None;
            AWS_REGION := Some "eu-central-1"; AWS_SESSION_TOKEN := None |}
         None None None) (fixed openBackend) emptyConfig []
  = mkRun (Thrown (ErrorMsg initErrorMessage)) emptyConfig [].
Proof.
  apply initPlatform_missing_configuration. reflexivity.
Defined.

(** X19. When the access key, the secret and the region are all resolved,
    [initPlatform] stores the region and the credentials in [config] (an
    argument taking precedence over the environment variable, the session
    token coming from the environment) and then asks for the identity,
    its only remote call.  If the identity resolves it is stored too and
    the endpoint returned is the endpoint argument as given, or the default
    endpoint of the region when there is none; if the identity call is
    rejected the rejection is thrown on, with the region and the
    credentials already stored. *)
Theorem initPlatform_resolved :
  forall (env : Env) (endpoint username password : option string)
         (r : remote) (cfg : Config) (past : list client.call)
         (key secret reg : string),
    orEnv username (AWS_ACCESS_KEY_ID env) = Some key ->
    orEnv password (AWS_SECRET_ACCESS_KEY env) = Some secret ->
    resolvedRegion env endpoint = Some reg ->
    key <> EmptyString ->
    secret <> EmptyString ->
    reg <> EmptyString ->
    let res := run (initPlatform env endpoint username password) r cfg past in
    let stored :=
      set_credentials
        {| accessKeyId := key;
           secretAccessKey := secret;
           sessionToken := AWS_SESSION_TOKEN env |}
        (set_region reg cfg) in
    calls res = [client.getUserArn]
    /\ match r past client.getUserArn with
       | inr arn =>
           final res = set_userArn arn stored
           /\ result res
              = Returned
                  {| endpoint :=
                       match endpoint with
                       | Some e => e
                       | None => defaultEndpoint reg
                       end |}
       | inl e => final res = stored /\ result res = Thrown e
       end.
Proof.
  intros env endpoint username password r cfg past key secret reg
    Hkey Hsecret Hreg Hk Hs Hr res stored. subst res stored.
  unfold initPlatform. unfold resolvedRegion in Hreg.
  rewrite Hkey, Hsecret, Hreg.
  apply String.eqb_neq in Hk, Hs, Hr. rewrite Hk, Hs, Hr. simpl.
  destruct (r past client.getUserArn) as [e|arn]; simpl.
  - repeat split; reflexivity.
  - repeat split; try reflexivity.
Qed.

Lemma initPlatform_resolved_witness :
  let res :=
    run (initPlatform
           {| AWS_ACCESS_KEY_ID := Some "envKey";
              AWS_SECRET_ACCESS_KEY := Some "envSecret";
              AWS_REGION := Some "us-east-1";
              AWS_SESSION_TOKEN := Some "token" |}
           (Some "https://git-codecommit.eu-central-1.amazonaws.com/")
           (Some "accessKeyId") None)
      (fixed openBackend) emptyConfig [] in
  calls res = [client.getUserArn]
  /\ final res
     = set_userArn "arn:aws:iam::user"
         (set_credentials
            {| accessKeyId := "accessKeyId";
               secretAccessKey := "envSecret";
               sessionToken := Some "token" |}
            (set_region "eu-central-1" emptyConfig))
  /\ result res
     = Returned
         {| endpoint := "https://git-codecommit.eu-central-1.amazonaws.com/" |}.
Proof.
  refine (initPlatform_resolved
            {| AWS_ACCESS_KEY_ID := Some "envKey";
               AWS_SECRET_ACCESS_KEY := Some "envSecret";
               AWS_REGION := Some "us-east-1";
               AWS_SESSION_TOKEN := Some "token" |}
            (Some "https://git-codecommit.eu-central-1.amazonaws.com/")
            (Some "accessKeyId") None (fixed openBackend) emptyConfig []
            "accessKeyId" "envSecret" "eu-central-1" eq_refl eq_refl eq_refl
            _ _ _); discriminate.
Defined.

(** ** The region of an endpoint *)

Lemma afterLiteral_sound (lit : string) :
  forall s rest, afterLiteral lit s = Some rest -> s = lit ++ rest.
Proof.
  induction lit as [|a lit IH]; intros s rest H; simpl in *.
  - inversion H. reflexivity.
  - destruct s as [|b s']; [discriminate H|].
    destruct (Ascii.eqb_spec a b) as [->|]; [|discriminate H].
    rewrite (IH s' rest H). reflexivity.
Qed.














(** ** The IAM client *)

Lemma nonSpaces_sound (s : string) :
  allChars notSpace (iam.nonSpaces s) = true
  /\ exists post, s = iam.nonSpaces s ++ post.
Proof.
  induction s as [|c s [IHa [post IHp]]]; simpl.
  - split; [reflexivity | exists EmptyString; reflexivity].
  - destruct (Ascii.eqb c " "%char) eqn:Hc; simpl.
    + split; [reflexivity | exists (String c s); reflexivity].
    + unfold notSpace at 1. rewrite Hc, IHa. split; [reflexivity|].
      exists post. rewrite <- IHp. reflexivity.
Qed.

Lemma arnHere_sound (s g : string) :
  iam.arnHere s = Some g ->
  g <> EmptyString
  /\ allChars notSpace g = true
  /\ exists post, s = g ++ post.
Proof.
  unfold iam.arnHere. intros H.
  destruct (nonSpaces_sound s) as [Hall Hpost].
  destruct (iam.nonSpaces s) as [|c g'] eqn:Hg; [discriminate H|].
  inversion H; subst g. repeat split; [discriminate | exact Hall | exact Hpost].
Qed.

Lemma spacesThenArn_sound (s : string) :
  forall g,
    iam.spacesThenArn s = Some g ->
    g <> EmptyString
    /\ allChars notSpace g = true
    /\ exists ws post,
         allChars JS.isWhiteSpace ws = true /\ s = ws ++ g ++ post.
Proof.
  assert (Hhere : forall s g,
    iam.arnHere s = Some g ->
    g <> EmptyString
    /\ allChars notSpace g = true
    /\ exists ws post,
         allChars JS.isWhiteSpace ws = true /\ s = ws ++ g ++ post).
  { intros s0 g H. destruct (arnHere_sound s0 g H) as [Hne [Hall [post Hp]]].
    repeat split; [exact Hne | exact Hall |].
    exists EmptyString, post. split; [reflexivity | exact Hp]. }
  induction s as [|c s IH]; intros g H.
  - apply Hhere. exact H.
  - cbn [iam.spacesThenArn] in H.
    destruct (JS.isWhiteSpace c) eqn:Hc; [|apply Hhere; exact H].
    destruct (iam.spacesThenArn s) as [g'|] eqn:Hrec; [|apply Hhere; exact H].
    inversion H; subst g'.
    destruct (IH g eq_refl) as [Hne [Hall [ws [post [Hws Hs]]]]].
    repeat split; [exact Hne | exact Hall |].
    exists (String c ws), post. split.
    + cbn [allChars]. rewrite Hc, Hws. reflexivity.
    + rewrite Hs. reflexivity.
Qed.

Lemma execUser_sound (message : string) :
  forall arn,
    iam.execUser message = Some arn ->
    arn <> EmptyString
    /\ allChars notSpace arn = true
    /\ namesUser message arn.
Proof.
  induction message as [|c message IH]; intros arn H.
  - vm_compute in H. discriminate H.
  - cbn [iam.execUser] in H.
    destruct (iam.userHere (String c message)) as [g|] eqn:Hhere.
    + inversion H; subst g. unfold iam.userHere in Hhere.
      destruct (afterLiteral "User:" (String c message)) as [rest|] eqn:Hlit;
        [|discriminate Hhere].
      apply afterLiteral_sound in Hlit.
      destruct (spacesThenArn_sound rest arn Hhere)
        as [Hne [Hall [ws [post [Hws Hrest]]]]].
      repeat split; [exact Hne | exact Hall |].
      exists EmptyString, ws, post. split; [exact Hws|].
      rewrite Hlit, Hrest. reflexivity.
    + destruct (IH arn H) as [Hne [Hall [pre [ws [post [Hws Hm]]]]]].
      repeat split; [exact Hne | exact Hall |].
      exists (String c pre), ws, post. split; [exact Hws|].
      rewrite Hm. reflexivity.
Qed.



(** X23. A rejection whose message nowhere holds [User:] is thrown again
    by [getUserArn] as it came. *)
Theorem getUserArn_rethrows :
  forall (message : string),
    (forall pre post : string, message <> pre ++ "User:" ++ post) ->
    iam.getUserArn (inl message) = Thrown (Rejected message).
Proof.
  intros message Hfree. unfold iam.getUserArn.
  destruct (iam.execUser message) as [g|] eqn:Hexec; [|reflexivity].
  destruct (execUser_sound message g Hexec)
    as [_ [_ [pre [ws [post [_ Hm]]]]]].
  exfalso. apply (Hfree pre (ws ++ g ++ post)). exact Hm.
Qed.

Lemma getUserArn_rethrows_witness :
  iam.getUserArn (inl "connect ETIMEDOUT")
  = Thrown (Rejected "connect ETIMEDOUT").
Proof.
  apply (getUserArn_rethrows "connect ETIMEDOUT").
  intros pre post H.
  repeat (destruct pre as [|? pre]; simpl in H;
          [discriminate H | first [discriminate H | injection H as _ H]]).
Defined.






(** X25. [initIamClient] makes one client: once a call has set the
    module's client, every later call returns that client and leaves it in
    place, whatever region and credentials it is given. *)
Theorem initIamClient_memoised :
  forall (region1 region2 : string) (credentials1 credentials2 : Credentials)
         (iam0 : option iam.IAMClient),
    snd (iam.initIamClient region1 credentials1 iam0)
    = Some (fst (iam.initIamClient region1 credentials1 iam0))
    /\ iam.initIamClient region2 credentials2
         (snd (iam.initIamClient region1 credentials1 iam0))
       = iam.initIamClient region1 credentials1 iam0
    /\ (iam0 = None ->
        iam.clientRegion (fst (iam.initIamClient region2 credentials2
                                 (snd (iam.initIamClient region1 credentials1
                                         iam0))))
        = region1).
Proof.
  intros region1 region2 credentials1 credentials2 iam0.
  destruct iam0 as [made|]; simpl; repeat split; try reflexivity.
  discriminate.
Qed.

(** ** Repository statistics *)

Lemma counted_cons (t : option string) (w : PrState) (pr : Pr)
    (l : list Pr) :
  counted t w (pr :: l)
  = ((if negb (stats.isOnboarding t pr) && PrState_eqb (state pr) w
      then 1 else 0) + counted t w l)%N.
Proof.
  unfold counted. cbn [filter].
  destruct (negb (stats.isOnboarding t pr) && PrState_eqb (state pr) w);
    cbn [length]; lia.
Qed.

Lemma countPr_fold (t : option string) (l : list Pr) :
  forall acc : stats.PrStats,
    fold_left (stats.countPr t) l acc
    = stats.mkStats
        (stats.total acc + counted t Open l + counted t Closed l
         + counted t Merged l + counted t All l + counted t NotOpen l)%N
        (stats.open acc + counted t Open l)%N
        (stats.closed acc + counted t Closed l)%N
        (stats.merged acc + counted t Merged l)%N.
Proof.
  induction l as [|pr l IH]; intros acc.
  - destruct acc as [a b c d]. unfold counted. simpl. f_equal; lia.
  - cbn [fold_left]. rewrite IH, !counted_cons. unfold stats.countPr.
    destruct (stats.isOnboarding t pr); cbn [negb andb].
    + f_equal; lia.
    + destruct (state pr); cbn [PrState_eqb stats.total stats.open
                                stats.closed stats.merged];
        f_equal; lia.
Qed.

(** X26. The statistics count what the loop says: each of [open], [closed]
    and [merged] is the number of pull requests in that state among those
    not passed over as onboarding requests, and [total] is their sum plus
    the number of counted pull requests in another state. *)
Theorem runRenovateRepoStats_counts :
  forall (onboardingPrTitle : option string) (prList : list Pr),
    stats.open (stats.runRenovateRepoStats onboardingPrTitle prList)
    = counted onboardingPrTitle Open prList
    /\ stats.closed (stats.runRenovateRepoStats onboardingPrTitle prList)
       = counted onboardingPrTitle Closed prList
    /\ stats.merged (stats.runRenovateRepoStats onboardingPrTitle prList)
       = counted onboardingPrTitle Merged prList
    /\ stats.total (stats.runRenovateRepoStats onboardingPrTitle prList)
       = (stats.open (stats.runRenovateRepoStats onboardingPrTitle prList)
          + stats.closed (stats.runRenovateRepoStats onboardingPrTitle prList)
          + stats.merged (stats.runRenovateRepoStats onboardingPrTitle prList)
          + counted onboardingPrTitle All prList
          + counted onboardingPrTitle NotOpen prList)%N
    /\ stats.total (stats.runRenovateRepoStats onboardingPrTitle prList)
       = N.of_nat
           (length
              (filter
                 (fun pr => negb (stats.isOnboarding onboardingPrTitle pr))
                 prList)).
Proof.
  intros t l. unfold stats.runRenovateRepoStats. rewrite countPr_fold.
  cbn [stats.total stats.open stats.closed stats.merged].
  repeat split; try lia.
  induction l as [|pr l IH]; [reflexivity|].
  rewrite !counted_cons. cbn [filter].
  destruct (stats.isOnboarding t pr); cbn [negb andb length].
  - lia.
  - destruct (state pr); cbn [PrState_eqb]; lia.
Qed.

Lemma counted_listed (t : option string) (w : PrState) (l : list Pr) :
  Forall listedEntry l ->
  w <> Open -> w <> Closed ->
  counted t w l = 0%N.
Proof.
  intros Hall Ho Hc. induction Hall as [|pr l [Hstate _] _ IH];
    [reflexivity|].
  rewrite counted_cons, IH.
  assert (Hw : PrState_eqb (state pr) w = false).
  { destruct (PrState_eqb (state pr) w) eqn:E; [|reflexivity].
    apply PrState_eqb_eq in E. subst w. destruct Hstate; contradiction. }
  rewrite Hw, andb_false_r. reflexivity.
Qed.

(** X27. Statistics over a directory that [getPrList] has just fetched
    never report a merged pull request: with an empty cache slot, whatever
    the remote replies, [merged] is 0 and [total] is [open + closed]. *)
Theorem repoStats_of_listing_never_merged :
  forall (r : remote) (cfg : Config) (past : list client.call)
         (l : list Pr) (onboardingPrTitle : option string),
    prList cfg = None ->
    result (run getPrList r cfg past) = Returned l ->
    stats.merged (stats.runRenovateRepoStats onboardingPrTitle l) = 0%N
    /\ stats.total (stats.runRenovateRepoStats onboardingPrTitle l)
       = (stats.open (stats.runRenovateRepoStats onboardingPrTitle l)
          + stats.closed (stats.runRenovateRepoStats onboardingPrTitle l))%N.
Proof.
  intros r cfg past l t Hslot Hrun.
  pose proof (getPrList_lists_open_or_closed r cfg past l Hslot Hrun) as Hall.
  destruct (runRenovateRepoStats_counts t l) as [_ [_ [Hm [Ht _]]]].
  rewrite Ht, Hm.
  rewrite (counted_listed t Merged l Hall), (counted_listed t All l Hall),
    (counted_listed t NotOpen l Hall) by discriminate.
  split; [reflexivity | lia].
Qed.

Lemma repoStats_of_listing_never_merged_witness :
  stats.merged
    (stats.runRenovateRepoStats None
       [ mkPr (JS.Int 1) (Some "refs/heads/feature") (Some "refs/heads/main")
           (Some "Update dep") Closed None None ])
  = 0%N
  /\ stats.total
       (stats.runRenovateRepoStats None
          [ mkPr (JS.Int 1) (Some "refs/heads/feature")
              (Some "refs/heads/main") (Some "Update dep") Closed None None ])
     = (stats.open
          (stats.runRenovateRepoStats None
             [ mkPr (JS.Int 1) (Some "refs/heads/feature")
                 (Some "refs/heads/main") (Some "Update dep") Closed None
                 None ])
        + stats.closed
            (stats.runRenovateRepoStats None
               [ mkPr (JS.Int 1) (Some "refs/heads/feature")
                   (Some "refs/heads/main") (Some "Update dep") Closed None
                   None ]))%N.
Proof.
  apply (repoStats_of_listing_never_merged (fixed mergedBackend) emptyConfig
           []
           [ mkPr (JS.Int 1) (Some "refs/heads/feature")
               (Some "refs/heads/main") (Some "Update dep") Closed None None ]
           None).
  - reflexivity.
  - reflexivity.
Defined.

(** ** Repositories *)

(** X28. [initRepo] records the repository before anything can fail and
    touches nothing else but the default branch: region, credentials, user
    and the cache of pull requests are as before.  So a directory cached
    for one repository is still what [getPrList] returns, without a remote
    call, after [initRepo] for another. *)
Theorem initRepo_keeps_prList_cache :
  forall (imports : RepoImports) (name : string) (endpoint : option string)
         (service : Repo.Remote) (cfg : Config),
    repository (Repo.configAfter (initRepo name endpoint service cfg))
    = Some name
    /\ prList (Repo.configAfter (initRepo name endpoint service cfg))
       = prList cfg
    /\ region (Repo.configAfter (initRepo name endpoint service cfg))
       = region cfg
    /\ credentials (Repo.configAfter (initRepo name endpoint service cfg))
       = credentials cfg
    /\ userArn (Repo.configAfter (initRepo name endpoint service cfg))
       = userArn cfg
    /\ forall (cached : list Pr) (r : remote) (past : list client.call),
         prList cfg = Some cached ->
         run getPrList r
           (Repo.configAfter (initRepo name endpoint service cfg)) past
         = mkRun (Returned cached)
             (Repo.configAfter (initRepo name endpoint service cfg)) [].
Proof.
  intros imports name endpoint service cfg.
  assert (Hkept :
    repository (Repo.configAfter (initRepo name endpoint service cfg))
    = Some name
    /\ prList (Repo.configAfter (initRepo name endpoint service cfg))
       = prList cfg
    /\ region (Repo.configAfter (initRepo name endpoint service cfg))
       = region cfg
    /\ credentials (Repo.configAfter (initRepo name endpoint service cfg))
       = credentials cfg
    /\ userArn (Repo.configAfter (initRepo name endpoint service cfg))
       = userArn cfg).
  { unfold initRepo.
    destruct (Repo.repositoryInfo service name) as [e|repo];
      [repeat split|].
    destruct (getCodeCommitUrl (region (set_repository name cfg)) name
                (credentials (set_repository name cfg))) as [e|url];
      [repeat split|].
    destruct (Repo.gitInit service url) as [e|u]; [repeat split|].
    destruct repo as [[[[[branch|] [repositoryId|]]|]]|];
      cbn [Repo.repositoryMetadata Repo.defaultBranch Repo.repositoryId];
      try (repeat split; fail).
    destruct (negb (branch =? "") && negb (repositoryId =? ""));
      repeat split. }
  destruct Hkept as [Hrepo [Hlist [Hregion [Hcred Huser]]]].
  repeat split; try assumption.
  intros cached r past Hcached.
  apply getPrList_cached. rewrite Hlist. exact Hcached.
Qed.

(** The cases of [initRepo]: each part of the statement is read off the
    branch taken. *)
Ltac initRepo_case :=
  repeat split; intros;
  repeat match goal with
    | H : inl _ = inr _ |- _ => discriminate H
    | H : inr _ = inl _ |- _ => discriminate H
    | H : inl _ = inl _ |- _ => inversion H; clear H; subst
    | H : inr _ = inr _ |- _ => inversion H; clear H; subst
    | H : Repo.outcomeOf _ = _ |- _ => cbn [Repo.outcomeOf] in H
    | H : Thrown _ = Thrown _ |- _ => inversion H; clear H; subst
    | H : Thrown _ = Returned _ |- _ => discriminate H
    | H : Returned _ = Thrown _ |- _ => discriminate H
    | H1 : ?x = inl _, H2 : ?x = inr _ |- _ =>
        rewrite H1 in H2; discriminate H2
    end;
  cbn [Repo.outcomeOf Repo.made Repo.configAfter defaultBranch
       set_repository set_defaultBranch];
  try reflexivity; auto.

(** X29. How [initRepo] ends.  A rejected repository lookup is the only
    call made.  Otherwise the URL is built, outside any [try]: what the
    helper throws, as it does when [config] holds no credentials, is
    thrown on as it is, with that lookup the only call made.  Once the URL
    is built the git initialisation follows, before the reply of the lookup
    is looked at, and its failure is reported as bad credentials whatever
    that reply holds.  What [initRepo] throws is one of its three messages
    or what the URL helper throws, never the error of the remote, and the
    default branch of [config] is then as before.  What it returns carries
    the non-empty default branch of the metadata, which [config] holds from
    then on, and is no fork. *)
Theorem initRepo_outcomes :
  forall (imports : RepoImports) (name : string) (endpoint : option string)
         (service : Repo.Remote) (cfg : Config),
    (forall e,
        Repo.repositoryInfo service name = inl e ->
        Repo.made (initRepo name endpoint service cfg)
        = [Repo.getRepositoryInfo name])
    /\ (forall repo e,
          Repo.repositoryInfo service name = inr repo ->
          getCodeCommitUrl (region cfg) name (credentials cfg) = inl e ->
          Repo.outcomeOf (initRepo name endpoint service cfg) = Thrown e
          /\ Repo.made (initRepo name endpoint service cfg)
             = [Repo.getRepositoryInfo name])
    /\ (forall repo url,
          Repo.repositoryInfo service name = inr repo ->
          getCodeCommitUrl (region cfg) name (credentials cfg) = inr url ->
          Repo.made (initRepo name endpoint service cfg)
          = [Repo.getRepositoryInfo name; Repo.gitInitRepo url])
    /\ (forall repo url e,
          Repo.repositoryInfo service name = inr repo ->
          getCodeCommitUrl (region cfg) name (credentials cfg) = inr url ->
          Repo.gitInit service url = inl e ->
          Repo.outcomeOf (initRepo name endpoint service cfg)
          = Thrown (ErrorMsg PLATFORM_BAD_CREDENTIALS))
    /\ (forall e,
          Repo.outcomeOf (initRepo name endpoint service cfg) = Thrown e ->
          (e = ErrorMsg REPOSITORY_NOT_FOUND
           \/ e = ErrorMsg PLATFORM_BAD_CREDENTIALS
           \/ e = ErrorMsg REPOSITORY_EMPTY
           \/ getCodeCommitUrl (region cfg) name (credentials cfg) = inl e)
          /\ defaultBranch (Repo.configAfter
                              (initRepo name endpoint service cfg))
             = defaultBranch cfg)
    /\ (forall res,
          Repo.outcomeOf (initRepo name endpoint service cfg) = Returned res ->
          Repo.resultBranch res <> EmptyString
          /\ Repo.isFork res = false
          /\ defaultBranch (Repo.configAfter
                              (initRepo name endpoint service cfg))
             = Some (Repo.resultBranch res)
          /\ exists metadata,
               Repo.repositoryInfo service name
               = inr (Some {| Repo.repositoryMetadata := Some metadata |})
               /\ Repo.defaultBranch metadata = Some (Repo.resultBranch res)
               /\ JS.truthy (Repo.repositoryId metadata) = true).
Proof.
  intros imports name endpoint service cfg. unfold initRepo.
  cbn [region credentials set_repository].
  destruct (Repo.repositoryInfo service name) as [e0|repo];
    [initRepo_case|].
  destruct (getCodeCommitUrl (region cfg) name (credentials cfg))
    as [e1|url] eqn:Hurl; [initRepo_case|].
  destruct (Repo.gitInit service url) as [e2|u] eqn:Hgit; [initRepo_case|].
  destruct repo as [[[[[branch|] [repositoryId|]]|]]|];
    cbn [Repo.repositoryMetadata Repo.defaultBranch Repo.repositoryId];
    try (initRepo_case; fail).
  destruct (branch =? "") eqn:Hb; [|destruct (repositoryId =? "") eqn:Hi];
    cbn [negb andb]; try (initRepo_case; fail).
  split; [initRepo_case|]. split; [initRepo_case|].
  split; [initRepo_case|]. split; [initRepo_case|].
  split; [initRepo_case|].
  intros res H. inversion H; subst res.
  cbn [Repo.resultBranch Repo.isFork].
  split; [apply String.eqb_neq; exact Hb|].
  split; [reflexivity|]. split; [reflexivity|].
  eexists. split; [reflexivity|]. split; [reflexivity|].
  cbn [Repo.repositoryId JS.truthy]. rewrite Hi. reflexivity.
Qed.

Lemma initRepo_outcomes_witness :
  Repo.outcomeOf
    (initRepo (imports := plainRepoImports) "repo" None
       (oneRepository None (inr tt)) emptyConfig)
  = Thrown TypeError
  /\ Repo.made
       (initRepo (imports := plainRepoImports) "repo" None
          (oneRepository None (inr tt)) emptyConfig)
     = [Repo.getRepositoryInfo "repo"].
Proof.
  apply (proj1 (proj2 (initRepo_outcomes plainRepoImports "repo" None
                         (oneRepository None (inr tt)) emptyConfig))
           (Some {| Repo.repositoryMetadata := None |}) TypeError);
    reflexivity.
Defined.

Lemma pushName_fold (l : list Repo.RepositoryNameIdPair) :
  forall res : list string,
    fold_left pushName l res = (res ++ flat_map nameOf l)%list.
Proof.
  induction l as [|repo l IH]; intros res; cbn [fold_left flat_map].
  - rewrite app_nil_r. reflexivity.
  - rewrite IH. unfold pushName, nameOf.
    destruct (Repo.repositoryName repo) as [name|]; [|reflexivity].
    destruct (name =? ""); [reflexivity|].
    rewrite <- app_assoc. reflexivity.
Qed.

(** X30. [getRepos] never throws, makes the one listing call and leaves
    [config] alone.  A rejected listing gives the empty list; otherwise the
    names returned are the non-empty names of the repositories listed, in
    the order of the listing, and a repository without a name is passed
    over. *)
Theorem getRepos_names :
  forall (service : Repo.Remote) (cfg : Config),
    exists names : list string,
      getRepos service cfg
      = Repo.mkRan (Returned names) cfg [Repo.listRepositories]
      /\ Forall (fun name => name <> EmptyString) names
      /\ (forall e, Repo.repositoryList service = inl e -> names = [])
      /\ (forall out listed,
            Repo.repositoryList service = inr (Some out) ->
            Repo.repositories out = Some listed ->
            names = flat_map nameOf listed
            /\ forall name,
                 In name names <->
                 name <> EmptyString
                 /\ In {| Repo.repositoryName := Some name |} listed).
Proof.
  intros service cfg.
  assert (Hnames : forall listed name,
    In name (flat_map nameOf listed) <->
    name <> EmptyString
    /\ In {| Repo.repositoryName := Some name |} listed).
  { intros listed name. rewrite in_flat_map. split.
    - intros [[[n|]] [Hin Hname]]; unfold nameOf in Hname;
        cbn [Repo.repositoryName] in Hname; [|contradiction].
      destruct (n =? "") eqn:Hn; [contradiction|].
      destruct Hname as [<-|[]]. split; [apply String.eqb_neq; exact Hn|].
      exact Hin.
    - intros [Hne Hin]. eexists. split; [exact Hin|].
      unfold nameOf. cbn [Repo.repositoryName].
      apply String.eqb_neq in Hne. rewrite Hne. left. reflexivity. }
  assert (Hfull : forall listed,
    Forall (fun name => name <> EmptyString) (flat_map nameOf listed)).
  { intros listed. apply Forall_forall. intros name Hin.
    apply Hnames in Hin. exact (proj1 Hin). }
  unfold getRepos.
  destruct (Repo.repositoryList service) as [e|[[[listed|]]|]].
  - exists []. repeat split; try constructor; try discriminate.
  - exists (flat_map nameOf listed).
    rewrite pushName_fold. split; [reflexivity|].
    split; [apply Hfull|]. split; [discriminate|].
    intros out listed' Hout Hlisted. inversion Hout; subst out.
    cbn [Repo.repositories] in Hlisted. inversion Hlisted; subst listed'.
    split; [reflexivity | apply Hnames].
  - exists []. split; [reflexivity|]. split; [constructor|].
    split; [discriminate|].
    intros out listed' Hout Hlisted. inversion Hout; subst out.
    discriminate Hlisted.
  - exists []. split; [reflexivity|]. split; [constructor|].
    split; [discriminate|].
    intros out listed' Hout Hlisted. discriminate Hout.
Qed.
